(** * Pious: the HRC hand export reader ([src/pious/hrc/hand.py])

    A shallow embedding of the lazy node graph of an exported HRC hand:
    the node cache ([NodeCache]), the node record ([HRCNode]), the two
    action classes ([Action], [PreviousAction]), the per-hand strategy
    ([HandStrategy]) and the session ([HRCSim]) with its settings classes.

    Python values are an inductive type, exceptions are the error side of
    a result type, and the mutable store (the cache dictionary, the node
    objects, the files opened and the lines printed) is threaded
    explicitly.  The functions of the Python library the code calls
    ([os.path], [str] methods, [int]) are written out for a POSIX system
    and ASCII strings. *)

From Stdlib Require Import ZArith String Ascii List Bool Lia.
From stdpp Require Import base option gmap strings.
Import ListNotations.

Set Warnings "-register-all".

Local Open Scope string_scope.
Local Open Scope Z_scope.

(** ** Python values *)

(** What [json.loads] can return, which is also every value the code
    receives as a node reference or as an action index.  A float is kept
    as its IEEE-754 binary64 bit pattern: the code only stores floats.  A
    dict is its items in insertion order (keys of a JSON object are
    strings, and distinct once parsed). *)
Inductive value : Type :=
| VNone
| VBool (b : bool)
| VInt (z : Z)
| VFloat (bits : Z)
| VStr (s : string)
| VList (l : list value)
| VDict (kvs : list (string * value)).

(** An object reference: the index of a node object in the store. *)
Definition loc := nat.

(** What a function of the module may be given or may return: a plain
    value or a reference to an [HRCNode] object. *)
Inductive pyobj : Type :=
| PVal (v : value)
| PNode (l : loc).

(** ** Exceptions *)

Inductive exn : Type :=
| KeyError (arg : value)
| TypeError
| IndexError
| AttributeError
| ValueError
| RuntimeError (msg : string)
| OSError (msg : string)
| JSONDecodeError.

Definition is_KeyError (e : exn) : bool :=
  match e with KeyError _ => true | _ => false end.

Inductive result (A : Type) : Type :=
| Ok (a : A)
| Err (e : exn).
Arguments Ok {A} a.
Arguments Err {A} e.

Definition rbind {A B} (r : result A) (k : A -> result B) : result B :=
  match r with
  | Ok a => k a
  | Err e => Err e
  end.

Declare Scope res_scope.
Delimit Scope res_scope with res.
Notation "x <-? c ;; k" := (rbind c (fun x => k))
  (at level 100, c at next level, right associativity) : res_scope.
Local Open Scope res_scope.

(** A list comprehension [[f(x) for x in l]]: stops at the first
    exception. *)
Fixpoint rmap {A B} (f : A -> result B) (l : list A) : result (list B) :=
  match l with
  | [] => Ok []
  | x :: l' => y <-? f x;; ys <-? rmap f l';; Ok (y :: ys)
  end.

(** ** Strings *)

(** [s.startswith(p)] *)
Fixpoint startswith (s p : string) {struct p} : bool :=
  match p, s with
  | EmptyString, _ => true
  | String _ _, EmptyString => false
  | String a p', String b s' => Ascii.eqb a b && startswith s' p'
  end.

(** [s.endswith(suf)] *)
Definition endswith (s suf : string) : bool :=
  let n := String.length s in
  let m := String.length suf in
  if (m <=? n)%nat then String.eqb (substring (n - m) m s) suf else false.

(** [s.split("/")] *)
Fixpoint split_sep (sep : ascii) (s : string) : list string :=
  match s with
  | EmptyString => [EmptyString]
  | String c s' =>
      if Ascii.eqb c sep then EmptyString :: split_sep sep s'
      else
        match split_sep sep s' with
        | [] => [String c EmptyString]
        | w :: ws => String c w :: ws
        end
  end.

(** ["/".join(l)] *)
Fixpoint join_sep (sep : string) (l : list string) : string :=
  match l with
  | [] => EmptyString
  | [w] => w
  | w :: ws => w ++ sep ++ join_sep sep ws
  end.

Definition char_in (c : ascii) (chars : string) : bool :=
  existsb (Ascii.eqb c) (list_ascii_of_string chars).

Fixpoint lstrip (chars : string) (s : string) : string :=
  match s with
  | EmptyString => EmptyString
  | String c s' => if char_in c chars then lstrip chars s' else s
  end.

Definition string_rev (s : string) : string :=
  string_of_list_ascii (rev (list_ascii_of_string s)).

Definition rstrip (chars : string) (s : string) : string :=
  string_rev (lstrip chars (string_rev s)).

(** [s.strip(chars)]: drops from both ends every character that occurs in
    [chars] (a set of characters, not a suffix). *)
Definition strip (s chars : string) : string := rstrip chars (lstrip chars s).

(** ** [os.path] on a POSIX system *)

(** [posixpath.join(a, b)] *)
Definition join (a b : string) : string :=
  if startswith b "/" then b
  else if String.eqb a "" || endswith a "/" then a ++ b
  else a ++ "/" ++ b.

(** The loop of [posixpath.normpath] over the components; [new_comps] is
    kept reversed (its last component first). *)
Fixpoint normpath_comps (initial_slashes : nat) (comps new_comps : list string)
  : list string :=
  match comps with
  | [] => rev new_comps
  | comp :: comps' =>
      if String.eqb comp "" || String.eqb comp "." then
        normpath_comps initial_slashes comps' new_comps
      else if negb (String.eqb comp "..")
              || (Nat.eqb initial_slashes 0
                  && match new_comps with [] => true | _ => false end)
              || match new_comps with
                 | last :: _ => String.eqb last ".."
                 | [] => false
                 end
      then normpath_comps initial_slashes comps' (comp :: new_comps)
      else normpath_comps initial_slashes comps' (tl new_comps)
  end.

Fixpoint repeat_string (n : nat) (s : string) : string :=
  match n with
  | O => EmptyString
  | S n' => s ++ repeat_string n' s
  end.

(** The variable [initial_slashes] of [posixpath.normpath]: POSIX keeps
    two leading slashes apart from one, and three or more are one. *)
Definition initial_slashes (path : string) : nat :=
  if startswith path "/" then
    if startswith path "//" && negb (startswith path "///") then 2%nat
    else 1%nat
  else 0%nat.

(** [posixpath.normpath(path)] *)
Definition normpath (path : string) : string :=
  if String.eqb path "" then "."
  else
    let new_comps :=
      normpath_comps (initial_slashes path) (split_sep "/" path) [] in
    let path' :=
      repeat_string (initial_slashes path) "/" ++ join_sep "/" new_comps in
    if String.eqb path' "" then "." else path'.

(** [posixpath.abspath(path)], with [cwd] the result of [os.getcwd()]. *)
Definition abspath (cwd path : string) : string :=
  if startswith path "/" then normpath path else normpath (join cwd path).

(** [posixpath.basename(p)]: what follows the last slash. *)
Definition basename (p : string) : string :=
  List.last (split_sep "/" p) EmptyString.

(** ** Integers and text *)

Definition digit_of_nat (n : nat) : ascii := ascii_of_nat (48 + n).

(** The decimal digits of a positive number, most significant first;
    [fuel] bounds the number of digits. *)
Fixpoint digits_of (fuel : nat) (n : N) (acc : string) : string :=
  match fuel with
  | O => acc
  | S fuel' =>
      let acc' := String (digit_of_nat (N.to_nat (n mod 10))) acc in
      if (n / 10 =? 0)%N then acc' else digits_of fuel' (n / 10)%N acc'
  end.

(** [str(i)] for an [int]. *)
Definition str_of_Z (z : Z) : string :=
  let n := Z.to_N (Z.abs z) in
  let ds := digits_of (S (N.to_nat (N.log2 n))) n "" in
  if z <? 0 then "-" ++ ds else ds.

(** The whitespace [int] skips around a number in a text of ASCII
    characters: tab, line feed, vertical tab, form feed, carriage return
    and space.  (The separators 28 to 31 are whitespace for [str.isspace],
    not for [int].) *)
Definition is_space (c : ascii) : bool :=
  let n := nat_of_ascii c in
  ((9 <=? n) && (n <=? 13) || (n =? 32))%nat.

Definition digit_val (c : ascii) : option Z :=
  let n := nat_of_ascii c in
  if ((48 <=? n) && (n <=? 57))%nat then Some (Z.of_nat (n - 48)) else None.

Fixpoint lstrip_space (s : string) : string :=
  match s with
  | String c s' => if is_space c then lstrip_space s' else s
  | EmptyString => EmptyString
  end.

(** Digits with single underscores between them; [prev_digit] says whether
    the character before was a digit. *)
Fixpoint parse_digits (s : string) (acc : Z) (prev_digit : bool) : option Z :=
  match s with
  | EmptyString => if prev_digit then Some acc else None
  | String c s' =>
      match digit_val c with
      | Some d => parse_digits s' (10 * acc + d) true
      | None =>
          if Ascii.eqb c "_" && prev_digit then
            match s' with
            | String c' _ =>
                match digit_val c' with
                | Some _ => parse_digits s' acc false
                | None => None
                end
            | EmptyString => None
            end
          else None
      end
  end.

(** [int(s)] for a [str] of ASCII characters in base 10; [None] is
    [ValueError].  The limit CPython 3.11 puts on the digits of the text
    (4300 unless lifted) is not modelled: a file name is shorter. *)
Definition py_int (s : string) : option Z :=
  let t := string_rev (lstrip_space (string_rev (lstrip_space s))) in
  match t with
  | String "-" t' => option_map Z.opp (parse_digits t' 0 false)
  | String "+" t' => parse_digits t' 0 false
  | _ => parse_digits t 0 false
  end.

(** ** Operations on Python values *)

Fixpoint dict_get (kvs : list (string * value)) (k : string) : option value :=
  match kvs with
  | [] => None
  | (k', v) :: kvs' => if String.eqb k' k then Some v else dict_get kvs' k
  end.

(** [seq[i]] on a list, tuple or string of length [n]: a negative index
    counts from the end, anything outside [-n, n) is [IndexError]. *)
Definition index {A} (l : list A) (i : Z) : result A :=
  let n := Z.of_nat (length l) in
  let j := if i <? 0 then i + n else i in
  if (0 <=? j) && (j <? n) then
    match l !! Z.to_nat j with
    | Some x => Ok x
    | None => Err IndexError
    end
  else Err IndexError.

(** [isinstance(v, int)]: [bool] is a subclass of [int]. *)
Definition as_int (v : value) : option Z :=
  match v with
  | VInt z => Some z
  | VBool b => Some (if b then 1 else 0)
  | _ => None
  end.

(** [c[k]] *)
Definition subscript (c k : value) : result value :=
  match c with
  | VDict kvs =>
      match k with
      | VStr s =>
          match dict_get kvs s with
          | Some v => Ok v
          | None => Err (KeyError k)
          end
      | VList _ | VDict _ => Err TypeError
      | _ => Err (KeyError k)
      end
  | VList l =>
      match as_int k with
      | Some i => index l i
      | None => Err TypeError
      end
  | VStr s =>
      match as_int k with
      | Some i =>
          ch <-? index (list_ascii_of_string s) i;; Ok (VStr (String ch ""))
      | None => Err TypeError
      end
  | _ => Err TypeError
  end.

(** [d.get(k, None)] *)
Definition dict_method_get (d : value) (k : string) : result value :=
  match d with
  | VDict kvs =>
      match dict_get kvs k with
      | Some v => Ok v
      | None => Ok VNone
      end
  | _ => Err AttributeError
  end.

(** [for x in v]: the elements of a list, the keys of a dict, the
    characters of a string. *)
Definition iterate (v : value) : result (list value) :=
  match v with
  | VList l => Ok l
  | VDict kvs => Ok (map (fun kv => VStr (fst kv)) kvs)
  | VStr s => Ok (map (fun ch => VStr (String ch "")) (list_ascii_of_string s))
  | _ => Err TypeError
  end.

(** ** The action classes *)

(** [class PreviousAction] *)
Record PreviousAction : Type := mkPreviousAction {
  PreviousAction_player : value;
  PreviousAction_type : value;
  PreviousAction_amount : value
}.

Definition PreviousAction_init (d : value) : result PreviousAction :=
  player <-? subscript d (VStr "player");;
  type <-? subscript d (VStr "type");;
  amount <-? subscript d (VStr "amount");;
  Ok (mkPreviousAction player type amount).

(** [class Action] *)
Record Action : Type := mkAction {
  Action_player : value;
  Action_type : value;
  Action_amount : value;
  Action_next_id : value
}.

(** [Action.__init__(self, d, player=None)] *)
Definition Action_init (d : value) (player : value) : result Action :=
  player' <-? match player with
              | VNone => dict_method_get d "player"
              | _ => Ok player
              end;;
  type <-? subscript d (VStr "type");;
  amount <-? subscript d (VStr "amount");;
  next_id <-? dict_method_get d "node";;
  Ok (mkAction player' type amount next_id).

(** [Action.action_map] *)
Definition action_map : list (string * string) :=
  [("R", "Raise"); ("F", "Fold"); ("C", "Call")].

(** ** [class HandStrategy] *)

Record HandStrategy : Type := mkHandStrategy {
  HandStrategy_hand_data_json : value;
  HandStrategy_hand : value;
  HandStrategy_weight : value;
  HandStrategy_played : list value;
  HandStrategy_evs : list value
}.

(** [copy.deepcopy] of a value is an equal value. *)
Definition deepcopy (v : value) : value := v.

Definition HandStrategy_init (hand d : value) : result HandStrategy :=
  let hand_data_json := deepcopy d in
  weight <-? subscript d (VStr "weight");;
  played <-? (x <-? subscript d (VStr "played");; iterate x);;
  evs <-? (x <-? subscript d (VStr "evs");; iterate x);;
  Ok (mkHandStrategy hand_data_json hand weight played evs).

Definition HandStrategy_as_json (h : HandStrategy) : value :=
  HandStrategy_hand_data_json h.

(** ** The settings classes *)

Record SolveData : Type := mkSolveData {
  SolveData_hand_data_json : value;
  SolveData_stacks : value;
  SolveData_blinds : value;
  SolveData_skip_sb : value;
  SolveData_moving_bu : value;
  SolveData_ante_type : value
}.

Definition SolveData_init (d : value) : result SolveData :=
  stacks <-? subscript d (VStr "stacks");;
  blinds <-? subscript d (VStr "blinds");;
  skip_sb <-? subscript d (VStr "skipSb");;
  moving_bu <-? subscript d (VStr "movingBu");;
  ante_type <-? subscript d (VStr "anteType");;
  Ok (mkSolveData d stacks blinds skip_sb moving_bu ante_type).

Record TreeConfig : Type := mkTreeConfig {
  TreeConfig_tree_config_json : value;
  TreeConfig_mode : value
}.

Definition TreeConfig_init (d : value) : result TreeConfig :=
  mode <-? subscript d (VStr "mode");;
  Ok (mkTreeConfig d mode).

Record EngineConfiguration : Type := mkEngineConfiguration {
  EngineConfiguration_engine_configuration_json : value;
  EngineConfiguration_preflop_abstractions : value;
  EngineConfiguration_flop_abstractions : value;
  EngineConfiguration_turn_abstractions : value;
  EngineConfiguration_river_abstractions : value
}.

Definition EngineConfiguration_init (d : value) : result EngineConfiguration :=
  abstractions <-? subscript d (VStr "abstractions");;
  preflop <-? (a <-? subscript abstractions (VInt 0);; subscript a (VStr "buckets"));;
  flop <-? (a <-? subscript abstractions (VInt 1);; subscript a (VStr "buckets"));;
  turn <-? (a <-? subscript abstractions (VInt 2);; subscript a (VStr "buckets"));;
  river <-? (a <-? subscript abstractions (VInt 3);; subscript a (VStr "buckets"));;
  Ok (mkEngineConfiguration d preflop flop turn river).

Record Engine : Type := mkEngine {
  Engine_engine_json : value;
  Engine_type : value;
  Engine_max_active : value;
  Engine_configuration : EngineConfiguration
}.

Definition Engine_init (d : value) : result Engine :=
  type <-? subscript d (VStr "type");;
  max_active <-? subscript d (VStr "maxactive");;
  configuration <-? (c <-? subscript d (VStr "configuration");;
                     EngineConfiguration_init c);;
  Ok (mkEngine d type max_active configuration).

Record EqModel : Type := mkEqModel {
  EqModel_eq_model_json : value;
  EqModel_rake_cap : value;
  EqModel_rake_pct : value;
  EqModel_id : value;
  EqModel_nfnd : value;
  EqModel_raked : value
}.

Definition EqModel_init (d : value) : result EqModel :=
  rake_cap <-? subscript d (VStr "rakecap");;
  rake_pct <-? subscript d (VStr "rakepct");;
  id <-? subscript d (VStr "id");;
  nfnd <-? subscript d (VStr "nfnd");;
  raked <-? subscript d (VStr "raked");;
  Ok (mkEqModel d rake_cap rake_pct id nfnd raked).

Record SolveSettings : Type := mkSolveSettings {
  SolveSettings_settings_json : value;
  SolveSettings_hand_data : SolveData;
  SolveSettings_tree_config : TreeConfig;
  SolveSettings_engine : Engine;
  SolveSettings_eq_model : EqModel
}.

Definition SolveSettings_init (settings : value) : result SolveSettings :=
  hand_data <-? (d <-? subscript settings (VStr "handdata");; SolveData_init d);;
  tree_config <-? (d <-? subscript settings (VStr "treeconfig");; TreeConfig_init d);;
  engine <-? (d <-? subscript settings (VStr "engine");; Engine_init d);;
  eq_model <-? (d <-? subscript settings (VStr "eqmodel");; EqModel_init d);;
  Ok (mkSolveSettings settings hand_data tree_config engine eq_model).

Definition SolveSettings_as_json (s : SolveSettings) : value :=
  SolveSettings_settings_json s.

(** ** The file system, the store and effects *)

(** What the code asks of the operating system.  [load_json p] is the
    outcome of [open(p)], [f.read()] and [json.loads] together. *)
Record filesystem : Type := mkFilesystem {
  getcwd : string;
  path_exists : string -> bool;
  load_json : string -> result value;
  listdir : string -> result (list string)
}.

(** What [print] is given. *)
Inductive printable : Type :=
| PrVal (v : value)
| PrExn (e : exn).

Inductive event : Type :=
| EOpen (path : string)
| EPrint (args : list printable).

(** [class HRCNode].  The four attributes assigned inside the [try] block
    are unset ([None] here) when a [KeyError] interrupted the block before
    their assignment.  [hands] is the dict built by the comprehension, as
    its items in insertion order. *)
Record HRCNode : Type := mkHRCNode {
  HRCNode_filename : string;
  HRCNode_id : Z;
  HRCNode_node_json : value;
  HRCNode_player : option value;
  HRCNode_street : option value;
  HRCNode_children : option value;
  HRCNode_sequence : option (list PreviousAction);
  HRCNode_actions : list Action;
  HRCNode_hands : list (value * HandStrategy)
}.

(** The store of one session: its [NodeCache] object ([nodes_path] and
    the [cache] dict, whose keys are the values [node_path] takes, [None]
    or a string), the [HRCNode] objects created so far (an object is
    identified by its position in [heap]; the [node_cache] attribute of
    each is the session's cache), and the files opened and lines printed,
    oldest first. *)
Record world : Type := mkWorld {
  nodes_path : string;
  cache : gmap (option string) loc;
  heap : list HRCNode;
  trace : list event
}.

(** [NodeCache.__init__] *)
Definition NodeCache_init (nodes_path : string) : world :=
  mkWorld nodes_path ∅ [] [].

(** A computation on the store that may raise; effects made before the
    exception stay. *)
Definition M (A : Type) : Type := world -> result A * world.

Definition ret {A} (a : A) : M A := fun w => (Ok a, w).

Definition raise {A} (e : exn) : M A := fun w => (Err e, w).

Definition bind {A B} (m : M A) (k : A -> M B) : M B :=
  fun w =>
    match m w with
    | (Ok a, w') => k a w'
    | (Err e, w') => (Err e, w')
    end.

Definition lift {A} (r : result A) : M A := fun w => (r, w).

Definition emit (ev : event) : M unit :=
  fun w => (Ok tt, mkWorld (nodes_path w) (cache w) (heap w) (trace w ++ [ev])).

Declare Scope m_scope.
Delimit Scope m_scope with M.
Notation "x <- c ;; k" := (bind c (fun x => k))
  (at level 100, c at next level, right associativity) : m_scope.
Notation "c ;;; k" := (bind c (fun _ => k))
  (at level 100, right associativity) : m_scope.

(** How many times [path] was opened. *)
Definition opens (path : string) (t : list event) : nat :=
  length (List.filter (fun ev => match ev with
                                 | EOpen p => String.eqb p path
                                 | EPrint _ => false
                                 end) t).

(** ** [class HRCNode]: construction *)

(** The assignments of the [try] block of [HRCNode.__init__], in order:
    the attributes set before the first exception, and that exception. *)
Record try_block_result : Type := mkTry {
  try_player : option value;
  try_street : option value;
  try_children : option value;
  try_sequence : option (list PreviousAction);
  try_raised : option exn
}.

Definition try_block (d : value) : try_block_result :=
  match subscript d (VStr "player") with
  | Err e => mkTry None None None None (Some e)
  | Ok player =>
      match subscript d (VStr "street") with
      | Err e => mkTry (Some player) None None None (Some e)
      | Ok street =>
          match subscript d (VStr "children") with
          | Err e => mkTry (Some player) (Some street) None None (Some e)
          | Ok children =>
              match (s <-? subscript d (VStr "sequence");;
                     xs <-? iterate s;;
                     rmap PreviousAction_init xs)%res with
              | Err e =>
                  mkTry (Some player) (Some street) (Some children) None (Some e)
              | Ok sequence =>
                  mkTry (Some player) (Some street) (Some children)
                        (Some sequence) None
              end
          end
      end
  end.

(** [tuple([Action(a) for a in d["actions"]])] *)
Definition parse_actions (d : value) : result (list Action) :=
  a <-? subscript d (VStr "actions");;
  xs <-? iterate a;;
  rmap (fun x => Action_init x VNone) xs.

(** [{h: HandStrategy(h, d["hands"][h]) for h in d["hands"]}] *)
Definition parse_hands (d : value) : result (list (value * HandStrategy)) :=
  hs <-? subscript d (VStr "hands");;
  keys <-? iterate hs;;
  rmap (fun h =>
          hs' <-? subscript d (VStr "hands");;
          x <-? subscript hs' h;;
          s <-? HandStrategy_init h x;;
          Ok (h, s)) keys.

Section Hand.

Variable fs : filesystem.

Local Open Scope m_scope.

(** [HRCNode.__init__(self, node_json_file, node_cache)].  With
    [node_json_file] being [None], [osp.basename] raises [TypeError]. *)
Definition HRCNode_init (node_json_file : option string) : M HRCNode :=
  match node_json_file with
  | None => raise TypeError
  | Some file =>
      match py_int (strip (basename file) ".json") with
      | None => raise ValueError
      | Some id =>
          emit (EOpen file);;;
          d <- lift (load_json fs file);;
          let t := try_block d in
          match try_raised t with
          | Some (KeyError k) =>
              emit (EPrint [PrVal d]);;;
              emit (EPrint [PrExn (KeyError k)]);;;
              emit (EPrint [PrVal (VStr file)])
          | Some e => raise e
          | None => ret tt
          end;;;
          actions <- lift (parse_actions d);;
          hands <- lift (parse_hands d);;
          ret (mkHRCNode file id d (try_player t) (try_street t)
                         (try_children t) (try_sequence t) actions hands)
      end
  end.

Definition HRCNode_get_actions (n : HRCNode) : list Action := HRCNode_actions n.

Definition HRCNode_get_hands (n : HRCNode) : list (value * HandStrategy) :=
  HRCNode_hands n.

Definition HRCNode_as_json (n : HRCNode) : value := HRCNode_node_json n.

(** ** [class NodeCache] *)

(** [f"{item}"] for an [int] (or [bool]).  The limit CPython 3.11 puts on
    the digits of such a conversion (4300 unless lifted) is not modelled:
    a node file cannot hold an id that long. *)
Definition format_int (v : value) : option string :=
  match v with
  | VInt z => Some (str_of_Z z)
  | VBool true => Some "True"
  | VBool false => Some "False"
  | _ => None
  end.

(** The first part of [NodeCache.__getitem__]: the value of [node_path]
    when the lookup in the cache is reached, or the [KeyError]. *)
Definition canonicalize (nodes_path : string) (item : pyobj) : result (option string) :=
  let item :=
    match item with
    | PVal v =>
        match format_int v with
        | Some s =>
            PVal (VStr (abspath (getcwd fs) (join nodes_path (s ++ ".json"))))
        | None => item
        end
    | PNode _ => item
    end in
  match item with
  | PVal (VStr item) =>
      if startswith item nodes_path && endswith item ".json"
         && path_exists fs item
      then Ok (Some (abspath (getcwd fs) item))
      else if endswith item ".json" && path_exists fs (join nodes_path item)
      then Ok (Some (abspath (getcwd fs) (join nodes_path item)))
      else Err (KeyError (VStr ("No such node " ++ item)))
  | _ => Ok None
  end.

(** [NodeCache.__getitem__(self, item)]: the node object for [item]. *)
Definition NodeCache_getitem (item : pyobj) : M loc :=
  fun w =>
    match canonicalize (nodes_path w) item with
    | Err e => (Err e, w)
    | Ok node_path =>
        match cache w !! node_path with
        | Some l => (Ok l, w)
        | None =>
            match HRCNode_init node_path w with
            | (Err e, w') => (Err e, w')
            | (Ok n, w') =>
                let l := length (heap w') in
                (Ok l, mkWorld (nodes_path w') (<[node_path := l]> (cache w'))
                               (heap w' ++ [n]) (trace w'))
            end
        end
    end.

(** ** [class HRCNode]: traversal *)

(** [HRCNode.take_action(self, action)] *)
Definition HRCNode_take_action (self : HRCNode) (action : pyobj) : M pyobj :=
  match action with
  | PVal v =>
      match as_int v with
      | Some i =>
          a <- lift (index (HRCNode_get_actions self) i);;
          match Action_next_id a with
          | VNone => ret (PVal VNone)
          | next_id => l <- NodeCache_getitem (PVal next_id);; ret (PNode l)
          end
      | None => raise (RuntimeError "Can only take integer actions")
      end
  | PNode _ => raise (RuntimeError "Can only take integer actions")
  end.

(** ** [class HRCSim] *)

Record HRCSim : Type := mkHRCSim {
  HRCSim_hand_export_dir : string;
  HRCSim_settings_json_path : string;
  HRCSim_settings : SolveSettings;
  HRCSim_nodes : list loc;
  HRCSim_nodes_path : string
}.

(** The loop of [HRCSim.__init__] over the directory listing; [nodes] is
    [self.nodes] so far. *)
Fixpoint load_nodes (nodes_path : string) (files : list string) (nodes : list loc)
  : M (list loc) :=
  match files with
  | [] => ret nodes
  | node_file_json :: files' =>
      if negb (endswith node_file_json ".json") then
        emit (EPrint [PrVal (VStr "Warning: unrecognized file");
                      PrVal (VStr node_file_json);
                      PrVal (VStr "in nodes path:");
                      PrVal (VStr nodes_path)]);;;
        load_nodes nodes_path files' nodes
      else
        node <- NodeCache_getitem (PVal (VStr (join nodes_path node_file_json)));;
        load_nodes nodes_path files' (nodes ++ [node])
  end.

(** [HRCSim.__init__(self, hand_export_dir)]: the session and the store it
    leaves. *)
Definition HRCSim_init (hand_export_dir : string) : result HRCSim * world :=
  let settings_json_path := join hand_export_dir "settings.json" in
  let nodes_path := join hand_export_dir "nodes" in
  (emit (EOpen settings_json_path);;;
   contents <- lift (load_json fs settings_json_path);;
   settings <- lift (SolveSettings_init contents);;
   files <- lift (listdir fs nodes_path);;
   nodes <- load_nodes nodes_path files [];;
   ret (mkHRCSim hand_export_dir settings_json_path settings nodes nodes_path))
    (NodeCache_init nodes_path).

(** [HRCSim.get_node(self, node_id)] *)
Definition HRCSim_get_node (node_id : pyobj) : M loc := NodeCache_getitem node_id.

End Hand.

(** ** Predicates used in the statements *)

Definition is_Ok {A} (r : result A) : bool :=
  match r with Ok _ => true | Err _ => false end.

(** [isinstance(o, int)] *)
Definition isinstance_int (o : pyobj) : bool :=
  match o with
  | PVal v => match as_int v with Some _ => true | None => false end
  | PNode _ => false
  end.

(** [isinstance(o, str)] *)
Definition isinstance_str (o : pyobj) : bool :=
  match o with
  | PVal (VStr _) => true
  | _ => false
  end.

(** The store is consistent: nothing is cached under [None], and every
    cached reference is to an object of the store. *)
Definition store_ok (w : world) : Prop :=
  cache w !! None = None /\
  forall k l, cache w !! k = Some l -> (l < length (heap w))%nat.

(** The [try] block raised nothing that its [except KeyError] lets
    through. *)
Definition try_caught (t : try_block_result) : bool :=
  match try_raised t with
  | Some e => is_KeyError e
  | None => true
  end.

(** Whether an attribute of the [try] block is set on a node. *)
Definition attr_set (n : HRCNode) (attr : string) : bool :=
  if String.eqb attr "player" then bool_decide (is_Some (HRCNode_player n))
  else if String.eqb attr "street" then bool_decide (is_Some (HRCNode_street n))
  else if String.eqb attr "children" then bool_decide (is_Some (HRCNode_children n))
  else if String.eqb attr "sequence" then bool_decide (is_Some (HRCNode_sequence n))
  else false.

(** What [HRCNode.__init__] makes of the content [d] of its file, once the
    id is known and the file is read: the effects on the trace left out. *)
Definition HRCNode_of_json (file : string) (id : Z) (d : value) : result HRCNode :=
  let t := try_block d in
  if try_caught t then
    (actions <-? parse_actions d;;
     hands <-? parse_hands d;;
     Ok (mkHRCNode file id d (try_player t) (try_street t) (try_children t)
                   (try_sequence t) actions hands))%res
  else
    match try_raised t with
    | Some e => Err e
    | None => Err TypeError
    end.

(** The attributes assigned in the [try] block, in order, and the first
    of them a JSON object lacks. *)
Definition try_attrs : list string := ["player"; "street"; "children"; "sequence"].

Definition first_missing (kvs : list (string * value)) : option string :=
  List.find (fun attr => match dict_get kvs attr with
                         | None => true
                         | Some _ => false
                         end) try_attrs.

(** Every path in the cache is one a node can be built from. *)
Definition cache_loadable (fs : filesystem) (w : world) : Prop :=
  forall k l, cache w !! k = Some l ->
              is_Ok (fst (HRCNode_init fs k w)) = true.

(** A path component: no slash inside. *)
Fixpoint no_slash (s : string) : bool :=
  match s with
  | EmptyString => true
  | String ch s' => negb (Ascii.eqb ch "/") && no_slash s'
  end.

(** A component [normpath] keeps as it is. *)
Definition plain (c : string) : bool :=
  no_slash c && negb (String.eqb c "") && negb (String.eqb c ".")
  && negb (String.eqb c "..").

(** The shape of a normalized absolute path: one or two slashes, then
    plain components joined by slashes. *)
Definition normal_path (n : nat) (cs : list string) : string :=
  repeat_string n "/" ++ join_sep "/" cs.

(** Whether the entry [name] of the nodes directory resolves when the
    session opens: its path canonicalizes and a node is built from it. *)
Definition entry_loads (fs : filesystem) (nodes_path name : string) : bool :=
  match canonicalize fs nodes_path (PVal (VStr (join nodes_path name))) with
  | Ok node_path =>
      is_Ok (fst (HRCNode_init fs node_path (NodeCache_init nodes_path)))
  | Err _ => false
  end.

(** ** The remaining methods *)

(** [HRCNode.get_hands_as_json]: the dict
    [{k: v.as_json() for (k, v) in self.hands.items()}], as its items. *)
Definition HRCNode_get_hands_as_json (n : HRCNode) : list (value * value) :=
  map (fun kv => (fst kv, HandStrategy_as_json (snd kv))) (HRCNode_hands n).

(** [HRCNode.__str__], which [__repr__] returns too. *)
Definition HRCNode_str (n : HRCNode) : string :=
  "Node(id=" ++ str_of_Z (HRCNode_id n) ++ ")".

(** [class ActionSequence] *)
Record ActionSequence : Type := mkActionSequence {
  ActionSequence_action_sequence_json : value;
  ActionSequence_player_actions : list PreviousAction
}.

Definition ActionSequence_init (l : value) : result ActionSequence :=
  xs <-? iterate l;;
  player_actions <-? rmap PreviousAction_init xs;;
  Ok (mkActionSequence l player_actions).

(** [Action.as_json] *)
Definition Action_as_json (a : Action) : value :=
  VDict [("player", VNone);
         ("type", Action_type a);
         ("amount", Action_amount a);
         ("next_id", Action_next_id a)].

(** [PreviousAction.as_json] *)
Definition PreviousAction_as_json (a : PreviousAction) : value :=
  VDict [("player", PreviousAction_player a);
         ("type", PreviousAction_type a);
         ("amount", PreviousAction_amount a);
         ("next_id", VNone)].

(** [Action.action_map[k]]: the keys of the map are strings, so another
    hashable key is absent and an unhashable one is a [TypeError]. *)
Definition action_map_getitem (k : value) : result string :=
  match k with
  | VStr s =>
      match List.find (fun kv => String.eqb (fst kv) s) action_map with
      | Some kv => Ok (snd kv)
      | None => Err (KeyError k)
      end
  | VList _ | VDict _ => Err TypeError
  | _ => Err (KeyError k)
  end.

(** [x > 0] for a float given by its bit pattern: a positive number or
    plus infinity; zeros, negative numbers and NaN are not. *)
Definition float_positive (bits : Z) : bool :=
  (0 <? bits) && (bits <=? 9218868437227405312).

(** [Action.__str__].  The comparison [amount > 0] raises [TypeError] for
    [None], a string, a list or a dict.  [float_repr] is the text Python
    prints for a float, which is not modelled. *)
Definition Action_str (float_repr : Z -> string) (self : Action) : result string :=
  a <-? action_map_getitem (Action_type self);;
  let with_amount (text : string) := "Action[" ++ a ++ "(" ++ text ++ ")]" in
  let without_amount := "Action[" ++ a ++ "]" in
  match Action_amount self with
  | VInt z =>
      Ok (if 0 <? z then with_amount (str_of_Z z) else without_amount)
  | VBool b =>
      Ok (if b then with_amount "True" else without_amount)
  | VFloat bits =>
      Ok (if float_positive bits then with_amount (float_repr bits)
          else without_amount)
  | _ => Err TypeError
  end.

(** ** Predicates on parsed records *)

(** The action [a] holds the fields of the JSON object [x]. *)
Definition action_of_json (x : value) (a : Action) : Prop :=
  dict_method_get x "player" = Ok (Action_player a) /\
  subscript x (VStr "type") = Ok (Action_type a) /\
  subscript x (VStr "amount") = Ok (Action_amount a) /\
  dict_method_get x "node" = Ok (Action_next_id a).

(** The item [h] of a node's [hands] is the strategy parsed from the item
    [kv] of the payload's [hands] object. *)
Definition hand_of_json (kv : string * value) (h : value * HandStrategy) : Prop :=
  fst h = VStr (fst kv) /\
  HandStrategy_hand (snd h) = VStr (fst kv) /\
  HandStrategy_as_json (snd h) = snd kv /\
  subscript (snd kv) (VStr "weight") = Ok (HandStrategy_weight (snd h)) /\
  (x <-? subscript (snd kv) (VStr "played");; iterate x)%res
  = Ok (HandStrategy_played (snd h)) /\
  (x <-? subscript (snd kv) (VStr "evs");; iterate x)%res
  = Ok (HandStrategy_evs (snd h)).

(** ** Predicates on the store *)

(** Every cached path is that of a file, and the object cached for it is
    the node built from that file: it carries the path as [filename] and
    the number read off the file name as [id]. *)
Definition store_linked (w : world) : Prop :=
  forall k l, cache w !! k = Some l ->
    exists file n,
      k = Some file /\ heap w !! l = Some n /\
      HRCNode_filename n = file /\
      py_int (strip (basename file) ".json") = Some (HRCNode_id n).

(** Every cached object is the node its path's file is parsed into,
    whatever the store it is parsed in. *)
Definition store_built (fs : filesystem) (w : world) : Prop :=
  forall k l, cache w !! k = Some l ->
    exists file n,
      k = Some file /\ heap w !! l = Some n /\
      forall w0, fst (HRCNode_init fs (Some file) w0) = Ok n.

(** The forms under which node [z] is referred to: its id, the name of its
    file, the path of that file in the nodes directory as the session
    joins it, and its absolute path. *)
Definition reference_forms (fs : filesystem) (np : string) (z : Z) : list pyobj :=
  let name := str_of_Z z ++ ".json" in
  [PVal (VInt z); PVal (VStr name); PVal (VStr (join np name));
   PVal (VStr (abspath (getcwd fs) (join np name)))].

(** The stores a session can be in: the empty cache of [NodeCache.__init__],
    then resolutions (successful or not) and printed lines. *)
Inductive reachable (fs : filesystem) (np : string) : world -> Prop :=
| reachable_init : reachable fs np (NodeCache_init np)
| reachable_emit (ev : event) (w : world) :
    reachable fs np w -> reachable fs np (snd (emit ev w))
| reachable_getitem (item : pyobj) (w : world) :
    reachable fs np w -> reachable fs np (snd (NodeCache_getitem fs item w)).

(** The files of a directory listing that the session loads. *)
Definition json_files (files : list string) : list string :=
  List.filter (fun f => endswith f ".json") files.

(** The nodes of a session, none if the open raised. *)
Definition nodes_of (r : result HRCSim) : list loc :=
  match r with
  | Ok sim => HRCSim_nodes sim
  | Err _ => []
  end.

(** The object [l] is cached under the canonical path of the entry [f] of
    the nodes directory. *)
Definition cached_entry (fs : filesystem) (w : world) (f : string) (l : loc) : Prop :=
  exists p,
    canonicalize fs (nodes_path w)
                 (PVal (VStr (join (nodes_path w) f))) = Ok (Some p) /\
    cache w !! Some p = Some l.

(** Apart from [settings], a file has been opened once if it is cached
    and never otherwise. *)
Definition opened_once (settings : string) (w : world) : Prop :=
  forall p, p <> settings ->
    opens p (trace w) = match cache w !! Some p with
                        | Some _ => 1%nat
                        | None => 0%nat
                        end.

(** Every character of [s] satisfies [P]. *)
Definition all_chars (P : ascii -> bool) (s : string) : bool :=
  forallb P (list_ascii_of_string s).

(** A character of the ASCII range, on which [int] is modelled. *)
Definition is_ascii (c : ascii) : bool := (nat_of_ascii c <? 128)%nat.

(** A character of the text of an integer: a digit or the sign. *)
Definition is_num_char (c : ascii) : bool :=
  match digit_val c with
  | Some _ => true
  | None => Ascii.eqb c "-"
  end.

(** Every character of [s] occurs in [chars]. *)
Definition all_in (chars s : string) : bool :=
  forallb (fun c => char_in c chars) (list_ascii_of_string s).

(** The number a string of digits stands for, after [acc]. *)
Fixpoint horner (s : string) (acc : Z) : Z :=
  match s with
  | EmptyString => acc
  | String c s' =>
      match digit_val c with
      | Some d => horner s' (10 * acc + d)
      | None => acc
      end
  end.

Definition all_digits (s : string) : bool :=
  forallb (fun c => match digit_val c with Some _ => true | None => false end)
          (list_ascii_of_string s).

(** ** A sample export

    The export directory [/e] of the end-to-end scenario: node 0 (player 1;
    fold ends the hand, raise 200 leads to node 1) and node 1 (player 2;
    call ends the hand).  [/bad] is the same export with a node 2 that lacks
    [hands]; [/partial] holds node 0 and a node 3 that lacks [player];
    [/broken] holds a node 4 that lacks [actions]; [/rt] holds the content
    of node 0 under the name [9.json]. *)

Definition settings_json : value :=
  VDict [("handdata", VDict [("stacks", VList [VInt 1000; VInt 1000]);
                             ("blinds", VList [VInt 10; VInt 5]);
                             ("skipSb", VBool false);
                             ("movingBu", VBool false);
                             ("anteType", VStr "REGULAR")]);
         ("treeconfig", VDict [("mode", VStr "ADVANCED")]);
         ("engine", VDict [("type", VStr "montecarlo");
                           ("maxactive", VInt 2);
                           ("configuration",
                            VDict [("abstractions",
                                    VList [VDict [("buckets", VInt 169)];
                                           VDict [("buckets", VInt 64)];
                                           VDict [("buckets", VInt 64)];
                                           VDict [("buckets", VInt 64)]])])]);
         ("eqmodel", VDict [("rakecap", VInt 0); ("rakepct", VInt 0);
                            ("id", VStr "chipev"); ("nfnd", VBool false);
                            ("raked", VBool false)])].

Definition hand_json (n : nat) : value :=
  VDict [("weight", VInt 1);
         ("played", VList (repeat (VInt 0) n));
         ("evs", VList (repeat (VInt 0) n))].

Definition node0_json : value :=
  VDict [("player", VInt 1); ("street", VInt 0); ("children", VInt 2);
         ("sequence", VList []);
         ("actions", VList [VDict [("type", VStr "F"); ("amount", VInt 0)];
                            VDict [("type", VStr "R"); ("amount", VInt 200);
                                   ("node", VInt 1)]]);
         ("hands", VDict [("AA", hand_json 2); ("KK", hand_json 2)])].

Definition node1_json : value :=
  VDict [("player", VInt 2); ("street", VInt 0); ("children", VInt 1);
         ("sequence", VList [VDict [("player", VInt 1); ("type", VStr "R");
                                    ("amount", VInt 200)]]);
         ("actions", VList [VDict [("type", VStr "C"); ("amount", VInt 0)]]);
         ("hands", VDict [("AA", hand_json 1)])].

(** No [hands]. *)
Definition node2_items : list (string * value) :=
  [("player", VInt 2); ("street", VInt 0); ("children", VInt 1);
   ("sequence", VList []);
   ("actions", VList [VDict [("type", VStr "C"); ("amount", VInt 0)]])].

Definition node2_json : value := VDict node2_items.

(** No [player]. *)
Definition node3_items : list (string * value) :=
  [("street", VInt 0); ("children", VInt 1);
   ("sequence", VList []);
   ("actions", VList [VDict [("type", VStr "C"); ("amount", VInt 0)]]);
   ("hands", VDict [("AA", hand_json 1)])].

Definition node3_json : value := VDict node3_items.

(** No [actions]. *)
Definition node4_items : list (string * value) :=
  [("player", VInt 1); ("street", VInt 0); ("children", VInt 0);
   ("sequence", VList []);
   ("hands", VDict [("AA", hand_json 0)])].

Definition node4_json : value := VDict node4_items.

Definition sample_files : list (string * value) :=
  [("/e/settings.json", settings_json);
   ("/e/nodes/0.json", node0_json);
   ("/e/nodes/1.json", node1_json);
   ("/bad/settings.json", settings_json);
   ("/bad/nodes/0.json", node0_json);
   ("/bad/nodes/2.json", node2_json);
   ("/bad/nodes/1.json", node1_json);
   ("/partial/settings.json", settings_json);
   ("/partial/nodes/3.json", node3_json);
   ("/partial/nodes/0.json", node0_json);
   ("/broken/settings.json", settings_json);
   ("/broken/nodes/4.json", node4_json);
   ("/rt/nodes/9.json", node0_json)].

Definition sample_dirs : list (string * list string) :=
  [("/", ["e"; "bad"; "partial"; "broken"; "rt"; "home"]);
   ("/home", ["u"]);
   ("/home/u", []);
   ("/e", ["settings.json"; "nodes"]);
   ("/e/nodes", ["0.json"; "notes.txt"; "1.json"]);
   ("/bad", ["settings.json"; "nodes"]);
   ("/bad/nodes", ["0.json"; "2.json"; "1.json"]);
   ("/partial", ["settings.json"; "nodes"]);
   ("/partial/nodes", ["3.json"; "0.json"]);
   ("/broken", ["settings.json"; "nodes"]);
   ("/broken/nodes", ["4.json"]);
   ("/rt", ["nodes"]);
   ("/rt/nodes", ["9.json"])].

Fixpoint assoc {A} (l : list (string * A)) (k : string) : option A :=
  match l with
  | [] => None
  | (k', v) :: l' => if String.eqb k' k then Some v else assoc l' k
  end.

(** *** A file system over a tree of directories

    [dirs] gives the entries of every directory, the root included, under
    its path; [files] gives the JSON content of the files that have one.
    There are no symbolic links. *)

(** The path of the place reached through the components [at_]. *)
Definition place_path (at_ : list string) : string :=
  String "/" (join_sep "/" at_).

(** The components of an absolute path without [.], [..] or repeated
    slashes. *)
Definition components (p : string) : list string :=
  List.filter (fun c => negb (String.eqb c "")) (split_sep "/" p).

(** Walking the components of a path from a place, as the system does:
    every step, also an empty one, [.] or [..], needs the place it starts
    from to be a directory, and a name must be an entry of it. *)
Fixpoint walk (dirs : list (string * list string)) (comps at_ : list string)
    : option (list string) :=
  match comps with
  | [] => Some at_
  | c :: rest =>
      match assoc dirs (place_path at_) with
      | None => None
      | Some names =>
          if String.eqb c "" || String.eqb c "." then walk dirs rest at_
          else if String.eqb c ".." then walk dirs rest (removelast at_)
          else if existsb (String.eqb c) names then walk dirs rest (at_ ++ [c])
          else None
      end
  end.

(** The place a path leads to, if any; the empty path leads nowhere. *)
Definition locate (cwd : string) (dirs : list (string * list string))
    (p : string) : option string :=
  if String.eqb p "" then None
  else option_map place_path
         (walk dirs (split_sep "/" p)
               (if startswith p "/" then [] else components cwd)).

(** A file system holding the given files and directories, with [cwd] as
    the working directory.  A file without content in [files] does not
    hold JSON. *)
Definition files_fs (cwd : string) (files : list (string * value))
    (dirs : list (string * list string)) : filesystem :=
  mkFilesystem cwd
    (fun p => match locate cwd dirs p with
              | Some _ => true
              | None => false
              end)
    (fun p => match locate cwd dirs p with
              | Some q =>
                  match assoc files q, assoc dirs q with
                  | Some v, _ => Ok v
                  | None, Some _ => Err (OSError "Is a directory")
                  | None, None => Err JSONDecodeError
                  end
              | None => Err (OSError "No such file or directory")
              end)
    (fun p => match locate cwd dirs p with
              | Some q =>
                  match assoc dirs q with
                  | Some names => Ok names
                  | None => Err (OSError "Not a directory")
                  end
              | None => Err (OSError "No such file or directory")
              end).

(** The sample files, with [/home/u] as the working directory. *)
Definition sample_fs : filesystem :=
  files_fs "/home/u" sample_files sample_dirs.

Definition sample_hand (key : string) (n : nat) : value * HandStrategy :=
  (VStr key,
   mkHandStrategy (hand_json n) (VStr key) (VInt 1)
                  (repeat (VInt 0) n) (repeat (VInt 0) n)).

(** The records the two node files of [/e] are parsed into. *)
Definition sample_node0 : HRCNode :=
  mkHRCNode "/e/nodes/0.json" 0 node0_json
            (Some (VInt 1)) (Some (VInt 0)) (Some (VInt 2)) (Some [])
            [mkAction VNone (VStr "F") (VInt 0) VNone;
             mkAction VNone (VStr "R") (VInt 200) (VInt 1)]
            [sample_hand "AA" 2; sample_hand "KK" 2].

Definition sample_node1 : HRCNode :=
  mkHRCNode "/e/nodes/1.json" 1 node1_json
            (Some (VInt 2)) (Some (VInt 0)) (Some (VInt 1))
            (Some [mkPreviousAction (VInt 1) (VStr "R") (VInt 200)])
            [mkAction VNone (VStr "C") (VInt 0) VNone]
            [sample_hand "AA" 1].

(** The record the file of node 3 is parsed into: no [player]. *)
Definition sample_node3 : HRCNode :=
  mkHRCNode "/partial/nodes/3.json" 3 node3_json
            None None None None
            [mkAction VNone (VStr "C") (VInt 0) VNone]
            [sample_hand "AA" 1].

(** The store after opening [/e]. *)
Definition sample_world : world := snd (HRCSim_init sample_fs "/e").

(** ** A second, odd export

    [/odd/nodes] holds a node 5 whose history has a prior action without
    [amount], a file [7.json.json] and a file [readme.json], both with the
    content of node 1. *)

Definition node5_items : list (string * value) :=
  [("player", VInt 2); ("street", VInt 0); ("children", VInt 1);
   ("sequence", VList [VDict [("player", VInt 1); ("type", VStr "R")]]);
   ("actions", VList [VDict [("type", VStr "C"); ("amount", VInt 0)]]);
   ("hands", VDict [("AA", hand_json 1)])].

Definition odd_files : list (string * value) :=
  [("/odd/settings.json", settings_json);
   ("/odd/nodes/5.json", VDict node5_items);
   ("/odd/nodes/7.json.json", node1_json);
   ("/odd/nodes/readme.json", node1_json)].

Definition odd_dirs : list (string * list string) :=
  [("/", ["odd"; "home"]);
   ("/home", ["u"]);
   ("/home/u", []);
   ("/odd", ["settings.json"; "nodes"]);
   ("/odd/nodes", ["5.json"; "7.json.json"; "readme.json"])].

Definition odd_fs : filesystem := files_fs "/home/u" odd_files odd_dirs.

(** The node of a result, or a default. *)
Definition node_or (default : HRCNode) (r : result HRCNode) : HRCNode :=
  match r with
  | Ok n => n
  | Err _ => default
  end.

(** The node built from [7.json.json]. *)
Definition odd_node7 : HRCNode :=
  node_or sample_node1
    (fst (HRCNode_init odd_fs (Some "/odd/nodes/7.json.json")
                       (NodeCache_init "/odd/nodes"))).

(** * Properties *)

(** ** Strings and paths *)

#[local] Arguments Ascii.eqb : simpl never.
#[local] Arguments String.eqb : simpl never.

Lemma string_app_cons (ch : ascii) (a b : string) :
  String ch a ++ b = String ch (a ++ b).
Proof. reflexivity. Qed.

Lemma string_app_nil (b : string) : "" ++ b = b.
Proof. reflexivity. Qed.

Ltac string_simpl := rewrite ?string_app_cons, ?string_app_nil; simpl.

Lemma string_app_assoc (a b c : string) : (a ++ b) ++ c = a ++ (b ++ c).
Proof.
  induction a as [|ch a IH]; string_simpl; [reflexivity|f_equal; exact IH].
Qed.

Lemma string_length_app (a b : string) :
  String.length (a ++ b) = (String.length a + String.length b)%nat.
Proof.
  induction a as [|ch a IH]; string_simpl; [reflexivity|f_equal; exact IH].
Qed.

Lemma startswith_app (a b : string) : startswith (a ++ b) a = true.
Proof.
  induction a as [|ch a IH]; string_simpl; [reflexivity|].
  now rewrite Ascii.eqb_refl.
Qed.

Lemma substring_skip (a b : string) :
  substring (String.length a) (String.length b) (a ++ b) = b.
Proof.
  induction a as [|ch a IH]; string_simpl; [|exact IH].
  induction b as [|ch b IH]; simpl; [reflexivity|now rewrite IH].
Qed.

Lemma endswith_app (a b : string) : endswith (a ++ b) b = true.
Proof.
  unfold endswith. rewrite string_length_app.
  replace (String.length b <=? String.length a + String.length b)%nat with true
    by (symmetry; apply Nat.leb_le; lia).
  replace (String.length a + String.length b - String.length b)%nat
    with (String.length a) by lia.
  rewrite substring_skip. apply String.eqb_refl.
Qed.

Lemma startswith_slash (s : string) :
  startswith s "/" = true -> exists t, s = "/" ++ t.
Proof.
  destruct s as [|ch s]; simpl; [discriminate|].
  destruct (Ascii.eqb_spec "/" ch) as [<-|]; [|discriminate].
  intros _. exists s. reflexivity.
Qed.

Lemma split_sep_nonempty (s : string) : split_sep "/" s <> [].
Proof.
  induction s as [|ch s IH]; simpl; [discriminate|].
  destruct (Ascii.eqb ch "/"); [discriminate|].
  destruct (split_sep "/" s); [contradiction|discriminate].
Qed.

Lemma split_sep_app (a b : string) :
  split_sep "/" (a ++ String "/" b) = (split_sep "/" a ++ split_sep "/" b)%list.
Proof.
  induction a as [|ch a IH]; string_simpl; [reflexivity|].
  destruct (Ascii.eqb ch "/"); simpl.
  - now rewrite IH.
  - rewrite IH. pose proof (split_sep_nonempty a).
    destruct (split_sep "/" a); [contradiction|reflexivity].
Qed.

Lemma split_sep_no_slash (s : string) :
  no_slash s = true -> split_sep "/" s = [s].
Proof.
  induction s as [|ch s IH]; simpl; [reflexivity|].
  destruct (Ascii.eqb ch "/"); simpl; [discriminate|].
  intros H. now rewrite IH.
Qed.

Lemma split_sep_components (s : string) :
  Forall (fun c => no_slash c = true) (split_sep "/" s).
Proof.
  induction s as [|ch s IH]; simpl; [repeat constructor|].
  destruct (Ascii.eqb ch "/") eqn:E; [constructor; [reflexivity|exact IH]|].
  destruct (split_sep "/" s) as [|w ws]; [repeat constructor; simpl; now rewrite E|].
  inversion IH; subst. constructor; [simpl; rewrite E; assumption|assumption].
Qed.

Lemma split_join_sep (cs : list string) :
  cs <> [] -> Forall (fun c => no_slash c = true) cs ->
  split_sep "/" (join_sep "/" cs) = cs.
Proof.
  induction cs as [|c cs IH]; [contradiction|]. intros _ Hcs.
  inversion Hcs as [|? ? Hc Hcs']; subst.
  destruct cs as [|c' cs].
  - simpl. now apply split_sep_no_slash.
  - change (join_sep "/" (c :: c' :: cs))
      with (c ++ String "/" (join_sep "/" (c' :: cs))).
    rewrite split_sep_app, IH by (discriminate || assumption).
    now rewrite split_sep_no_slash.
Qed.

Lemma plain_spec (c : string) :
  plain c = true ->
  no_slash c = true /\ String.eqb c "" = false /\ String.eqb c "." = false
  /\ String.eqb c ".." = false.
Proof.
  unfold plain. rewrite !andb_true_iff, !negb_true_iff. tauto.
Qed.

(** The loop of [normpath] appends a plain last component. *)
Lemma normpath_comps_last (n : nat) (cs acc : list string) (name : string) :
  plain name = true ->
  normpath_comps n (cs ++ [name])%list acc
  = (normpath_comps n cs acc ++ [name])%list.
Proof.
  intros Hname. apply plain_spec in Hname as (_ & H1 & H2 & H3).
  revert acc. induction cs as [|c cs IH]; intros acc; simpl.
  - rewrite H1, H2, H3. reflexivity.
  - destruct (String.eqb c "" || String.eqb c "."); [apply IH|].
    destruct (_ || _ || _); apply IH.
Qed.

(** Plain components go through the loop unchanged. *)
Lemma normpath_comps_plain (n : nat) (cs acc : list string) :
  Forall (fun c => plain c = true) cs ->
  normpath_comps n cs acc = (rev acc ++ cs)%list.
Proof.
  intros Hcs. revert acc. induction Hcs as [|c cs Hc Hcs IH]; intros acc; simpl.
  - now rewrite app_nil_r.
  - apply plain_spec in Hc as (_ & H1 & H2 & H3). rewrite H1, H2, H3. simpl.
    rewrite IH. simpl. now rewrite <- app_assoc.
Qed.

(** On an absolute path the loop leaves plain components only. *)
Lemma normpath_comps_absolute (n : nat) (cs acc : list string) :
  n <> 0%nat ->
  Forall (fun c => no_slash c = true) cs ->
  Forall (fun c => plain c = true) acc ->
  Forall (fun c => plain c = true) (normpath_comps n cs acc).
Proof.
  intros Hn Hcs. revert acc.
  induction Hcs as [|c cs Hc Hcs IH]; intros acc Hacc; simpl.
  - now apply List.Forall_rev.
  - destruct (String.eqb c "") eqn:E1; simpl; [now apply IH|].
    destruct (String.eqb c ".") eqn:E2; simpl; [now apply IH|].
    destruct (String.eqb c "..") eqn:E3; simpl.
    + replace (Nat.eqb n 0) with false by (symmetry; now apply Nat.eqb_neq).
      simpl.
      destruct acc as [|last acc']; simpl; [now apply IH|].
      inversion Hacc as [|? ? Hlast Hacc']; subst.
      apply plain_spec in Hlast as Hl. destruct Hl as (_ & _ & _ & ->).
      now apply IH.
    + apply IH. constructor; [|exact Hacc].
      unfold plain. now rewrite Hc, E1, E2, E3.
Qed.

Lemma join_sep_no_leading_slash (cs : list string) :
  Forall (fun c => plain c = true) cs ->
  startswith (join_sep "/" cs) "/" = false.
Proof.
  intros Hcs. destruct Hcs as [|c cs Hc Hcs]; [reflexivity|].
  apply plain_spec in Hc as (Hslash & Hne & _).
  destruct c as [|ch c]; [discriminate|]. simpl in Hslash.
  apply andb_true_iff in Hslash as [Hch _]. apply negb_true_iff in Hch.
  assert (Hhead : exists t, join_sep "/" (String ch c :: cs) = String ch t).
  { destruct cs; simpl; eauto. }
  destruct Hhead as [t ->]. simpl. rewrite Ascii.eqb_sym, Hch. reflexivity.
Qed.

Lemma normpath_absolute (path : string) :
  startswith path "/" = true ->
  exists n cs,
    (n = 1 \/ n = 2)%nat /\ Forall (fun c => plain c = true) cs /\
    normpath path = normal_path n cs /\
    cs = normpath_comps n (split_sep "/" path) [].
Proof.
  intros Habs. unfold normpath.
  assert (Hne : String.eqb path "" = false).
  { destruct path; [discriminate|reflexivity]. }
  rewrite Hne.
  assert (Hn : (initial_slashes path = 1 \/ initial_slashes path = 2)%nat).
  { unfold initial_slashes. rewrite Habs. destruct (_ && _); auto. }
  exists (initial_slashes path), (normpath_comps (initial_slashes path)
                                    (split_sep "/" path) []).
  split; [exact Hn|]. split.
  { apply normpath_comps_absolute; [lia|apply split_sep_components|constructor]. }
  split; [|reflexivity].
  fold (normal_path (initial_slashes path)
          (normpath_comps (initial_slashes path) (split_sep "/" path) [])).
  destruct Hn as [-> | ->]; reflexivity.
Qed.

Lemma normpath_normal_path (n : nat) (cs : list string) :
  (n = 1 \/ n = 2)%nat -> Forall (fun c => plain c = true) cs ->
  normpath (normal_path n cs) = normal_path n cs.
Proof.
  intros Hn Hcs. pose proof (join_sep_no_leading_slash cs Hcs) as Hlead.
  assert (Hsplit : normpath_comps n (split_sep "/" (join_sep "/" cs)) [] = cs).
  { destruct cs as [|c cs'] eqn:Ecs.
    - simpl. reflexivity.
    - rewrite split_join_sep; [|discriminate|].
      + now rewrite normpath_comps_plain.
      + eapply Forall_impl; [exact Hcs|]. intros x Hx. simpl.
        now apply plain_spec in Hx. }
  assert (Hcons : forall ch t, String.eqb (String ch t) "" = false)
    by reflexivity.
  destruct Hn as [-> | ->].
  - change (normal_path 1 cs) with (String "/" (join_sep "/" cs)).
    assert (Hi : initial_slashes (String "/" (join_sep "/" cs)) = 1%nat).
    { unfold initial_slashes. simpl in Hlead |- *.
      destruct (join_sep "/" cs) as [|b t]; [reflexivity|].
      rewrite andb_true_r in Hlead. rewrite Hlead. reflexivity. }
    unfold normpath. rewrite Hcons, Hi.
    change (split_sep "/" (String "/" (join_sep "/" cs)))
      with ("" :: split_sep "/" (join_sep "/" cs)).
    change (normpath_comps 1 ("" :: split_sep "/" (join_sep "/" cs)) [])
      with (normpath_comps 1 (split_sep "/" (join_sep "/" cs)) []).
    rewrite Hsplit.
    change (repeat_string 1 "/" ++ join_sep "/" cs)
      with (String "/" (join_sep "/" cs)).
    rewrite Hcons. reflexivity.
  - change (normal_path 2 cs) with (String "/" (String "/" (join_sep "/" cs))).
    assert (Hi : initial_slashes (String "/" (String "/" (join_sep "/" cs)))
                 = 2%nat).
    { unfold initial_slashes. simpl in Hlead |- *.
      destruct (join_sep "/" cs) as [|b t]; [reflexivity|].
      rewrite andb_true_r in Hlead. rewrite Hlead. reflexivity. }
    unfold normpath. rewrite Hcons, Hi.
    change (split_sep "/" (String "/" (String "/" (join_sep "/" cs))))
      with ("" :: "" :: split_sep "/" (join_sep "/" cs)).
    change (normpath_comps 2 ("" :: "" :: split_sep "/" (join_sep "/" cs)) [])
      with (normpath_comps 2 (split_sep "/" (join_sep "/" cs)) []).
    rewrite Hsplit.
    change (repeat_string 2 "/" ++ join_sep "/" cs)
      with (String "/" (String "/" (join_sep "/" cs))).
    rewrite Hcons. reflexivity.
Qed.

(** [normpath] is idempotent on absolute paths. *)
Lemma normpath_idempotent (path : string) :
  startswith path "/" = true -> normpath (normpath path) = normpath path.
Proof.
  intros Habs. destruct (normpath_absolute path Habs) as (n & cs & Hn & Hcs & -> & _).
  now apply normpath_normal_path.
Qed.

Lemma normpath_absolute_slash (path : string) :
  startswith path "/" = true -> startswith (normpath path) "/" = true.
Proof.
  intros Habs. destruct (normpath_absolute path Habs) as (n & cs & Hn & _ & -> & _).
  unfold normal_path. destruct Hn as [-> | ->]; reflexivity.
Qed.

(** [normpath] keeps a plain last component of an absolute path. *)
Lemma normpath_last_component (dir name : string) :
  startswith (dir ++ String "/" name) "/" = true ->
  plain name = true ->
  exists pre, normpath (dir ++ String "/" name) = pre ++ name.
Proof.
  intros Habs Hname.
  destruct (normpath_absolute _ Habs) as (n & cs & Hn & _ & -> & Hcs).
  rewrite split_sep_app in Hcs.
  rewrite (split_sep_no_slash name) in Hcs by (now apply plain_spec in Hname).
  rewrite normpath_comps_last in Hcs by exact Hname.
  unfold normal_path. rewrite Hcs.
  assert (Hjoin : forall l, exists pre,
               join_sep "/" (l ++ [name])%list = pre ++ name).
  { induction l as [|c l [pre IH]].
    - exists "". reflexivity.
    - change (join_sep "/" ((c :: l) ++ [name])%list)
        with (join_sep "/" (c :: (l ++ [name]))%list).
      destruct (l ++ [name])%list as [|c' l'] eqn:El.
      + destruct l; discriminate.
      + change (join_sep "/" (c :: c' :: l'))
          with (c ++ "/" ++ join_sep "/" (c' :: l')).
        rewrite IH. exists (c ++ "/" ++ pre).
        now rewrite !string_app_assoc. }
  destruct (Hjoin (normpath_comps n (split_sep "/" dir) [])) as [pre ->].
  exists (repeat_string n "/" ++ pre). now rewrite string_app_assoc.
Qed.

Lemma substring_all (s : string) : substring 0 (String.length s) s = s.
Proof. induction s as [|ch s IH]; simpl; [reflexivity|now rewrite IH]. Qed.

Lemma endswith_inv (s suf : string) :
  endswith s suf = true -> exists t, s = t ++ suf.
Proof.
  unfold endswith.
  destruct (String.length suf <=? String.length s)%nat eqn:Hle; [|discriminate].
  apply Nat.leb_le in Hle. intros Heq. apply String.eqb_eq in Heq.
  remember (String.length s - String.length suf)%nat as k eqn:Hk.
  assert (Hlen : (k + String.length suf = String.length s)%nat) by lia.
  clear Hk Hle. revert k Heq Hlen.
  induction s as [|ch s IH]; intros k Heq Hlen.
  - simpl in Hlen. assert (k = 0%nat) by lia. subst k.
    exists "". simpl in Heq. destruct suf; [reflexivity|discriminate].
  - destruct k as [|k].
    + exists "". rewrite Nat.add_0_l in Hlen. rewrite Hlen in Heq.
      rewrite substring_all in Heq. now rewrite Heq.
    + simpl in Heq, Hlen. destruct (IH k Heq) as [t ->]; [lia|].
      exists (String ch t). reflexivity.
Qed.

Lemma no_slash_app (a b : string) :
  no_slash (a ++ b) = no_slash a && no_slash b.
Proof.
  induction a as [|ch a IH]; string_simpl; [reflexivity|].
  now rewrite IH, andb_assoc.
Qed.

Lemma no_slash_not_absolute (s : string) :
  no_slash s = true -> startswith s "/" = false.
Proof.
  destruct s as [|ch s]; simpl; [reflexivity|].
  intros H. apply andb_true_iff in H as [H _]. apply negb_true_iff in H.
  now rewrite Ascii.eqb_sym, H.
Qed.

Lemma eqb_length (a b : string) :
  String.length a <> String.length b -> String.eqb a b = false.
Proof.
  intros H. apply String.eqb_neq. intros ->. contradiction.
Qed.

(** A file name [stem.json] without a slash is a plain component. *)
Lemma plain_json_name (stem : string) :
  no_slash stem = true -> plain (stem ++ ".json") = true.
Proof.
  intros Hstem. unfold plain.
  rewrite no_slash_app, Hstem.
  rewrite !eqb_length by (rewrite string_length_app; simpl; lia).
  reflexivity.
Qed.

(** The text of an integer has no slash. *)
Lemma digit_of_nat_no_slash (k : nat) :
  (k < 10)%nat -> Ascii.eqb (digit_of_nat k) "/" = false.
Proof.
  intros Hk.
  destruct k as [|[|[|[|[|[|[|[|[|[|k]]]]]]]]]]; try lia; reflexivity.
Qed.

Lemma digits_of_no_slash (fuel : nat) (n : N) (acc : string) :
  no_slash acc = true -> no_slash (digits_of fuel n acc) = true.
Proof.
  revert n acc. induction fuel as [|fuel IH]; intros n acc Hacc;
    [exact Hacc|].
  change (digits_of (S fuel) n acc)
    with (let acc' := String (digit_of_nat (N.to_nat (n mod 10))) acc in
          if (n / 10 =? 0)%N then acc' else digits_of fuel (n / 10)%N acc').
  cbv zeta.
  assert (Hd : no_slash (String (digit_of_nat (N.to_nat (n mod 10))) acc) = true).
  { change (negb (Ascii.eqb (digit_of_nat (N.to_nat (n mod 10))) "/")
            && no_slash acc = true).
    rewrite Hacc, digit_of_nat_no_slash; [reflexivity|].
    pose proof (N.mod_lt n 10). lia. }
  destruct (n / 10 =? 0)%N; [exact Hd|]. now apply IH.
Qed.

Lemma str_of_Z_no_slash (z : Z) : no_slash (str_of_Z z) = true.
Proof.
  unfold str_of_Z. destruct (z <? 0).
  - rewrite no_slash_app. now rewrite digits_of_no_slash.
  - now apply digits_of_no_slash.
Qed.

(** [join] puts the name after a slash, and [abspath] makes the result
    absolute when the working directory is. *)
Lemma join_name (a name : string) :
  startswith name "/" = false ->
  a <> "" ->
  exists dir, join a name = dir ++ String "/" name /\
              startswith (join a name) "/" = startswith a "/".
Proof.
  intros Hname Ha. unfold join. rewrite Hname.
  destruct (String.eqb_spec a "") as [->|_]; [contradiction|]. simpl.
  assert (Hpre : forall b, startswith (a ++ b) "/" = startswith a "/").
  { intros b. destruct a as [|ch a]; [contradiction|]. reflexivity. }
  destruct (endswith a "/") eqn:Hend.
  - apply endswith_inv in Hend as [t ->]. exists t. split.
    + now rewrite string_app_assoc.
    + apply Hpre.
  - exists a. split; [reflexivity|apply Hpre].
Qed.

(** ** The reference forms of one node file *)

Section Canonical.

Variable fs : filesystem.

(** The working directory is absolute. *)
Hypothesis cwd_absolute : startswith (getcwd fs) "/" = true.

(** A nodes directory [np] and a file [stem.json] in it, whose name does
    not begin with the text of [np]; the file exists under its path as
    joined and under its canonical path. *)
Variable np stem : string.
Hypothesis np_nonempty : np <> "".
Hypothesis stem_no_slash : no_slash stem = true.
Hypothesis name_not_prefixed : startswith (stem ++ ".json") np = false.
Hypothesis file_exists : path_exists fs (join np (stem ++ ".json")) = true.
Hypothesis canonical_exists :
  path_exists fs (abspath (getcwd fs) (join np (stem ++ ".json"))) = true.

Let name : string := stem ++ ".json".
Let canonical : string := abspath (getcwd fs) (join np name).

Lemma name_plain : plain name = true.
Proof. now apply plain_json_name. Qed.

Lemma name_relative : startswith name "/" = false.
Proof.
  apply no_slash_not_absolute. pose proof name_plain as H.
  now apply plain_spec in H.
Qed.

Lemma cwd_nonempty : getcwd fs <> "".
Proof. intros H. rewrite H in cwd_absolute. discriminate. Qed.

(** The canonical path is the normal form of an absolute path that ends
    in the name. *)
Lemma canonical_shape :
  exists dir,
    startswith (dir ++ String "/" name) "/" = true /\
    canonical = normpath (dir ++ String "/" name).
Proof.
  unfold canonical, abspath.
  destruct (join_name np name name_relative np_nonempty) as (dir & Hjoin & Habs).
  destruct (startswith (join np name) "/") eqn:Hj.
  - exists dir. now rewrite <- Hjoin.
  - destruct (join_name (getcwd fs) (join np name) Hj cwd_nonempty)
      as (dir' & Hjoin' & Habs').
    exists (dir' ++ String "/" dir).
    rewrite Hjoin in Hjoin' at 2.
    rewrite string_app_assoc, string_app_cons.
    rewrite <- Hjoin'. split; [|reflexivity].
    now rewrite Habs'.
Qed.

Lemma canonical_absolute : startswith canonical "/" = true.
Proof.
  destruct canonical_shape as (dir & Habs & ->).
  now apply normpath_absolute_slash.
Qed.

Lemma canonical_fixed : abspath (getcwd fs) canonical = canonical.
Proof.
  unfold abspath at 1. rewrite canonical_absolute.
  destruct canonical_shape as (dir & Habs & ->).
  now apply normpath_idempotent.
Qed.

Lemma canonical_json : endswith canonical ".json" = true.
Proof.
  destruct canonical_shape as (dir & Habs & ->).
  destruct (normpath_last_component dir name Habs name_plain) as [pre ->].
  unfold name. rewrite <- string_app_assoc. apply endswith_app.
Qed.

(** The bare file name. *)
Lemma canonicalize_filename :
  canonicalize fs np (PVal (VStr name)) = Ok (Some canonical).
Proof.
  unfold canonicalize. simpl. fold name in name_not_prefixed, file_exists.
  rewrite name_not_prefixed. simpl.
  unfold name at 1. rewrite endswith_app. fold name.
  rewrite file_exists. reflexivity.
Qed.

(** The path inside the nodes directory, as the session builds it. *)
Lemma canonicalize_path :
  canonicalize fs np (PVal (VStr (join np name))) = Ok (Some canonical).
Proof.
  unfold canonicalize. simpl. fold name in file_exists.
  assert (Hpre : startswith (join np name) np = true).
  { unfold join. rewrite name_relative.
    destruct (_ || _); apply startswith_app. }
  assert (Hjson : endswith (join np name) ".json" = true).
  { destruct (join_name np name name_relative np_nonempty) as (dir & -> & _).
    unfold name. rewrite <- string_app_cons, <- string_app_assoc.
    apply endswith_app. }
  rewrite Hpre, Hjson, file_exists. reflexivity.
Qed.

(** The canonical path itself. *)
Lemma canonicalize_canonical :
  canonicalize fs np (PVal (VStr canonical)) = Ok (Some canonical).
Proof.
  unfold canonicalize. simpl. fold name canonical in canonical_exists.
  rewrite canonical_json, canonical_exists, canonical_fixed.
  assert (Hjoin : join np canonical = canonical).
  { unfold join. now rewrite canonical_absolute. }
  rewrite Hjoin, canonical_exists, canonical_fixed.
  destruct (startswith canonical np); reflexivity.
Qed.

(** The integer id. *)
Lemma canonicalize_int (z : Z) :
  stem = str_of_Z z ->
  canonicalize fs np (PVal (VInt z)) = Ok (Some canonical).
Proof.
  intros Hz. rewrite <- canonicalize_canonical.
  unfold canonical, name. rewrite Hz. reflexivity.
Qed.

End Canonical.

Lemma abspath_absolute (cwd p : string) :
  startswith cwd "/" = true -> startswith (abspath cwd p) "/" = true.
Proof.
  intros Hcwd. unfold abspath.
  destruct (startswith p "/") eqn:Hp; apply normpath_absolute_slash;
    [exact Hp|].
  unfold join. rewrite Hp.
  destruct cwd as [|ch cwd]; [discriminate|].
  destruct (_ || _); exact Hcwd.
Qed.

Lemma abspath_idempotent (cwd p : string) :
  startswith cwd "/" = true -> abspath cwd (abspath cwd p) = abspath cwd p.
Proof.
  intros Hcwd. unfold abspath at 1. rewrite abspath_absolute by exact Hcwd.
  unfold abspath.
  destruct (startswith p "/") eqn:Hp; apply normpath_idempotent; [exact Hp|].
  unfold join. rewrite Hp.
  destruct cwd as [|ch cwd]; [discriminate|].
  destruct (_ || _); exact Hcwd.
Qed.

Lemma absolute_not_prefix (np s : string) :
  startswith np "/" = true -> no_slash s = true -> startswith s np = false.
Proof.
  intros Hnp Hs. apply startswith_slash in Hnp as [t ->].
  destruct s as [|ch s]; [reflexivity|].
  simpl in Hs. apply andb_true_iff in Hs as [Hch _].
  apply negb_true_iff in Hch. string_simpl.
  now rewrite Ascii.eqb_sym, Hch.
Qed.

(** The id [z], the file name [z.json], the path of that file in the
    nodes directory and its canonical path all canonicalize to the same
    cache key, when the name does not begin with the text of the nodes
    directory and the file exists under its path as joined and under its
    canonical path. *)
Lemma reference_forms_collide (fs : filesystem) (np : string) (z : Z) :
  let name := str_of_Z z ++ ".json" in
  let key := abspath (getcwd fs) (join np name) in
  startswith (getcwd fs) "/" = true ->
  startswith name np = false ->
  path_exists fs (join np name) = true ->
  path_exists fs key = true ->
  canonicalize fs np (PVal (VInt z)) = Ok (Some key) /\
  canonicalize fs np (PVal (VStr name)) = Ok (Some key) /\
  canonicalize fs np (PVal (VStr (join np name))) = Ok (Some key) /\
  canonicalize fs np (PVal (VStr key)) = Ok (Some key).
Proof.
  intros name key Hcwd Hpre Hex Hkey.
  assert (Hne : np <> "").
  { intros ->. unfold name in Hpre. destruct (str_of_Z z ++ ".json"); discriminate. }
  assert (Hstem : no_slash (str_of_Z z) = true) by apply str_of_Z_no_slash.
  split; [|split; [|split]].
  - now apply canonicalize_int.
  - now apply canonicalize_filename.
  - now apply canonicalize_path.
  - now apply canonicalize_canonical.
Qed.

Ltac unfold_m := unfold bind, ret, raise, lift, emit in *.

Section Properties.

Variable fs : filesystem.

(** ** Indexing *)

Lemma index_in_range {A} (l : list A) (i : Z) (x : A) :
  0 <= i -> l !! Z.to_nat i = Some x -> index l i = Ok x.
Proof.
  intros Hi Hx. unfold index.
  assert (Hlt : (Z.to_nat i < length l)%nat) by (eapply lookup_lt_Some; eauto).
  destruct (i <? 0) eqn:Hneg; [lia|].
  replace ((0 <=? i) && (i <? Z.of_nat (length l))) with true
    by (symmetry; apply andb_true_iff; split; lia).
  rewrite Hx. reflexivity.
Qed.

Lemma index_out_of_range {A} (l : list A) (i : Z) :
  i >= Z.of_nat (length l) \/ i < - Z.of_nat (length l) ->
  index l i = Err IndexError.
Proof.
  intros Hi. unfold index.
  destruct (i <? 0) eqn:Hneg.
  - replace ((0 <=? i + Z.of_nat (length l))
             && (i + Z.of_nat (length l) <? Z.of_nat (length l))) with false;
      [reflexivity|].
    symmetry. apply andb_false_iff. left. lia.
  - replace ((0 <=? i) && (i <? Z.of_nat (length l))) with false; [reflexivity|].
    symmetry. apply andb_false_iff. right. lia.
Qed.

Lemma index_negative {A} (l : list A) (i : Z) :
  - Z.of_nat (length l) <= i < 0 ->
  index l i = index l (i + Z.of_nat (length l)).
Proof.
  intros Hi. unfold index.
  replace (i <? 0) with true by lia.
  replace (i + Z.of_nat (length l) <? 0) with false by lia.
  reflexivity.
Qed.

(** ** What construction and resolution do to the store *)

Lemma emit_spec (ev : event) (w : world) :
  emit ev w = (Ok tt, mkWorld (nodes_path w) (cache w) (heap w) (trace w ++ [ev])).
Proof. reflexivity. Qed.

(** [HRCNode.__init__] touches nothing but the trace, where it adds at
    most one [EOpen], of its own file. *)
Lemma HRCNode_init_store (f : option string) (w : world) :
  let '(r, w') := HRCNode_init fs f w in
  nodes_path w' = nodes_path w /\ cache w' = cache w /\ heap w' = heap w /\
  (forall p, opens p (trace w') <= opens p (trace w) + 1)%nat /\
  (forall p, f <> Some p -> opens p (trace w') = opens p (trace w)).
Proof.
  assert (Hsame : forall p, (opens p (trace w) <= opens p (trace w) + 1)%nat)
    by (intros; lia).
  assert (Hpr : forall p t args, opens p (t ++ [EPrint args]) = opens p t).
  { intros p t args. unfold opens. rewrite List.filter_app, length_app. simpl. lia. }
  assert (Hop : forall p q t, (opens p (t ++ [EOpen q]) <= opens p t + 1)%nat).
  { intros p q t. unfold opens. rewrite List.filter_app, length_app. simpl.
    destruct (String.eqb q p); simpl; lia. }
  assert (Hne : forall p q t, Some q <> Some p -> opens p (t ++ [EOpen q]) = opens p t).
  { intros p q t Hq. unfold opens. rewrite List.filter_app, length_app. simpl.
    destruct (String.eqb_spec q p) as [->|]; [congruence|]. simpl. lia. }
  unfold HRCNode_init. destruct f as [file|]; [|unfold_m; simpl; auto].
  destruct (py_int _); [|unfold_m; simpl; auto].
  unfold_m. simpl.
  destruct (load_json fs file) as [d|e]; simpl; [|auto 6].
  destruct (try_raised (try_block d)) as [[k| | | | | | |]|]; simpl; auto 6;
    destruct (parse_actions d); simpl;
    try destruct (parse_hands d); simpl;
    repeat split; intros; rewrite ?Hpr; auto.
Qed.

Lemma HRCNode_init_None (w : world) :
  HRCNode_init fs None w = (Err TypeError, w).
Proof. reflexivity. Qed.

(** Resolution keeps the store consistent. *)
Lemma NodeCache_getitem_store_ok (item : pyobj) (w : world) :
  store_ok w -> store_ok (snd (NodeCache_getitem fs item w)).
Proof.
  intros [HNone Hheap]. unfold NodeCache_getitem.
  destruct (canonicalize fs (nodes_path w) item) as [node_path|e]; simpl;
    [|split; auto].
  destruct (cache w !! node_path) as [l|] eqn:Hc; simpl; [split; auto|].
  pose proof (HRCNode_init_store node_path w) as Hst.
  destruct (HRCNode_init fs node_path w) as [[n|e] w'] eqn:Hinit;
    destruct Hst as (Hnp & Hca & Hhe & _); simpl.
  - destruct node_path as [p|]; [|rewrite HRCNode_init_None in Hinit; discriminate].
    split; cbn [cache heap].
    + rewrite lookup_insert_ne by discriminate. congruence.
    + intros k l. rewrite length_app. simpl. rewrite lookup_insert.
      destruct (decide (Some p = k)); simpl.
      * intros [= <-]. lia.
      * rewrite Hca, Hhe. intros Hk. apply Hheap in Hk. lia.
  - split; [congruence|]. intros k l. rewrite Hca, Hhe. apply Hheap.
Qed.

(** A successful resolution returns an object of the store. *)
Lemma NodeCache_getitem_returns_node (item : pyobj) (w w' : world) (l : loc) :
  store_ok w -> NodeCache_getitem fs item w = (Ok l, w') ->
  is_Some (heap w' !! l).
Proof.
  intros Hok Hget. pose proof (NodeCache_getitem_store_ok item w Hok) as [_ Hheap].
  rewrite Hget in Hheap. simpl in Hheap.
  apply lookup_lt_is_Some.
  unfold NodeCache_getitem in Hget.
  destruct (canonicalize fs (nodes_path w) item) as [node_path|e]; [|discriminate].
  destruct (cache w !! node_path) as [l0|] eqn:Hc.
  - injection Hget as <- <-. destruct Hok as [_ Hh]. eauto.
  - destruct (HRCNode_init fs node_path w) as [[n|e] w1]; [|discriminate].
    injection Hget as <- <-. simpl. rewrite length_app. simpl. lia.
Qed.

(** ** Traversal *)

(** C4.  An in-range index whose action has no successor: [take_action]
    returns [None], raises nothing and leaves the store as it was. *)
Theorem take_action_terminal (self : HRCNode) (i : Z) (a : Action) (w : world) :
  0 <= i < Z.of_nat (length (HRCNode_actions self)) ->
  HRCNode_actions self !! Z.to_nat i = Some a ->
  Action_next_id a = VNone ->
  HRCNode_take_action fs self (PVal (VInt i)) w = (Ok (PVal VNone), w).
Proof.
  intros [Hi _] Ha Hnext. unfold HRCNode_take_action, HRCNode_get_actions. simpl.
  unfold_m. rewrite (index_in_range _ _ _ Hi Ha), Hnext. reflexivity.
Qed.

(** C10.  An argument that is not an [int]: [take_action] raises
    [RuntimeError], whatever the node and the store, and returns neither a
    record nor [None]. *)
Theorem take_action_non_integer (self : HRCNode) (action : pyobj) (w : world) :
  isinstance_int action = false ->
  HRCNode_take_action fs self action w
  = (Err (RuntimeError "Can only take integer actions"), w).
Proof.
  unfold isinstance_int, HRCNode_take_action. intros H.
  destruct action as [v|l]; [|reflexivity].
  destruct (as_int v); [discriminate|reflexivity].
Qed.

(** C3, as the code has it.  An integer at or above [len(actions)], or
    below [-len(actions)], raises [IndexError] and leaves the store as it
    was; a negative integer from [-len(actions)] on addresses the action at
    [len(actions) + i], as Python indexing does. *)
Theorem take_action_index_error (self : HRCNode) (i : Z) (w : world) :
  let n := Z.of_nat (length (HRCNode_actions self)) in
  (i >= n \/ i < - n ->
   HRCNode_take_action fs self (PVal (VInt i)) w = (Err IndexError, w)) /\
  (- n <= i < 0 ->
   HRCNode_take_action fs self (PVal (VInt i)) w
   = HRCNode_take_action fs self (PVal (VInt (i + n))) w).
Proof.
  simpl. unfold HRCNode_take_action, HRCNode_get_actions. simpl. unfold_m.
  split; intros Hi.
  - rewrite index_out_of_range by exact Hi. reflexivity.
  - rewrite index_negative by exact Hi. reflexivity.
Qed.

(** C2, as the code has it.  An in-range index whose action has a
    successor: [take_action] itself resolves the successor through the
    node's cache, with whatever that does to the store, and returns the
    node object found there, or raises what the resolution raises. *)
Theorem take_action_resolves_successor
    (self : HRCNode) (i : Z) (a : Action) (w : world) :
  0 <= i < Z.of_nat (length (HRCNode_actions self)) ->
  HRCNode_actions self !! Z.to_nat i = Some a ->
  Action_next_id a <> VNone ->
  store_ok w ->
  match NodeCache_getitem fs (PVal (Action_next_id a)) w with
  | (Ok l, w') =>
      HRCNode_take_action fs self (PVal (VInt i)) w = (Ok (PNode l), w') /\
      is_Some (heap w' !! l)
  | (Err e, w') =>
      HRCNode_take_action fs self (PVal (VInt i)) w = (Err e, w')
  end.
Proof.
  intros [Hi _] Ha Hnext Hok.
  pose proof (NodeCache_getitem_returns_node (PVal (Action_next_id a)) w) as Hnode.
  unfold HRCNode_take_action, HRCNode_get_actions. simpl. unfold_m.
  rewrite (index_in_range _ _ _ Hi Ha).
  destruct (Action_next_id a) eqn:Hn; try congruence;
    match goal with
    | |- context [NodeCache_getitem fs ?it w] =>
        destruct (NodeCache_getitem fs it w) as [[l'|e] w'] eqn:Hget
    end; try split; eauto.
Qed.

(** ** Construction *)

(** The outcome of [HRCNode.__init__] is decided by the name and the
    content of the file alone. *)
Lemma HRCNode_init_result (file : string) (w : world) :
  fst (HRCNode_init fs (Some file) w)
  = match py_int (strip (basename file) ".json") with
    | None => Err ValueError
    | Some id => (d <-? load_json fs file;; HRCNode_of_json file id d)%res
    end.
Proof.
  unfold HRCNode_init, HRCNode_of_json, try_caught.
  destruct (py_int _); [|reflexivity].
  unfold_m. simpl. destruct (load_json fs file) as [d|e]; simpl; [|reflexivity].
  destruct (try_raised (try_block d)) as [[k| | | | | | |]|]; simpl;
    try reflexivity;
    destruct (parse_actions d); simpl; try reflexivity;
    destruct (parse_hands d); reflexivity.
Qed.

Lemma HRCNode_init_result_any (fs' : filesystem) (file : string) (w : world) :
  fst (HRCNode_init fs' (Some file) w)
  = match py_int (strip (basename file) ".json") with
    | None => Err ValueError
    | Some id => (d <-? load_json fs' file;; HRCNode_of_json file id d)%res
    end.
Proof.
  unfold HRCNode_init, HRCNode_of_json, try_caught.
  destruct (py_int _); [|reflexivity].
  unfold_m. simpl. destruct (load_json fs' file) as [d|e]; simpl; [|reflexivity].
  destruct (try_raised (try_block d)) as [[k| | | | | | |]|]; simpl;
    try reflexivity;
    destruct (parse_actions d); simpl; try reflexivity;
    destruct (parse_hands d); reflexivity.
Qed.

Lemma HRCNode_init_world (f : option string) (w w' : world) :
  fst (HRCNode_init fs f w) = fst (HRCNode_init fs f w').
Proof.
  destruct f as [file|]; [|reflexivity]. now rewrite !HRCNode_init_result.
Qed.

Lemma HRCNode_of_json_payload (file : string) (id : Z) (d : value) (n : HRCNode) :
  HRCNode_of_json file id d = Ok n ->
  HRCNode_node_json n = d /\ HRCNode_filename n = file /\ HRCNode_id n = id.
Proof.
  unfold HRCNode_of_json.
  destruct (try_caught (try_block d));
    [|destruct (try_raised (try_block d)); discriminate].
  destruct (parse_actions d); simpl; [|discriminate].
  destruct (parse_hands d); simpl; [|discriminate].
  intros [= <-]. auto.
Qed.

(** ** The node cache *)

(** Each reference kind that does not canonicalize: a string is reported
    as given, an integer as the path built from it. *)
Lemma resolve_str_not_found (s : string) (w : world) :
  is_Ok (canonicalize fs (nodes_path w) (PVal (VStr s))) = false ->
  NodeCache_getitem fs (PVal (VStr s)) w
  = (Err (KeyError (VStr ("No such node " ++ s))), w).
Proof.
  unfold NodeCache_getitem, canonicalize. simpl.
  destruct (_ && _ && _); [discriminate|].
  destruct (_ && _); [discriminate|]. reflexivity.
Qed.

Lemma resolve_int_not_found (z : Z) (w : world) :
  is_Ok (canonicalize fs (nodes_path w) (PVal (VInt z))) = false ->
  NodeCache_getitem fs (PVal (VInt z)) w
  = (Err (KeyError
            (VStr ("No such node "
                   ++ abspath (getcwd fs)
                        (join (nodes_path w) (str_of_Z z ++ ".json"))))), w).
Proof.
  unfold NodeCache_getitem, canonicalize. simpl.
  destruct (_ && _ && _); [discriminate|].
  destruct (_ && _); [discriminate|]. reflexivity.
Qed.

(** C7, where the code departs from it.  A reference that is neither an
    [int] nor a [str] leaves [node_path] at [None]; nothing is cached under
    [None], so a node is constructed from [None] and [TypeError] comes out
    of [osp.basename], not the [KeyError] of a node that is not found. *)
Theorem resolve_other_type (item : pyobj) (w : world) :
  isinstance_int item = false ->
  isinstance_str item = false ->
  cache w !! None = None ->
  NodeCache_getitem fs item w = (Err TypeError, w).
Proof.
  intros Hint Hstr Hc. unfold NodeCache_getitem.
  assert (Hcanon : canonicalize fs (nodes_path w) item = Ok None).
  { unfold canonicalize. destruct item as [v|l]; [|reflexivity].
    destruct v as [| b | z | bits | s | l | kvs]; try reflexivity; discriminate. }
  rewrite Hcanon, Hc. reflexivity.
Qed.

(** ** Round trip *)


(** ** Actions *)

(** C9.  An action object with a [type] and an [amount]: construction
    succeeds and the kind is stored as it was given, whether or not it is
    one of [R], [F], [C]. *)
Theorem Action_init_keeps_kind
    (kvs : list (string * value)) (player : value) (kind : string) (amount : value) :
  dict_get kvs "type" = Some (VStr kind) ->
  dict_get kvs "amount" = Some amount ->
  exists a,
    Action_init (VDict kvs) player = Ok a /\
    Action_type a = VStr kind /\
    Action_amount a = amount.
Proof.
  intros Ht Ha. unfold Action_init. simpl. rewrite Ht, Ha.
  destruct player; simpl; destruct (dict_get kvs "player");
    destruct (dict_get kvs "node"); simpl; eexists; repeat split; reflexivity.
Qed.

(** The same at the level of a node: each action of a loaded node has the
    [type] of the JSON object it was parsed from. *)
Lemma parse_actions_keeps_kinds (d : value) (xs : list value) (acts : list Action) :
  (a <-? subscript d (VStr "actions");; iterate a)%res = Ok xs ->
  parse_actions d = Ok acts ->
  Forall2 (fun x a => subscript x (VStr "type") = Ok (Action_type a)) xs acts.
Proof.
  unfold parse_actions. intros Hxs.
  destruct (subscript d (VStr "actions")) as [arr|]; simpl in *; [|discriminate].
  rewrite Hxs. simpl. clear Hxs. revert acts.
  induction xs as [|x xs IH]; simpl; intros acts Hacts.
  - injection Hacts as <-. constructor.
  - destruct (Action_init x VNone) as [a|] eqn:Ha; simpl in Hacts; [|discriminate].
    destruct (rmap _ xs) as [acts'|]; simpl in Hacts; [|discriminate].
    injection Hacts as <-. constructor; [|apply IH; reflexivity].
    unfold Action_init in Ha.
    destruct (dict_method_get x "player"); simpl in Ha; [|discriminate].
    destruct (subscript x (VStr "type")); simpl in Ha; [|discriminate].
    destruct (subscript x (VStr "amount")); simpl in Ha; [|discriminate].
    destruct (dict_method_get x "node"); simpl in Ha; [|discriminate].
    injection Ha as <-. reflexivity.
Qed.

(** ** Missing fields *)

Lemma try_block_first_missing (kvs : list (string * value)) (m : string) :
  first_missing kvs = Some m ->
  try_raised (try_block (VDict kvs)) = Some (KeyError (VStr m)) /\
  try_sequence (try_block (VDict kvs)) = None /\
  (forall attr n,
      In attr try_attrs -> dict_get kvs attr = None ->
      HRCNode_player n = try_player (try_block (VDict kvs)) ->
      HRCNode_street n = try_street (try_block (VDict kvs)) ->
      HRCNode_children n = try_children (try_block (VDict kvs)) ->
      HRCNode_sequence n = try_sequence (try_block (VDict kvs)) ->
      attr_set n attr = false).
Proof.
  assert (Hunset : forall attr n,
             In attr try_attrs ->
             (attr = "player" -> HRCNode_player n = None) ->
             (attr = "street" -> HRCNode_street n = None) ->
             (attr = "children" -> HRCNode_children n = None) ->
             HRCNode_sequence n = None ->
             attr_set n attr = false).
  { intros attr n Hin H1 H2 H3 H4. unfold attr_set.
    destruct Hin as [<-|[<-|[<-|[<-|[]]]]]; simpl;
      rewrite ?H1, ?H2, ?H3, ?H4; reflexivity. }
  unfold first_missing, try_block, try_attrs. simpl.
  destruct (dict_get kvs "player") as [pl|] eqn:Hpl; simpl.
  2:{ intros [= <-]. repeat split.
      intros attr n Hin Hattr E1 E2 E3 E4. apply Hunset; auto. }
  destruct (dict_get kvs "street") as [st|] eqn:Hst; simpl.
  2:{ intros [= <-]. repeat split.
      intros attr n Hin Hattr E1 E2 E3 E4. apply Hunset; auto.
      intros ->. congruence. }
  destruct (dict_get kvs "children") as [ch|] eqn:Hch; simpl.
  2:{ intros [= <-]. repeat split.
      intros attr n Hin Hattr E1 E2 E3 E4. apply Hunset; auto;
        intros ->; congruence. }
  destruct (dict_get kvs "sequence") as [sq|] eqn:Hsq; simpl; [discriminate|].
  intros [= <-]. repeat split.
  intros attr n Hin Hattr E1 E2 E3 E4. apply Hunset; auto;
    intros ->; congruence.
Qed.

(** C5, as the code has it.  For a node file that holds a JSON object:
    without [actions], or without [hands] when the actions parse, the load
    raises the [KeyError] of that field (the [try] block having raised
    nothing else), and no node is built; without [player], [street],
    [children] or [sequence] the load goes on: the [KeyError] of the first
    of these that is missing is printed, between the content and the name
    of the file, and the node is built with that attribute unset. *)
Theorem load_missing_field
    (file : string) (id : Z) (kvs : list (string * value)) (w : world) :
  py_int (strip (basename file) ".json") = Some id ->
  load_json fs file = Ok (VDict kvs) ->
  (try_caught (try_block (VDict kvs)) = true ->
   dict_get kvs "actions" = None ->
   fst (HRCNode_init fs (Some file) w) = Err (KeyError (VStr "actions"))) /\
  (try_caught (try_block (VDict kvs)) = true ->
   is_Ok (parse_actions (VDict kvs)) = true ->
   dict_get kvs "hands" = None ->
   fst (HRCNode_init fs (Some file) w) = Err (KeyError (VStr "hands"))) /\
  (forall attr,
      In attr try_attrs ->
      dict_get kvs attr = None ->
      is_Ok (parse_actions (VDict kvs)) = true ->
      is_Ok (parse_hands (VDict kvs)) = true ->
      exists n m,
        first_missing kvs = Some m /\
        HRCNode_init fs (Some file) w
        = (Ok n, mkWorld (nodes_path w) (cache w) (heap w)
                         (trace w ++ [EOpen file;
                                      EPrint [PrVal (VDict kvs)];
                                      EPrint [PrExn (KeyError (VStr m))];
                                      EPrint [PrVal (VStr file)]])) /\
        attr_set n attr = false).
Proof.
  intros Hid Hload. repeat split.
  - intros Htry Hact. rewrite HRCNode_init_result, Hid, Hload. simpl.
    unfold HRCNode_of_json. rewrite Htry.
    unfold parse_actions. simpl. rewrite Hact. reflexivity.
  - intros Htry Hact Hhands. rewrite HRCNode_init_result, Hid, Hload. simpl.
    unfold HRCNode_of_json. rewrite Htry.
    destruct (parse_actions (VDict kvs)); [|discriminate]. simpl.
    unfold parse_hands. simpl. rewrite Hhands. reflexivity.
  - intros attr Hin Hattr Hact Hhands.
    assert (Hm : exists m, first_missing kvs = Some m).
    { unfold first_missing.
      destruct (List.find _ try_attrs) as [m|] eqn:Hfind; [eauto|].
      eapply List.find_none in Hfind; [|exact Hin].
      simpl in Hfind. rewrite Hattr in Hfind. discriminate. }
    destruct Hm as [m Hm].
    destruct (try_block_first_missing kvs m Hm) as (Hraised & _ & Hunset).
    destruct (parse_actions (VDict kvs)) as [acts|] eqn:Hacts; [|discriminate].
    destruct (parse_hands (VDict kvs)) as [hands|] eqn:Hhs; [|discriminate].
    eexists _, m. split; [exact Hm|]. split.
    + unfold HRCNode_init. rewrite Hid. unfold_m. simpl.
      rewrite Hload. simpl. rewrite Hraised. simpl. rewrite Hacts, Hhs. simpl.
      rewrite <- !app_assoc. reflexivity.
    + apply Hunset; auto.
Qed.

(** Without [hands] no node is built, whatever else the file holds. *)
Lemma load_without_hands (file : string) (kvs : list (string * value)) (w : world) :
  load_json fs file = Ok (VDict kvs) ->
  dict_get kvs "hands" = None ->
  is_Ok (fst (HRCNode_init fs (Some file) w)) = false.
Proof.
  intros Hload Hhands. rewrite HRCNode_init_result.
  destruct (py_int _); [|reflexivity]. rewrite Hload. simpl.
  unfold HRCNode_of_json.
  destruct (try_caught _); [|destruct (try_raised _); reflexivity].
  destruct (parse_actions (VDict kvs)); [|reflexivity]. simpl.
  unfold parse_hands. simpl. rewrite Hhands. reflexivity.
Qed.

(** ** Opening a session *)

Lemma NodeCache_getitem_loadable (item : pyobj) (w : world) :
  cache_loadable fs w ->
  let '(_, w') := NodeCache_getitem fs item w in
  nodes_path w' = nodes_path w /\ cache_loadable fs w'.
Proof.
  intros Hinv. unfold NodeCache_getitem.
  destruct (canonicalize fs (nodes_path w) item) as [node_path|e]; [|auto].
  destruct (cache w !! node_path) as [l|] eqn:Hc; [auto|].
  pose proof (HRCNode_init_store node_path w) as Hst.
  destruct (HRCNode_init fs node_path w) as [[n|e] w'] eqn:Hinit;
    destruct Hst as (Hnp & Hca & Hhe & _).
  - split; [exact Hnp|]. intros k l. cbn [cache]. rewrite lookup_insert.
    destruct (decide (node_path = k)) as [<-|Hk]; simpl.
    + intros _. rewrite (HRCNode_init_world node_path _ w), Hinit. reflexivity.
    + rewrite Hca. intros Hl. rewrite (HRCNode_init_world k _ w). eauto.
  - split; [exact Hnp|]. intros k l. rewrite Hca. intros Hl.
    rewrite (HRCNode_init_world k _ w). eauto.
Qed.

Lemma load_nodes_aborts (files : list string) (name : string) :
  In name files ->
  endswith name ".json" = true ->
  forall (nodes : list loc) (w : world),
    cache_loadable fs w ->
    entry_loads fs (nodes_path w) name = false ->
    is_Ok (fst (load_nodes fs (nodes_path w) files nodes w)) = false.
Proof.
  intros Hin Hjson.
  induction files as [|f files IH]; [destruct Hin|].
  intros nodes w Hinv Hbad. simpl.
  destruct (endswith f ".json") eqn:Hf; simpl.
  - pose proof (NodeCache_getitem_loadable
                  (PVal (VStr (join (nodes_path w) f))) w Hinv) as Hget.
    unfold bind.
    destruct (NodeCache_getitem fs (PVal (VStr (join (nodes_path w) f))) w)
      as [[l|e] w'] eqn:Hres; [|reflexivity].
    destruct Hget as [Hnp Hinv'].
    destruct (String.eqb_spec f name) as [->|Hne].
    + exfalso. unfold entry_loads in Hbad. unfold NodeCache_getitem in Hres.
      destruct (canonicalize fs (nodes_path w) _) as [node_path|]; [|discriminate].
      destruct (cache w !! node_path) as [l0|] eqn:Hc.
      * apply Hinv in Hc.
        rewrite (HRCNode_init_world node_path _ w) in Hbad. congruence.
      * rewrite (HRCNode_init_world node_path _ w) in Hbad.
        destruct (HRCNode_init fs node_path w) as [[n|e] w1]; discriminate.
    + rewrite <- Hnp. apply IH; [|exact Hinv'|rewrite Hnp; exact Hbad].
      destruct Hin as [->|Hin]; [contradiction|exact Hin].
  - unfold bind. rewrite emit_spec.
    match goal with
    | |- context [load_nodes fs _ files nodes ?w1] =>
        change (nodes_path w) with (nodes_path w1)
    end.
    apply IH.
    + destruct Hin as [->|Hin]; [congruence|exact Hin].
    + intros k l Hk. rewrite (HRCNode_init_world k _ w). apply (Hinv k l Hk).
    + exact Hbad.
Qed.

(** C6, as the code has it.  If an entry of the nodes directory with the
    [.json] suffix does not load, opening the session raises: no session
    is produced, whatever the other entries are. *)
Theorem open_aborts_on_unloadable_node
    (hand_export_dir : string) (files : list string) (name : string) :
  listdir fs (join hand_export_dir "nodes") = Ok files ->
  In name files ->
  endswith name ".json" = true ->
  entry_loads fs (join hand_export_dir "nodes") name = false ->
  is_Ok (fst (HRCSim_init fs hand_export_dir)) = false.
Proof.
  intros Hls Hin Hjson Hbad. unfold HRCSim_init. unfold bind at 1.
  rewrite emit_spec. unfold bind at 1. unfold lift at 1.
  destruct (load_json fs (join hand_export_dir "settings.json")) as [c|e];
    [|reflexivity].
  unfold bind at 1. unfold lift at 1.
  destruct (SolveSettings_init c) as [st|e]; [|reflexivity].
  unfold bind at 1. unfold lift at 1. rewrite Hls.
  unfold bind at 1.
  match goal with
  | |- context [load_nodes fs ?np files [] ?w0] =>
      assert (Hloop : is_Ok (fst (load_nodes fs np files [] w0)) = false);
      [|destruct (load_nodes fs np files [] w0) as [[nodes|e] w1];
        [discriminate Hloop|reflexivity]]
  end.
  apply (load_nodes_aborts files name Hin Hjson []
           (mkWorld (join hand_export_dir "nodes") ∅ []
                    ([] ++ [EOpen (join hand_export_dir "settings.json")]))).
  - intros k l Hk. cbn [cache] in Hk. rewrite lookup_empty in Hk. discriminate.
  - exact Hbad.
Qed.

End Properties.

(** ** The sample export *)

Example sample_open :
  sample_world
  = mkWorld "/e/nodes"
      (<[Some "/e/nodes/1.json" := 1%nat]>
         (<[Some "/e/nodes/0.json" := 0%nat]> ∅))
      [sample_node0; sample_node1]
      [EOpen "/e/settings.json"; EOpen "/e/nodes/0.json";
       EPrint [PrVal (VStr "Warning: unrecognized file");
               PrVal (VStr "notes.txt"); PrVal (VStr "in nodes path:");
               PrVal (VStr "/e/nodes")];
       EOpen "/e/nodes/1.json"].
Proof. vm_compute. reflexivity. Qed.

Example sample_open_nodes :
  option_map HRCSim_nodes
    (match fst (HRCSim_init sample_fs "/e") with Ok s => Some s | Err _ => None end)
  = Some [0%nat; 1%nat].
Proof. vm_compute. reflexivity. Qed.

Example sample_resolve_three_forms :
  let w0 := NodeCache_init "/e/nodes" in
  let '(r1, w1) := NodeCache_getitem sample_fs (PVal (VInt 0)) w0 in
  let '(r2, w2) := NodeCache_getitem sample_fs (PVal (VStr "0.json")) w1 in
  let '(r3, w3) :=
    NodeCache_getitem sample_fs (PVal (VStr "/e/nodes/./0.json")) w2 in
  (r1, r2, r3) = (Ok 0%nat, Ok 0%nat, Ok 0%nat) /\
  trace w3 = [EOpen "/e/nodes/0.json"] /\
  heap w3 = [sample_node0].
Proof. vm_compute. auto. Qed.

(** The end-to-end scenario: from node 0 action 1 leads to node 1, and
    from node 1 action 0 ends the hand. *)
Example sample_walk :
  HRCNode_take_action sample_fs sample_node0 (PVal (VInt 1)) sample_world
  = (Ok (PNode 1%nat), sample_world) /\
  HRCNode_take_action sample_fs sample_node1 (PVal (VInt 0)) sample_world
  = (Ok (PVal VNone), sample_world).
Proof. vm_compute. auto. Qed.

(** Opening [/partial]: the node without [player] is not skipped. *)
Example sample_open_partial :
  let '(r, w) := HRCSim_init sample_fs "/partial" in
  option_map HRCSim_nodes (match r with Ok s => Some s | Err _ => None end)
  = Some [0%nat; 1%nat] /\
  heap w !! 0%nat = Some sample_node3 /\
  trace w = [EOpen "/partial/settings.json";
             EOpen "/partial/nodes/3.json";
             EPrint [PrVal node3_json];
             EPrint [PrExn (KeyError (VStr "player"))];
             EPrint [PrVal (VStr "/partial/nodes/3.json")];
             EOpen "/partial/nodes/0.json"].
Proof. vm_compute. auto. Qed.

Lemma store_ok_init (nodes_path : string) : store_ok (NodeCache_init nodes_path).
Proof.
  split; [reflexivity|]. intros k l Hk. cbn [cache NodeCache_init] in Hk.
  rewrite lookup_empty in Hk. discriminate.
Qed.

(** The reference forms collide at the sample export for node 0. *)
Example sample_forms_collide :
  canonicalize sample_fs "/e/nodes" (PVal (VInt 0)) = Ok (Some "/e/nodes/0.json") /\
  canonicalize sample_fs "/e/nodes" (PVal (VStr "0.json"))
  = Ok (Some "/e/nodes/0.json") /\
  canonicalize sample_fs "/e/nodes" (PVal (VStr "/e/nodes/0.json"))
  = Ok (Some "/e/nodes/0.json").
Proof.
  destruct (reference_forms_collide sample_fs "/e/nodes" 0 eq_refl
              eq_refl eq_refl eq_refl) as (H1 & H2 & H3 & _).
  auto.
Qed.

(** A path that leads through a directory that is not there, or through
    a file, does not exist, whatever its normal form is. *)
Example sample_paths_walked :
  path_exists sample_fs "/e/nodes/./0.json" = true /\
  path_exists sample_fs "/e/nodes/../nodes/0.json" = true /\
  path_exists sample_fs "/e/nodes/zzz/../0.json" = false /\
  path_exists sample_fs "/e/nodes/0.json/." = false /\
  path_exists sample_fs "" = false.
Proof. vm_compute. auto. Qed.

(** What [int] makes of a text: the whitespace it skips is the tab, the
    line feed, the vertical tab, the form feed, the carriage return and the
    space, not the separators 28 to 31. *)
Example py_int_whitespace :
  py_int (String (ascii_of_nat 28) "6") = None /\
  py_int (String (ascii_of_nat 31) "6") = None /\
  py_int (String (ascii_of_nat 11) "6") = Some 6 /\
  py_int " 6 " = Some 6 /\
  py_int "+6" = Some 6 /\
  py_int "1_0" = Some 10 /\
  py_int "readme" = None.
Proof. vm_compute. auto 10. Qed.

(** ** The theorems at the sample export *)

Lemma take_action_terminal_witness :
  0 <= 0 < Z.of_nat (length (HRCNode_actions sample_node1)) /\
  HRCNode_take_action sample_fs sample_node1 (PVal (VInt 0)) sample_world
  = (Ok (PVal VNone), sample_world).
Proof.
  assert (H1 : 0 <= 0 < Z.of_nat (length (HRCNode_actions sample_node1)))
    by (simpl; lia).
  split; [exact H1|].
  exact (take_action_terminal sample_fs sample_node1 0
           (mkAction VNone (VStr "C") (VInt 0) VNone) sample_world
           H1 eq_refl eq_refl).
Defined.

Lemma take_action_non_integer_witness :
  isinstance_int (PVal (VStr "1.json")) = false /\
  HRCNode_take_action sample_fs sample_node0 (PVal (VStr "1.json")) sample_world
  = (Err (RuntimeError "Can only take integer actions"), sample_world).
Proof.
  split; [reflexivity|].
  exact (take_action_non_integer sample_fs sample_node0 (PVal (VStr "1.json"))
           sample_world eq_refl).
Defined.

Lemma take_action_index_error_witness :
  HRCNode_take_action sample_fs sample_node0 (PVal (VInt 2)) sample_world
  = (Err IndexError, sample_world) /\
  HRCNode_take_action sample_fs sample_node0 (PVal (VInt (-3))) sample_world
  = (Err IndexError, sample_world) /\
  HRCNode_take_action sample_fs sample_node0 (PVal (VInt (-1))) sample_world
  = HRCNode_take_action sample_fs sample_node0 (PVal (VInt 1)) sample_world.
Proof.
  split; [|split].
  - apply (proj1 (take_action_index_error sample_fs sample_node0 2 sample_world)).
    unfold sample_node0. simpl. lia.
  - apply (proj1 (take_action_index_error sample_fs sample_node0 (-3) sample_world)).
    unfold sample_node0. simpl. lia.
  - apply (proj2 (take_action_index_error sample_fs sample_node0 (-1) sample_world)).
    unfold sample_node0. simpl. lia.
Defined.

Lemma take_action_resolves_successor_witness :
  let a := mkAction VNone (VStr "R") (VInt 200) (VInt 1) in
  let w := NodeCache_init "/e/nodes" in
  0 <= 1 < Z.of_nat (length (HRCNode_actions sample_node0)) /\
  HRCNode_actions sample_node0 !! Z.to_nat 1 = Some a /\
  Action_next_id a <> VNone /\
  match NodeCache_getitem sample_fs (PVal (Action_next_id a)) w with
  | (Ok l, w') =>
      HRCNode_take_action sample_fs sample_node0 (PVal (VInt 1)) w
      = (Ok (PNode l), w') /\
      is_Some (heap w' !! l)
  | (Err e, w') =>
      HRCNode_take_action sample_fs sample_node0 (PVal (VInt 1)) w = (Err e, w')
  end.
Proof.
  intros a w.
  assert (H1 : 0 <= 1 < Z.of_nat (length (HRCNode_actions sample_node0)))
    by (simpl; lia).
  assert (H3 : Action_next_id a <> VNone) by discriminate.
  split; [exact H1|]. split; [reflexivity|]. split; [exact H3|].
  exact (take_action_resolves_successor sample_fs sample_node0 1 a w
           H1 eq_refl H3 (store_ok_init "/e/nodes")).
Defined.

Lemma resolve_other_type_witness :
  isinstance_int (PVal (VFloat 4609434218613702656)) = false /\
  isinstance_str (PVal (VFloat 4609434218613702656)) = false /\
  cache sample_world !! None = None /\
  NodeCache_getitem sample_fs (PVal (VFloat 4609434218613702656)) sample_world
  = (Err TypeError, sample_world).
Proof.
  assert (Hc : cache sample_world !! None = None) by (vm_compute; reflexivity).
  split; [reflexivity|]. split; [reflexivity|]. split; [exact Hc|].
  exact (resolve_other_type sample_fs (PVal (VFloat 4609434218613702656))
           sample_world eq_refl eq_refl Hc).
Defined.


Lemma Action_init_keeps_kind_witness :
  let kvs := [("type", VStr "X"); ("amount", VInt 50); ("node", VInt 7)] in
  dict_get kvs "type" = Some (VStr "X") /\
  dict_get kvs "amount" = Some (VInt 50) /\
  assoc action_map "X" = None /\
  exists a,
    Action_init (VDict kvs) VNone = Ok a /\
    Action_type a = VStr "X" /\
    Action_amount a = VInt 50.
Proof.
  intros kvs.
  split; [reflexivity|]. split; [reflexivity|]. split; [reflexivity|].
  exact (Action_init_keeps_kind kvs VNone "X" (VInt 50) eq_refl eq_refl).
Defined.

Lemma load_missing_field_witness :
  (dict_get node4_items "actions" = None /\
   fst (HRCNode_init sample_fs (Some "/broken/nodes/4.json")
                     (NodeCache_init "/broken/nodes"))
   = Err (KeyError (VStr "actions"))) /\
  (dict_get node2_items "hands" = None /\
   fst (HRCNode_init sample_fs (Some "/bad/nodes/2.json")
                     (NodeCache_init "/bad/nodes"))
   = Err (KeyError (VStr "hands"))) /\
  (dict_get node3_items "player" = None /\
   let w := NodeCache_init "/partial/nodes" in
   exists n m,
     first_missing node3_items = Some m /\
     HRCNode_init sample_fs (Some "/partial/nodes/3.json") w
     = (Ok n, mkWorld (nodes_path w) (cache w) (heap w)
                      (trace w ++ [EOpen "/partial/nodes/3.json";
                                   EPrint [PrVal (VDict node3_items)];
                                   EPrint [PrExn (KeyError (VStr m))];
                                   EPrint [PrVal (VStr "/partial/nodes/3.json")]])) /\
     attr_set n "player" = false).
Proof.
  split; [|split]; (split; [reflexivity|]).
  - refine (proj1 (load_missing_field sample_fs "/broken/nodes/4.json" 4
                     node4_items (NodeCache_init "/broken/nodes") _ _) _ _);
      vm_compute; reflexivity.
  - refine (proj1 (proj2 (load_missing_field sample_fs "/bad/nodes/2.json" 2
                            node2_items (NodeCache_init "/bad/nodes") _ _)) _ _ _);
      vm_compute; reflexivity.
  - refine (proj2 (proj2 (load_missing_field sample_fs "/partial/nodes/3.json" 3
                            node3_items (NodeCache_init "/partial/nodes") _ _))
              "player" _ _ _ _);
      try (vm_compute; reflexivity).
    simpl. auto.
Defined.

Lemma open_aborts_on_unloadable_node_witness :
  listdir sample_fs (join "/bad" "nodes") = Ok ["0.json"; "2.json"; "1.json"] /\
  In "2.json" ["0.json"; "2.json"; "1.json"] /\
  endswith "2.json" ".json" = true /\
  entry_loads sample_fs (join "/bad" "nodes") "2.json" = false /\
  is_Ok (fst (HRCSim_init sample_fs "/bad")) = false.
Proof.
  assert (H1 : listdir sample_fs (join "/bad" "nodes")
               = Ok ["0.json"; "2.json"; "1.json"]) by (vm_compute; reflexivity).
  assert (H2 : In "2.json" ["0.json"; "2.json"; "1.json"]) by (simpl; auto).
  assert (H4 : entry_loads sample_fs (join "/bad" "nodes") "2.json" = false)
    by (vm_compute; reflexivity).
  split; [exact H1|]. split; [exact H2|]. split; [reflexivity|]. split; [exact H4|].
  exact (open_aborts_on_unloadable_node sample_fs "/bad"
           ["0.json"; "2.json"; "1.json"] "2.json" H1 H2 eq_refl H4).
Defined.

(** ** Where the code departs from the specification *)

(** C2 at node 0 of the sample, on a fresh cache: action 1 has successor
    id 1; [take_action(1)] opens the file of node 1 and returns the node
    object, not the id. *)
Lemma take_action_returns_record_not_id :
  let w := NodeCache_init "/e/nodes" in
  let '(r, w') := HRCNode_take_action sample_fs sample_node0 (PVal (VInt 1)) w in
  option_map Action_next_id (HRCNode_actions sample_node0 !! 1%nat)
  = Some (VInt 1) /\
  r = Ok (PNode 0%nat) /\
  r <> Ok (PVal (VInt 1)) /\
  heap w' = [sample_node1] /\
  trace w' = [EOpen "/e/nodes/1.json"].
Proof. vm_compute. repeat split; discriminate. Qed.

(** C3 at node 0 of the sample, which has two actions: the indices [-1]
    and [-2] are outside [0, 2) and raise nothing; [-1] returns the node
    object of node 1. *)
Lemma take_action_negative_index_returns :
  ~ (0 <= -1 < Z.of_nat (length (HRCNode_actions sample_node0))) /\
  HRCNode_take_action sample_fs sample_node0 (PVal (VInt (-1))) sample_world
  = (Ok (PNode 1%nat), sample_world) /\
  HRCNode_take_action sample_fs sample_node0 (PVal (VInt (-2))) sample_world
  = (Ok (PVal VNone), sample_world).
Proof.
  split; [simpl; lia|]. split; vm_compute; reflexivity.
Qed.

(** C5 at the file of node 3, which has no [player]: the load succeeds
    and yields a node without the attributes of the [try] block. *)
Lemma load_without_player_succeeds :
  load_json sample_fs "/partial/nodes/3.json" = Ok (VDict node3_items) /\
  dict_get node3_items "player" = None /\
  fst (HRCNode_init sample_fs (Some "/partial/nodes/3.json")
                    (NodeCache_init "/partial/nodes"))
  = Ok sample_node3 /\
  HRCNode_player sample_node3 = None.
Proof. vm_compute. auto. Qed.

(** C6 at [/bad], where node 2 lacks [hands] and nodes 0 and 1 are well
    formed: opening raises the [KeyError] of node 2, no session is
    produced, and node 1, listed after node 2, is never read. *)
Lemma open_with_corrupt_node_fails :
  let '(r, w) := HRCSim_init sample_fs "/bad" in
  listdir sample_fs "/bad/nodes" = Ok ["0.json"; "2.json"; "1.json"] /\
  dict_get node2_items "hands" = None /\
  entry_loads sample_fs "/bad/nodes" "0.json" = true /\
  entry_loads sample_fs "/bad/nodes" "1.json" = true /\
  r = Err (KeyError (VStr "hands")) /\
  trace w = [EOpen "/bad/settings.json"; EOpen "/bad/nodes/0.json";
             EOpen "/bad/nodes/2.json"].
Proof. vm_compute. auto 7. Qed.


(** C7 at the sample: a missing string is reported as given, a missing id
    as the path built from it, and a reference of another type with
    [TypeError]. *)
Example sample_resolve_failures :
  fst (NodeCache_getitem sample_fs (PVal (VStr "999.json")) sample_world)
  = Err (KeyError (VStr "No such node 999.json")) /\
  fst (NodeCache_getitem sample_fs (PVal (VInt 999)) sample_world)
  = Err (KeyError (VStr "No such node /e/nodes/999.json")) /\
  fst (NodeCache_getitem sample_fs (PVal VNone) sample_world) = Err TypeError /\
  fst (NodeCache_getitem sample_fs (PVal (VFloat 4609434218613702656)) sample_world)
  = Err TypeError.
Proof. vm_compute. auto. Qed.

(** The same through traversal: an action whose [node] is the JSON number
    [1.0] makes [take_action] raise [TypeError]. *)
Example sample_float_successor :
  let self :=
    mkHRCNode "/e/nodes/0.json" 0 node0_json None None None None
              [mkAction VNone (VStr "C") (VInt 0) (VFloat 4607182418800017408)]
              [] in
  HRCNode_take_action sample_fs self (PVal (VInt 0)) sample_world
  = (Err TypeError, sample_world).
Proof. vm_compute. reflexivity. Qed.

(** * Further properties of the code *)

Section Store.

Variable fs : filesystem.

(** ** What a construction leaves behind *)

Lemma opens_app (p : string) (t1 t2 : list event) :
  opens p (t1 ++ t2) = (opens p t1 + opens p t2)%nat.
Proof. unfold opens. now rewrite List.filter_app, length_app. Qed.

(** The events of a construction: the file is opened once, unless the
    name is refused before. *)
Lemma HRCNode_init_events (f : option string) (w : world) :
  exists evs : list event,
    trace (snd (HRCNode_init fs f w)) = (trace w ++ evs)%list /\
    (forall p, f <> Some p -> opens p evs = 0%nat) /\
    (forall p, f = Some p -> is_Ok (fst (HRCNode_init fs f w)) = true ->
               opens p evs = 1%nat).
Proof.
  assert (Hself : forall p, opens p [EOpen p] = 1%nat).
  { intros p. unfold opens. simpl. now rewrite String.eqb_refl. }
  assert (Hother : forall p q, Some q <> Some p -> opens p [EOpen q] = 0%nat).
  { intros p q Hq. unfold opens. simpl.
    destruct (String.eqb_spec q p) as [->|]; [congruence|reflexivity]. }
  unfold HRCNode_init. destruct f as [file|].
  2:{ exists []. unfold_m. simpl. rewrite app_nil_r.
      repeat split; auto; discriminate. }
  destruct (py_int _).
  2:{ exists []. unfold_m. simpl. rewrite app_nil_r.
      repeat split; auto; discriminate. }
  unfold_m. simpl.
  destruct (load_json fs file) as [d|e]; simpl.
  2:{ exists [EOpen file]. repeat split; auto; discriminate. }
  destruct (try_raised (try_block d)) as [[k| | | | | | |]|]; simpl;
    try (exists [EOpen file]; repeat split; auto; discriminate);
    destruct (parse_actions d); simpl;
    try destruct (parse_hands d); simpl;
    first
      [ exists [EOpen file]; split; [reflexivity|];
        split; [auto|intros p [= <-] _; apply Hself]
      | exists [EOpen file; EPrint [PrVal d]; EPrint [PrExn (KeyError k)];
                EPrint [PrVal (VStr file)]];
        split; [now rewrite <- !app_assoc|];
        split; [intros p Hp; now apply (Hother p file)
               |intros p [= <-] _; apply (Hself file)] ].
Qed.

Lemma HRCNode_init_Ok (file : string) (w w' : world) (n : HRCNode) :
  HRCNode_init fs (Some file) w = (Ok n, w') ->
  HRCNode_filename n = file /\
  py_int (strip (basename file) ".json") = Some (HRCNode_id n) /\
  load_json fs file = Ok (HRCNode_node_json n) /\
  HRCNode_of_json file (HRCNode_id n) (HRCNode_node_json n) = Ok n.
Proof.
  intros H. pose proof (HRCNode_init_result fs file w) as Hres.
  rewrite H in Hres. simpl in Hres.
  destruct (py_int (strip (basename file) ".json")) as [id|]; [|discriminate].
  destruct (load_json fs file) as [d|e]; simpl in Hres; [|discriminate].
  symmetry in Hres.
  destruct (HRCNode_of_json_payload file id d n Hres) as (-> & Hf & ->).
  auto.
Qed.

(** ** Resolution, case by case *)

(** A successful resolution is a hit, which changes nothing, or a miss
    followed by the construction of a node that is stored last. *)
Lemma NodeCache_getitem_Ok (item : pyobj) (w w' : world) (l : loc) :
  NodeCache_getitem fs item w = (Ok l, w') ->
  exists k,
    canonicalize fs (nodes_path w) item = Ok k /\
    ((cache w !! k = Some l /\ w' = w) \/
     (cache w !! k = None /\
      exists p n w1,
        k = Some p /\ HRCNode_init fs (Some p) w = (Ok n, w1) /\
        l = length (heap w) /\
        w' = mkWorld (nodes_path w) (<[Some p := l]> (cache w))
                     (heap w ++ [n]) (trace w1))).
Proof.
  unfold NodeCache_getitem.
  destruct (canonicalize fs (nodes_path w) item) as [k|e]; [|discriminate].
  destruct (cache w !! k) as [l0|] eqn:Hc.
  - intros [= <- <-]. exists k. auto.
  - pose proof (HRCNode_init_store fs k w) as Hst.
    destruct (HRCNode_init fs k w) as [[n|e] w1] eqn:Hinit; [|discriminate].
    destruct Hst as (Hnp & Hca & Hhe & _).
    intros [= <- <-]. exists k. split; [reflexivity|]. right.
    split; [exact Hc|].
    destruct k as [p|]; [|rewrite HRCNode_init_None in Hinit; discriminate].
    exists p, n, w1. rewrite Hnp, Hca, Hhe. auto.
Qed.

(** A failed resolution leaves the cache and the objects as they were. *)
Lemma NodeCache_getitem_Err (item : pyobj) (w w' : world) (e : exn) :
  NodeCache_getitem fs item w = (Err e, w') ->
  nodes_path w' = nodes_path w /\ cache w' = cache w /\ heap w' = heap w.
Proof.
  unfold NodeCache_getitem.
  destruct (canonicalize fs (nodes_path w) item) as [k|e0];
    [|intros [= _ <-]; auto].
  destruct (cache w !! k) as [l0|]; [discriminate|].
  pose proof (HRCNode_init_store fs k w) as Hst.
  destruct (HRCNode_init fs k w) as [[n|e1] w1]; [discriminate|].
  destruct Hst as (Hnp & Hca & Hhe & _). intros [= _ <-]. auto.
Qed.

Lemma NodeCache_getitem_trace (item : pyobj) (w : world) :
  exists evs : list event,
    trace (snd (NodeCache_getitem fs item w)) = (trace w ++ evs)%list.
Proof.
  unfold NodeCache_getitem.
  destruct (canonicalize fs (nodes_path w) item) as [k|e0];
    [|exists []; simpl; now rewrite app_nil_r].
  destruct (cache w !! k) as [l0|]; [exists []; simpl; now rewrite app_nil_r|].
  destruct (HRCNode_init_events k w) as (evs & Htr & _).
  destruct (HRCNode_init fs k w) as [[n|e1] w1]; exists evs; exact Htr.
Qed.

Lemma getitem_extends (item : pyobj) (w : world) :
  let r := fst (NodeCache_getitem fs item w) in
  let w' := snd (NodeCache_getitem fs item w) in
  nodes_path w' = nodes_path w /\
  (forall k l, cache w !! k = Some l -> cache w' !! k = Some l) /\
  (exists new, heap w' = (heap w ++ new)%list) /\
  (exists evs, trace w' = (trace w ++ evs)%list) /\
  (is_Ok r = false -> cache w' = cache w /\ heap w' = heap w).
Proof.
  simpl. pose proof (NodeCache_getitem_trace item w) as Htr.
  destruct (NodeCache_getitem fs item w) as [[l|e] w'] eqn:Hget; simpl in *.
  - apply NodeCache_getitem_Ok in Hget as (k & _ & [[Hhit ->] | Hmiss]).
    + repeat split; auto. exists []. now rewrite app_nil_r.
    + destruct Hmiss as (Hc & p & n & w1 & -> & _ & -> & ->). simpl.
      repeat split; auto; try discriminate; [|eauto].
      intros k l Hk. rewrite lookup_insert_ne; [exact Hk|congruence].
  - apply NodeCache_getitem_Err in Hget as (Hnp & Hca & Hhe).
    rewrite Hnp, Hca, Hhe. repeat split; auto.
    exists []. now rewrite app_nil_r.
Qed.

(** ** The store invariant *)

Lemma store_linked_init (np : string) : store_linked (NodeCache_init np).
Proof. intros k l Hk. cbn [cache NodeCache_init] in Hk.
       rewrite lookup_empty in Hk. discriminate. Qed.

Lemma getitem_linked (item : pyobj) (w : world) :
  store_linked w -> store_linked (snd (NodeCache_getitem fs item w)).
Proof.
  intros Hinv.
  destruct (NodeCache_getitem fs item w) as [[l|e] w'] eqn:Hget; simpl.
  - apply NodeCache_getitem_Ok in Hget as (k & _ & [[Hhit ->] | Hmiss]);
      [exact Hinv|].
    destruct Hmiss as (Hc & p & n & w1 & -> & Hinit & -> & ->).
    apply HRCNode_init_Ok in Hinit as (Hf & Hid & _).
    intros k l. cbn [cache heap]. rewrite lookup_insert.
    destruct (decide (Some p = k)) as [<-|Hk]; simpl.
    + intros [= <-]. exists p, n. repeat split; auto.
      rewrite lookup_app_r by lia. now rewrite Nat.sub_diag.
    + intros Hl. destruct (Hinv k l Hl) as (file & n0 & -> & Hn0 & Hrest).
      exists file, n0. repeat split; try apply Hrest.
      rewrite lookup_app_l; [exact Hn0|]. eapply lookup_lt_Some; eauto.
  - apply NodeCache_getitem_Err in Hget as (_ & Hca & Hhe).
    intros k l. rewrite Hca, Hhe. apply Hinv.
Qed.

Lemma reachable_linked (np : string) (w : world) :
  reachable fs np w -> nodes_path w = np /\ store_linked w.
Proof.
  induction 1 as [|ev w Hw [IHnp IH]|item w Hw [IHnp IH]].
  - split; [reflexivity|apply store_linked_init].
  - split; [exact IHnp|exact IH].
  - split; [|now apply getitem_linked].
    now rewrite (proj1 (getitem_extends item w)).
Qed.

(** X1.  In every store a session can be in, each cached path is cached
    with the node built from that very file (its [filename] is the path
    and its [id] the number read off the file name), and two different
    paths never share an object. *)
Theorem reachable_store_linked (np : string) (w : world) :
  reachable fs np w ->
  (forall k l, cache w !! k = Some l ->
     exists file n,
       k = Some file /\ heap w !! l = Some n /\ HRCNode_filename n = file /\
       py_int (strip (basename file) ".json") = Some (HRCNode_id n)) /\
  (forall k1 k2 l, cache w !! k1 = Some l -> cache w !! k2 = Some l -> k1 = k2).
Proof.
  intros Hw. destruct (reachable_linked np w Hw) as [_ Hinv].
  split; [exact Hinv|].
  intros k1 k2 l H1 H2.
  destruct (Hinv k1 l H1) as (f1 & n1 & -> & Hn1 & Hf1 & _).
  destruct (Hinv k2 l H2) as (f2 & n2 & -> & Hn2 & Hf2 & _).
  congruence.
Qed.

(** X2.  A resolution never removes or replaces a cache entry, never
    changes an existing object and never rewrites the trace: it only
    appends; when it raises, the cache and the objects are exactly as
    before. *)
Theorem NodeCache_getitem_only_extends (item : pyobj) (w : world) :
  let r := fst (NodeCache_getitem fs item w) in
  let w' := snd (NodeCache_getitem fs item w) in
  nodes_path w' = nodes_path w /\
  (forall k l, cache w !! k = Some l -> cache w' !! k = Some l) /\
  (exists new, heap w' = (heap w ++ new)%list) /\
  (exists evs, trace w' = (trace w ++ evs)%list) /\
  (is_Ok r = false -> cache w' = cache w /\ heap w' = heap w).
Proof. exact (getitem_extends item w). Qed.

End Store.

Section Session.

Variable fs : filesystem.

Lemma opened_once_emit_print (s : string) (args : list printable) (w : world) :
  opened_once s w -> opened_once s (snd (emit (EPrint args) w)).
Proof.
  intros Hinv p Hp. simpl. rewrite opens_app. unfold opens at 2. simpl.
  rewrite Nat.add_0_r. now apply Hinv.
Qed.

Lemma opened_once_getitem (s : string) (item : pyobj) (w w' : world) (l : loc) :
  opened_once s w ->
  NodeCache_getitem fs item w = (Ok l, w') ->
  opened_once s w'.
Proof.
  intros Hinv Hget.
  apply NodeCache_getitem_Ok in Hget as (k & _ & [[Hhit ->] | Hmiss]);
    [exact Hinv|].
  destruct Hmiss as (Hc & p & n & w1 & -> & Hinit & -> & ->).
  destruct (HRCNode_init_events fs (Some p) w) as (evs & Htr & Hother & Hself).
  rewrite Hinit in Htr, Hself. simpl in Htr, Hself.
  intros q Hq. cbn [trace cache]. rewrite Htr, opens_app, lookup_insert.
  destruct (decide (Some p = Some q)) as [[= <-]|Hne]; simpl.
  - rewrite (Hself p eq_refl eq_refl). specialize (Hinv p Hq).
    rewrite Hc in Hinv. lia.
  - rewrite (Hother q Hne). rewrite Nat.add_0_r. now apply Hinv.
Qed.

(** The loop of the open, when it ends without an exception. *)
Lemma load_nodes_Ok (np s : string) (files : list string) :
  forall (nodes nodes' : list loc) (w w' : world),
    reachable fs np w -> opened_once s w ->
    load_nodes fs np files nodes w = (Ok nodes', w') ->
    reachable fs np w' /\ opened_once s w' /\
    (forall k l, cache w !! k = Some l -> cache w' !! k = Some l) /\
    exists ls, nodes' = (nodes ++ ls)%list /\
               Forall2 (cached_entry fs w') (json_files files) ls.
Proof.
  induction files as [|f files IH]; intros nodes nodes' w w' Hw Hinv Hrun.
  - injection Hrun as <- <-. repeat split; auto.
    exists []. split; [now rewrite app_nil_r|constructor].
  - simpl in Hrun. unfold json_files. simpl.
    destruct (endswith f ".json") eqn:Hf; simpl in *.
    + unfold bind in Hrun.
      destruct (NodeCache_getitem fs (PVal (VStr (join np f))) w)
        as [[l|e] w1] eqn:Hget; [|discriminate].
      assert (Hw1 : reachable fs np w1).
      { replace w1 with (snd (NodeCache_getitem fs (PVal (VStr (join np f))) w))
          by now rewrite Hget.
        now constructor. }
      pose proof (opened_once_getitem s _ w w1 l Hinv Hget) as Hinv1.
      destruct (IH _ _ _ _ Hw1 Hinv1 Hrun) as (Hw' & Hinv' & Hmono & ls & -> & Hls).
      pose proof (getitem_extends fs (PVal (VStr (join np f))) w) as Hext.
      rewrite Hget in Hext. simpl in Hext. destruct Hext as (Hnp & Hmono1 & _).
      destruct (reachable_linked fs np w Hw) as [Hnpw Hlinked].
      destruct (reachable_linked fs np w' Hw') as [Hnpw' _].
      repeat split; auto.
      exists (l :: ls). split; [now rewrite <- app_assoc|].
      constructor; [|exact Hls].
      apply NodeCache_getitem_Ok in Hget as (k & Hk & Hcases).
      assert (Hkl : cache w1 !! k = Some l /\ exists p, k = Some p).
      { destruct Hcases as [[Hhit ->] | (_ & p & n & w2 & -> & _ & -> & ->)].
        - split; [exact Hhit|].
          destruct (Hlinked k l Hhit) as (file & _ & -> & _). eauto.
        - split; [cbn [cache]; apply lookup_insert_eq|eauto]. }
      destruct Hkl as [Hkl [p ->]].
      exists p. rewrite Hnpw'. rewrite Hnpw in Hk. split; [exact Hk|].
      now apply Hmono.
    + unfold bind in Hrun. rewrite emit_spec in Hrun.
      match type of Hrun with
      | load_nodes _ _ _ _ ?w0 = _ =>
          assert (Hw0 : reachable fs np w0)
            by (apply (reachable_emit fs np
                         (EPrint [PrVal (VStr "Warning: unrecognized file");
                                  PrVal (VStr f);
                                  PrVal (VStr "in nodes path:");
                                  PrVal (VStr np)]) w Hw));
          assert (Hinv0 : opened_once s w0)
            by (apply (opened_once_emit_print s _ w Hinv));
          destruct (IH _ _ _ _ Hw0 Hinv0 Hrun) as (Hw' & Hinv' & Hmono & Hls)
      end.
      repeat split; auto.
Qed.

(** The steps of the open. *)
Lemma HRCSim_init_steps (dir : string) :
  let s := join dir "settings.json" in
  let np := join dir "nodes" in
  let w0 := mkWorld np ∅ [] [EOpen s] in
  HRCSim_init fs dir
  = match load_json fs s with
    | Err e => (Err e, w0)
    | Ok c =>
        match SolveSettings_init c with
        | Err e => (Err e, w0)
        | Ok settings =>
            match listdir fs np with
            | Err e => (Err e, w0)
            | Ok files =>
                match load_nodes fs np files [] w0 with
                | (Ok nodes, w) => (Ok (mkHRCSim dir s settings nodes np), w)
                | (Err e, w) => (Err e, w)
                end
            end
        end
    end.
Proof.
  simpl. unfold HRCSim_init. unfold_m. simpl.
  destruct (load_json fs (join dir "settings.json")) as [c|e]; [|reflexivity].
  destruct (SolveSettings_init c) as [st|e]; [|reflexivity].
  destruct (listdir fs (join dir "nodes")) as [files|e]; [|reflexivity].
  destruct (load_nodes fs (join dir "nodes") files [] _) as [[nodes|e] w1];
    reflexivity.
Qed.

Lemma HRCSim_init_Ok (dir : string) :
  is_Ok (fst (HRCSim_init fs dir)) = true ->
  exists files,
    listdir fs (join dir "nodes") = Ok files /\
    load_nodes fs (join dir "nodes") files []
      (mkWorld (join dir "nodes") ∅ [] [EOpen (join dir "settings.json")])
    = (Ok (nodes_of (fst (HRCSim_init fs dir))), snd (HRCSim_init fs dir)).
Proof.
  rewrite HRCSim_init_steps. cbv zeta.
  destruct (load_json fs (join dir "settings.json")) as [c|e]; [|discriminate].
  destruct (SolveSettings_init c) as [st|e]; [|discriminate].
  destruct (listdir fs (join dir "nodes")) as [files|e]; [|discriminate].
  destruct (load_nodes fs (join dir "nodes") files [] _) as [[nodes|e] w1] eqn:Hrun;
    [|discriminate].
  intros _. exists files. split; [reflexivity|]. simpl. exact Hrun.
Qed.

Lemma HRCSim_init_facts (dir : string) :
  is_Ok (fst (HRCSim_init fs dir)) = true ->
  let w := snd (HRCSim_init fs dir) in
  reachable fs (join dir "nodes") w /\
  opened_once (join dir "settings.json") w /\
  exists files,
    listdir fs (join dir "nodes") = Ok files /\
    Forall2 (cached_entry fs w) (json_files files)
            (nodes_of (fst (HRCSim_init fs dir))).
Proof.
  intros Hok. simpl. destruct (HRCSim_init_Ok dir Hok) as (files & Hls & Hrun).
  apply (load_nodes_Ok _ (join dir "settings.json")) in Hrun
    as (Hw & Hinv & _ & ls & Heq & Hall).
  - repeat split; auto. exists files. split; [exact Hls|].
    simpl in Heq. now rewrite Heq.
  - apply (reachable_emit fs (join dir "nodes")
             (EOpen (join dir "settings.json"))
             (NodeCache_init (join dir "nodes"))).
    constructor.
  - intros p Hp. simpl. unfold opens. simpl.
    destruct (String.eqb_spec (join dir "settings.json") p); [congruence|].
    reflexivity.
Qed.

(** X3.  When the open succeeds, the session's [nodes] are, in the order
    of the directory listing, one object per entry with the [.json]
    suffix, each cached under the canonical path of its entry; entries
    without the suffix contribute nothing. *)
Theorem HRCSim_init_nodes (dir : string) :
  is_Ok (fst (HRCSim_init fs dir)) = true ->
  exists files,
    listdir fs (join dir "nodes") = Ok files /\
    Forall2 (cached_entry fs (snd (HRCSim_init fs dir))) (json_files files)
            (nodes_of (fst (HRCSim_init fs dir))).
Proof. intros Hok. exact (proj2 (proj2 (HRCSim_init_facts dir Hok))). Qed.

(** X4.  When the open succeeds, every file other than the settings file
    has been opened exactly once if it is in the cache, and not at all
    otherwise: no node file is read twice, and nothing is read that is not
    kept. *)
Theorem HRCSim_init_opens_once (dir : string) (p : string) :
  is_Ok (fst (HRCSim_init fs dir)) = true ->
  p <> join dir "settings.json" ->
  let w := snd (HRCSim_init fs dir) in
  opens p (trace w) = match cache w !! Some p with
                      | Some _ => 1%nat
                      | None => 0%nat
                      end.
Proof.
  intros Hok Hp. exact (proj1 (proj2 (HRCSim_init_facts dir Hok)) p Hp).
Qed.

Lemma cached_entry_hit (w : world) (f : string) (l : loc) :
  cached_entry fs w f l ->
  NodeCache_getitem fs (PVal (VStr (join (nodes_path w) f))) w = (Ok l, w).
Proof.
  intros (p & Hp & Hc). unfold NodeCache_getitem. now rewrite Hp, Hc.
Qed.

Lemma Forall2_In_l {A B} (P : A -> B -> Prop) (xs : list A) (ys : list B) (x : A) :
  Forall2 P xs ys -> In x xs -> exists y, In y ys /\ P x y.
Proof.
  induction 1 as [|x0 y0 xs ys Hxy Hrest IH]; intros Hin; [destruct Hin|].
  destruct Hin as [->|Hin].
  - exists y0. split; [now left|exact Hxy].
  - destruct (IH Hin) as (y & Hy & HP). exists y. split; [now right|exact HP].
Qed.

(** X5.  After a successful open, looking up an entry of the listing that
    has the [.json] suffix by its path is a cache hit: it returns one of
    the session's nodes and leaves the store as it is, so no file is
    read. *)
Theorem lookup_after_open (dir f : string) (files : list string) :
  is_Ok (fst (HRCSim_init fs dir)) = true ->
  listdir fs (join dir "nodes") = Ok files ->
  In f files ->
  endswith f ".json" = true ->
  let w := snd (HRCSim_init fs dir) in
  exists l,
    In l (nodes_of (fst (HRCSim_init fs dir))) /\
    HRCSim_get_node fs (PVal (VStr (join (join dir "nodes") f))) w = (Ok l, w).
Proof.
  intros Hok Hls Hin Hf. simpl.
  destruct (HRCSim_init_facts dir Hok) as (Hw & _ & files' & Hls' & Hall).
  rewrite Hls in Hls'. injection Hls' as <-.
  assert (Hjson : In f (json_files files)).
  { unfold json_files. apply List.filter_In. auto. }
  destruct (Forall2_In_l _ _ _ f Hall Hjson) as (l & Hl & Hentry).
  exists l. split; [exact Hl|].
  apply cached_entry_hit in Hentry.
  destruct (reachable_linked fs _ _ Hw) as [Hnp _]. rewrite Hnp in Hentry.
  exact Hentry.
Qed.

End Session.

(** ** Integers and their text *)

Lemma list_ascii_app (a b : string) :
  list_ascii_of_string (a ++ b)
  = (list_ascii_of_string a ++ list_ascii_of_string b)%list.
Proof.
  induction a as [|ch a IH]; string_simpl; [reflexivity|now rewrite IH].
Qed.

Lemma string_of_list_app (a b : list ascii) :
  string_of_list_ascii (a ++ b)%list
  = string_of_list_ascii a ++ string_of_list_ascii b.
Proof.
  induction a as [|ch a IH]; simpl; string_simpl; [reflexivity|now rewrite IH].
Qed.

Lemma string_rev_app (a b : string) :
  string_rev (a ++ b) = string_rev b ++ string_rev a.
Proof.
  unfold string_rev. now rewrite list_ascii_app, rev_app_distr, string_of_list_app.
Qed.

Lemma string_rev_involutive (s : string) : string_rev (string_rev s) = s.
Proof.
  unfold string_rev.
  now rewrite list_ascii_of_string_of_list_ascii, rev_involutive,
    string_of_list_ascii_of_string.
Qed.

Lemma all_chars_app (P : ascii -> bool) (a b : string) :
  all_chars P (a ++ b) = all_chars P a && all_chars P b.
Proof. unfold all_chars. now rewrite list_ascii_app, forallb_app. Qed.

Lemma all_chars_rev (P : ascii -> bool) (s : string) :
  all_chars P (string_rev s) = all_chars P s.
Proof.
  unfold all_chars, string_rev. rewrite list_ascii_of_string_of_list_ascii.
  induction (list_ascii_of_string s) as [|c l IH]; [reflexivity|].
  simpl. rewrite forallb_app, IH. simpl. rewrite andb_true_r. apply andb_comm.
Qed.

Lemma all_chars_impl (P Q : ascii -> bool) (s : string) :
  (forall c, P c = true -> Q c = true) ->
  all_chars P s = true -> all_chars Q s = true.
Proof.
  intros HPQ. unfold all_chars.
  induction (list_ascii_of_string s) as [|c l IH]; [reflexivity|]. simpl.
  intros H. apply andb_true_iff in H as [Hc Hl].
  now rewrite (HPQ c Hc), IH.
Qed.

Lemma digit_val_digit_of_nat (k : nat) :
  (k < 10)%nat -> digit_val (digit_of_nat k) = Some (Z.of_nat k).
Proof.
  intros Hk.
  destruct k as [|[|[|[|[|[|[|[|[|[|k]]]]]]]]]]; try lia; reflexivity.
Qed.

Lemma digits_of_step (fuel : nat) (n : N) (acc : string) :
  digits_of (S fuel) n acc
  = if (n / 10 =? 0)%N
    then String (digit_of_nat (N.to_nat (n mod 10))) acc
    else digits_of fuel (n / 10)%N
           (String (digit_of_nat (N.to_nat (n mod 10))) acc).
Proof. reflexivity. Qed.

Lemma mod10_lt (n : N) : (N.to_nat (n mod 10) < 10)%nat.
Proof. pose proof (N.mod_lt n 10). lia. Qed.

Lemma digits_of_all_digits (fuel : nat) (n : N) (acc : string) :
  all_chars is_num_char acc = true ->
  all_chars is_num_char (digits_of fuel n acc) = true.
Proof.
  revert n acc. induction fuel as [|fuel IH]; intros n acc Hacc; [exact Hacc|].
  rewrite digits_of_step.
  assert (Hd : all_chars is_num_char
                 (String (digit_of_nat (N.to_nat (n mod 10))) acc) = true).
  { change (is_num_char (digit_of_nat (N.to_nat (n mod 10)))
            && all_chars is_num_char acc = true).
    rewrite Hacc. unfold is_num_char.
    now rewrite (digit_val_digit_of_nat _ (mod10_lt n)). }
  destruct (n / 10 =? 0)%N; [exact Hd|]. now apply IH.
Qed.

Lemma str_of_Z_num_chars (z : Z) : all_chars is_num_char (str_of_Z z) = true.
Proof.
  unfold str_of_Z. destruct (z <? 0).
  - rewrite all_chars_app. now rewrite digits_of_all_digits.
  - now apply digits_of_all_digits.
Qed.

Lemma digits_of_nonempty (fuel : nat) (n : N) (acc : string) :
  exists c t, digits_of (S fuel) n acc = String c t.
Proof.
  revert n acc. induction fuel as [|fuel IH]; intros n acc;
    rewrite digits_of_step; destruct (n / 10 =? 0)%N; eauto.
Qed.

Lemma str_of_Z_nonempty (z : Z) : exists c t, str_of_Z z = String c t.
Proof.
  unfold str_of_Z. destruct (z <? 0); [eauto|apply digits_of_nonempty].
Qed.

(** Reading the digits back gives the number. *)
Lemma horner_digits_of (fuel : nat) :
  forall (n : N) (acc : string),
    (n < 10 ^ N.of_nat fuel)%N ->
    horner (digits_of fuel n acc) 0 = horner acc (Z.of_N n).
Proof.
  induction fuel as [|fuel IH]; intros n acc Hn.
  - simpl in Hn. assert (n = 0%N) by lia. subst n. reflexivity.
  - rewrite digits_of_step.
    assert (Hstep : forall a,
               horner (String (digit_of_nat (N.to_nat (n mod 10))) acc) a
               = horner acc (10 * a + Z.of_N (n mod 10))).
    { intros a. cbn [horner].
      rewrite (digit_val_digit_of_nat _ (mod10_lt n)).
      now rewrite N_nat_Z. }
    pose proof (N.div_mod n 10 ltac:(lia)) as Hdm.
    destruct (n / 10 =? 0)%N eqn:Hq.
    + apply N.eqb_eq in Hq. rewrite Hstep. f_equal. lia.
    + rewrite IH.
      * rewrite Hstep. f_equal. rewrite N2Z.inj_div, N2Z.inj_mod in *.
        pose proof (Z.div_mod (Z.of_N n) 10 ltac:(lia)). simpl Z.of_N in *. lia.
      * rewrite Nat2N.inj_succ, N.pow_succ_r' in Hn.
        apply N.Div0.div_lt_upper_bound. lia.
Qed.

Lemma digits_fuel (n : N) : (n < 10 ^ N.of_nat (S (N.to_nat (N.log2 n))))%N.
Proof.
  rewrite Nat2N.inj_succ, N2Nat.id.
  destruct (N.eq_dec n 0%N) as [->|Hn]; [reflexivity|].
  pose proof (N.log2_spec n ltac:(lia)) as [_ Hlt].
  eapply N.lt_le_trans; [exact Hlt|].
  apply N.pow_le_mono_l. lia.
Qed.

Lemma parse_digits_horner (s : string) :
  forall (acc : Z) (prev : bool),
    all_digits s = true -> (s <> "" \/ prev = true) ->
    parse_digits s acc prev = Some (horner s acc).
Proof.
  induction s as [|c s IH]; intros acc prev Hs Hne.
  - destruct Hne as [Hne| ->]; [contradiction|reflexivity].
  - unfold all_digits in Hs. simpl in Hs.
    destruct (digit_val c) as [d|] eqn:Hd; [|discriminate].
    simpl. rewrite Hd. apply IH; [exact Hs|now right].
Qed.


Lemma digits_of_digits (fuel : nat) (n : N) (acc : string) :
  all_digits acc = true -> all_digits (digits_of fuel n acc) = true.
Proof.
  revert n acc. induction fuel as [|fuel IH]; intros n acc Hacc; [exact Hacc|].
  rewrite digits_of_step.
  assert (Hd : all_digits (String (digit_of_nat (N.to_nat (n mod 10))) acc) = true).
  { unfold all_digits in *. cbn [list_ascii_of_string forallb].
    now rewrite (digit_val_digit_of_nat _ (mod10_lt n)), Hacc. }
  destruct (n / 10 =? 0)%N; [exact Hd|]. now apply IH.
Qed.

Lemma num_char_not_space (c : ascii) :
  is_num_char c = true -> is_space c = false.
Proof.
  destruct c as [[] [] [] [] [] [] [] []]; intros H; try discriminate H;
    reflexivity.
Qed.

Lemma lstrip_space_id (s : string) :
  all_chars is_num_char s = true -> lstrip_space s = s.
Proof.
  destruct s as [|c s]; [reflexivity|]. unfold all_chars. simpl.
  intros H. apply andb_true_iff in H as [Hc _].
  now rewrite (num_char_not_space c Hc).
Qed.

Lemma py_int_digits (ds : string) :
  all_digits ds = true -> ds <> "" ->
  py_int ds = Some (horner ds 0) /\
  py_int ("-" ++ ds) = Some (- horner ds 0).
Proof.
  intros Hds Hne.
  assert (Hnum : all_chars is_num_char ds = true).
  { apply (all_chars_impl
             (fun c => match digit_val c with Some _ => true | None => false end));
      [|exact Hds].
    intros c Hc. unfold is_num_char. now destruct (digit_val c). }
  assert (Hstrip : forall s, all_chars is_num_char s = true ->
             string_rev (lstrip_space (string_rev (lstrip_space s))) = s).
  { intros s Hs. rewrite (lstrip_space_id s Hs).
    rewrite lstrip_space_id by now rewrite all_chars_rev.
    apply string_rev_involutive. }
  split.
  - unfold py_int. rewrite (Hstrip ds Hnum).
    destruct ds as [|c t]; [contradiction|].
    assert (Hc : exists d, digit_val c = Some d).
    { unfold all_digits in Hds. simpl in Hds.
      destruct (digit_val c); [eauto|discriminate]. }
    destruct Hc as [d Hc].
    rewrite <- (parse_digits_horner (String c t) 0 false Hds (or_introl Hne)).
    destruct c as [[] [] [] [] [] [] [] []]; try discriminate Hc; reflexivity.
  - unfold py_int. rewrite Hstrip.
    + string_simpl.
      now rewrite (parse_digits_horner ds 0 false Hds (or_introl Hne)).
    + rewrite all_chars_app, Hnum. reflexivity.
Qed.

(** [int(str(z))] is [z]. *)
Lemma py_int_str_of_Z (z : Z) : py_int (str_of_Z z) = Some z.
Proof.
  unfold str_of_Z.
  set (n := Z.to_N (Z.abs z)).
  set (ds := digits_of (S (N.to_nat (N.log2 n))) n "").
  assert (Hds : all_digits ds = true) by (apply digits_of_digits; reflexivity).
  assert (Hne : ds <> "").
  { destruct (digits_of_nonempty (N.to_nat (N.log2 n)) n "") as (c & t & H).
    unfold ds. rewrite H. discriminate. }
  assert (Hval : horner ds 0 = Z.abs z).
  { unfold ds. rewrite horner_digits_of by apply digits_fuel.
    simpl. unfold n. lia. }
  destruct (py_int_digits ds Hds Hne) as [Hpos Hneg].
  destruct (z <? 0) eqn:Hz.
  - rewrite Hneg, Hval. f_equal. lia.
  - rewrite Hpos, Hval. f_equal. lia.
Qed.

(** ** The id read off a file name *)

Lemma string_app_nil_r (s : string) : s ++ "" = s.
Proof. induction s as [|c s IH]; string_simpl; [reflexivity|now rewrite IH]. Qed.

Lemma lstrip_head (chars : string) (c : ascii) (s : string) :
  char_in c chars = false -> lstrip chars (String c s) = String c s.
Proof. intros Hc. simpl. now rewrite Hc. Qed.

Lemma lstrip_drop (chars a b : string) :
  all_in chars a = true -> lstrip chars (a ++ b) = lstrip chars b.
Proof.
  unfold all_in. induction a as [|c a IH]; string_simpl; [reflexivity|].
  intros H. apply andb_true_iff in H as [Hc Ha]. rewrite Hc. now apply IH.
Qed.

Lemma lstrip_keep (chars s : string) :
  all_chars (fun c => negb (char_in c chars)) s = true -> lstrip chars s = s.
Proof.
  destruct s as [|c s]; [reflexivity|]. unfold all_chars.
  cbn [list_ascii_of_string forallb].
  intros H. apply andb_true_iff in H as [Hc _]. apply negb_true_iff in Hc.
  now apply lstrip_head.
Qed.

(** [strip] removes a tail made of the given characters, whatever their
    order, from a text that has none of them. *)
Lemma strip_tail (chars d t : string) :
  all_chars (fun c => negb (char_in c chars)) d = true ->
  all_in chars t = true ->
  strip (d ++ t) chars = d.
Proof.
  intros Hd Ht. unfold strip, rstrip.
  assert (Hrev : string_rev (lstrip chars (string_rev (d ++ t))) = d).
  { rewrite string_rev_app, lstrip_drop.
    - rewrite lstrip_keep by now rewrite all_chars_rev.
      apply string_rev_involutive.
    - unfold all_in. fold (all_chars (fun c => char_in c chars) (string_rev t)).
      rewrite all_chars_rev. exact Ht. }
  destruct d as [|c d].
  - rewrite string_app_nil.
    rewrite <- (string_app_nil_r t), lstrip_drop by exact Ht.
    reflexivity.
  - rewrite string_app_cons, lstrip_head; [rewrite <- string_app_cons; exact Hrev|].
    unfold all_chars in Hd. cbn [list_ascii_of_string forallb] in Hd.
    apply andb_true_iff in Hd as [Hc _]. now apply negb_true_iff in Hc.
Qed.

Lemma num_char_not_json (c : ascii) :
  is_num_char c = true -> negb (char_in c ".json") = true.
Proof.
  destruct c as [[] [] [] [] [] [] [] []]; intros H; try discriminate H;
    reflexivity.
Qed.

(** The stem of [z.json], and of [z] followed by any characters among
    [.], [j], [s], [o], [n], reads back as [z]. *)
Lemma id_of_name (z : Z) (t : string) :
  all_in ".json" t = true ->
  py_int (strip (str_of_Z z ++ t) ".json") = Some z.
Proof.
  intros Ht. rewrite strip_tail; [apply py_int_str_of_Z| |exact Ht].
  apply (all_chars_impl is_num_char); [apply num_char_not_json|].
  apply str_of_Z_num_chars.
Qed.

Lemma join_sep_last (cs : list string) (name : string) :
  cs <> [] ->
  join_sep "/" (cs ++ [name])%list = join_sep "/" cs ++ String "/" name.
Proof.
  induction cs as [|c cs IH]; [contradiction|]. intros _.
  destruct cs as [|c' cs].
  - reflexivity.
  - change (join_sep "/" ((c :: c' :: cs) ++ [name])%list)
      with (c ++ "/" ++ join_sep "/" ((c' :: cs) ++ [name])%list).
    rewrite IH by discriminate.
    change (join_sep "/" (c :: c' :: cs))
      with (c ++ "/" ++ join_sep "/" (c' :: cs)).
    now rewrite !string_app_assoc.
Qed.

Lemma basename_last (pre name : string) :
  no_slash name = true -> basename (pre ++ String "/" name) = name.
Proof.
  intros Hname. unfold basename.
  rewrite split_sep_app, (split_sep_no_slash name Hname).
  apply List.last_last.
Qed.

(** [normpath] keeps a plain last component of an absolute path as the
    base name. *)
Lemma basename_normpath (dir name : string) :
  startswith (dir ++ String "/" name) "/" = true ->
  plain name = true ->
  basename (normpath (dir ++ String "/" name)) = name.
Proof.
  intros Habs Hname.
  destruct (normpath_absolute _ Habs) as (n & cs & Hn & _ & -> & Hcs).
  rewrite split_sep_app in Hcs.
  rewrite (split_sep_no_slash name) in Hcs by (now apply plain_spec in Hname).
  rewrite normpath_comps_last in Hcs by exact Hname.
  assert (Hslash : no_slash name = true) by now apply plain_spec in Hname.
  unfold normal_path. rewrite Hcs.
  destruct (normpath_comps n (split_sep "/" dir) []) as [|c cs0] eqn:Hcs0.
  - destruct Hn as [-> | ->].
    + change (repeat_string 1 "/" ++ join_sep "/" ([] ++ [name])%list)
        with ("" ++ String "/" name).
      now apply basename_last.
    + change (repeat_string 2 "/" ++ join_sep "/" ([] ++ [name])%list)
        with ("/" ++ String "/" name).
      now apply basename_last.
  - rewrite join_sep_last by discriminate.
    rewrite <- string_app_assoc. now apply basename_last.
Qed.

(** The path [abspath] makes of a name joined to a directory. *)
Lemma abspath_join_shape (cwd np name : string) :
  startswith cwd "/" = true ->
  startswith name "/" = false ->
  exists dir,
    startswith (dir ++ String "/" name) "/" = true /\
    abspath cwd (join np name) = normpath (dir ++ String "/" name).
Proof.
  intros Hcwd Hname.
  assert (Hcwd_ne : cwd <> "") by (intros ->; discriminate).
  unfold abspath.
  destruct (String.eqb_spec np "") as [->|Hnp].
  - assert (Hj : join "" name = name).
    { unfold join. now rewrite Hname. }
    rewrite Hj, Hname.
    destruct (join_name cwd name Hname Hcwd_ne) as (dir & Hjoin & Habs).
    exists dir. rewrite <- Hjoin. split; [now rewrite Habs|reflexivity].
  - destruct (join_name np name Hname Hnp) as (dir & Hjoin & Habs).
    destruct (startswith (join np name) "/") eqn:Hj.
    + exists dir. now rewrite <- Hjoin.
    + destruct (join_name cwd (join np name) Hj Hcwd_ne)
        as (dir' & Hjoin' & Habs').
      exists (dir' ++ String "/" dir).
      rewrite Hjoin in Hjoin' at 2.
      rewrite string_app_assoc, string_app_cons.
      rewrite <- Hjoin'. split; [now rewrite Habs'|reflexivity].
Qed.

Section Ids.

Variable fs : filesystem.
Hypothesis cwd_absolute : startswith (getcwd fs) "/" = true.

(** An integer reference canonicalizes, if at all, to the path of
    [z.json] in the nodes directory. *)
Lemma canonicalize_int_key (np : string) (z : Z) (k : option string) :
  canonicalize fs np (PVal (VInt z)) = Ok k ->
  k = Some (abspath (getcwd fs) (join np (str_of_Z z ++ ".json"))).
Proof.
  unfold canonicalize. cbn [format_int].
  set (A := abspath (getcwd fs) (join np (str_of_Z z ++ ".json"))).
  assert (HA : startswith A "/" = true) by now apply abspath_absolute.
  assert (Hfix : abspath (getcwd fs) A = A)
    by now apply abspath_idempotent.
  assert (Hjoin : join np A = A) by (unfold join; now rewrite HA).
  rewrite Hjoin, Hfix.
  destruct (_ && _ && _); [now intros [= <-]|].
  destruct (_ && _); [now intros [= <-]|discriminate].
Qed.

Lemma int_key_id (np : string) (z : Z) :
  py_int (strip (basename (abspath (getcwd fs)
                             (join np (str_of_Z z ++ ".json")))) ".json")
  = Some z.
Proof.
  assert (Hplain : plain (str_of_Z z ++ ".json") = true)
    by (apply plain_json_name, str_of_Z_no_slash).
  assert (Hrel : startswith (str_of_Z z ++ ".json") "/" = false).
  { apply no_slash_not_absolute. now apply plain_spec in Hplain. }
  destruct (abspath_join_shape (getcwd fs) np _ cwd_absolute Hrel)
    as (dir & Habs & ->).
  rewrite basename_normpath by assumption.
  now apply id_of_name.
Qed.

Lemma resolved_int_id (np : string) (z : Z) (w w' : world) (l : loc) :
  reachable fs np w ->
  NodeCache_getitem fs (PVal (VInt z)) w = (Ok l, w') ->
  exists n, heap w' !! l = Some n /\ HRCNode_id n = z.
Proof.
  intros Hw Hget.
  assert (Hw' : reachable fs np w').
  { replace w' with (snd (NodeCache_getitem fs (PVal (VInt z)) w))
      by now rewrite Hget.
    now constructor. }
  destruct (reachable_linked fs np w' Hw') as [_ Hlinked].
  destruct (reachable_linked fs np w Hw) as [Hnp _].
  apply NodeCache_getitem_Ok in Hget as (k & Hk & Hcases).
  apply canonicalize_int_key in Hk.
  assert (Hc : cache w' !! k = Some l).
  { destruct Hcases as [[Hhit ->] | (_ & p & n & w2 & -> & _ & -> & ->)];
      [exact Hhit|]. cbn [cache]. apply lookup_insert_eq. }
  destruct (Hlinked k l Hc) as (file & n & Hfile & Hn & _ & Hid).
  exists n. split; [exact Hn|].
  rewrite Hk in Hfile. injection Hfile as <-.
  rewrite int_key_id in Hid. congruence.
Qed.

(** X6.  With an absolute working directory, in every store a session can
    be in, resolving an integer id gives a node whose [id] is that integer:
    the number the node reads off its file name is the one the reference
    was built from. *)
Theorem get_node_by_id_has_id (np : string) (z : Z) (w w' : world) (l : loc) :
  reachable fs np w ->
  HRCSim_get_node fs (PVal (VInt z)) w = (Ok l, w') ->
  exists n, heap w' !! l = Some n /\ HRCNode_id n = z.
Proof. exact (resolved_int_id np z w w' l). Qed.

Lemma take_action_reachable (np : string) (self : HRCNode) (action : pyobj)
    (w : world) :
  reachable fs np w ->
  reachable fs np (snd (HRCNode_take_action fs self action w)).
Proof.
  intros Hw. unfold HRCNode_take_action.
  destruct action as [v|l]; [|exact Hw].
  destruct (as_int v) as [i|]; [|exact Hw].
  unfold_m.
  destruct (index (HRCNode_get_actions self) i) as [a|e]; [|exact Hw].
  pose proof (reachable_getitem fs np (PVal (Action_next_id a)) w Hw) as Hstep.
  destruct (Action_next_id a); try exact Hw;
    match goal with
    | |- context [NodeCache_getitem fs ?it w] =>
        destruct (NodeCache_getitem fs it w) as [[l'|e'] w1]; exact Hstep
    end.
Qed.

(** X7.  With an absolute working directory, in every store a session can
    be in, taking an action whose successor is the integer [z], when it
    returns, lands on the node whose [id] is [z]. *)
Theorem take_action_reaches_successor
    (np : string) (self : HRCNode) (i z : Z) (a : Action) (w w' : world)
    (r : pyobj) :
  reachable fs np w ->
  0 <= i ->
  HRCNode_actions self !! Z.to_nat i = Some a ->
  Action_next_id a = VInt z ->
  HRCNode_take_action fs self (PVal (VInt i)) w = (Ok r, w') ->
  exists l n, r = PNode l /\ heap w' !! l = Some n /\ HRCNode_id n = z.
Proof.
  intros Hw Hi Ha Hnext Hrun.
  unfold HRCNode_take_action, HRCNode_get_actions in Hrun. simpl in Hrun.
  unfold_m. rewrite (index_in_range _ _ _ Hi Ha), Hnext in Hrun.
  destruct (NodeCache_getitem fs (PVal (VInt z)) w) as [[l|e] w1] eqn:Hget;
    [|discriminate].
  injection Hrun as <- <-.
  destruct (resolved_int_id np z w w1 l Hw Hget) as (n & Hn & Hid).
  exists l, n. auto.
Qed.

End Ids.

(** X8.  The id is read off the file name by stripping characters, not by
    removing the suffix: a node built from a file named [z] followed by
    any characters among [.], [j], [s], [o], [n] has id [z], so that
    [7.json], [7.jsonn] and [7.json.json] all give id 7. *)
Theorem HRCNode_id_strips_characters
    (fs : filesystem) (file t : string) (z : Z) (w : world) (n : HRCNode) :
  fst (HRCNode_init fs (Some file) w) = Ok n ->
  basename file = str_of_Z z ++ t ->
  all_in ".json" t = true ->
  HRCNode_id n = z.
Proof.
  intros Hn Hbase Ht.
  destruct (HRCNode_init fs (Some file) w) as [r w'] eqn:Hinit.
  simpl in Hn. subst r.
  apply HRCNode_init_Ok in Hinit as (_ & Hid & _).
  rewrite Hbase, (id_of_name z t Ht) in Hid. congruence.
Qed.

Lemma str_of_Z_inj (a b : Z) : str_of_Z a = str_of_Z b -> a = b.
Proof.
  intros H. pose proof (py_int_str_of_Z a) as Ha.
  rewrite H, py_int_str_of_Z in Ha. congruence.
Qed.

Lemma string_app_inj_r (a b c : string) : a ++ c = b ++ c -> a = b.
Proof.
  intros H. apply (f_equal string_rev) in H.
  rewrite !string_rev_app in H. apply String.app_inj in H.
  rewrite <- (string_rev_involutive a), <- (string_rev_involutive b).
  now rewrite H.
Qed.

(** X9.  The printed form of a node tells its id: two nodes that print
    alike have the same id. *)
Theorem HRCNode_str_tells_id (n1 n2 : HRCNode) :
  HRCNode_str n1 = HRCNode_str n2 -> HRCNode_id n1 = HRCNode_id n2.
Proof.
  unfold HRCNode_str. intros H. apply String.app_inj in H.
  apply string_app_inj_r in H. now apply str_of_Z_inj.
Qed.

Section Lookup.

Variable fs : filesystem.
Hypothesis cwd_absolute : startswith (getcwd fs) "/" = true.

Lemma canonicalize_path_exists (np name : string) (k : option string) :
  startswith np "/" = true ->
  startswith name "/" = false ->
  canonicalize fs np (PVal (VStr (join np name))) = Ok k ->
  path_exists fs (join np name) = true.
Proof.
  intros Hnp Hname. unfold canonicalize. cbn [format_int].
  assert (Hne : np <> "") by (intros ->; discriminate).
  destruct (join_name np name Hname Hne) as (_ & _ & Habs).
  rewrite Hnp in Habs.
  assert (Hjoin : join np (join np name) = join np name).
  { unfold join at 1. now rewrite Habs. }
  rewrite Hjoin.
  destruct (path_exists fs (join np name)); [reflexivity|].
  rewrite !andb_false_r. discriminate.
Qed.

Lemma resolve_id_after_open (dir : string) (z : Z) (files : list string) :
  startswith dir "/" = true ->
  is_Ok (fst (HRCSim_init fs dir)) = true ->
  listdir fs (join dir "nodes") = Ok files ->
  In (str_of_Z z ++ ".json") files ->
  path_exists fs (abspath (getcwd fs)
                    (join (join dir "nodes") (str_of_Z z ++ ".json"))) = true ->
  let w := snd (HRCSim_init fs dir) in
  exists l n,
    In l (nodes_of (fst (HRCSim_init fs dir))) /\
    HRCSim_get_node fs (PVal (VInt z)) w = (Ok l, w) /\
    heap w !! l = Some n /\ HRCNode_id n = z.
Proof.
  intros Hdir Hok Hls Hin Hcanon. simpl.
  set (np := join dir "nodes"). set (name := str_of_Z z ++ ".json").
  assert (Hdir_ne : dir <> "") by (intros ->; discriminate).
  assert (Hnp : startswith np "/" = true).
  { destruct (join_name dir "nodes" eq_refl Hdir_ne) as (_ & _ & Habs).
    unfold np. now rewrite Habs. }
  assert (Hplain : plain name = true)
    by (apply plain_json_name, str_of_Z_no_slash).
  assert (Hrel : startswith name "/" = false).
  { apply no_slash_not_absolute. now apply plain_spec in Hplain. }
  destruct (HRCSim_init_facts fs dir Hok) as (Hw & _ & files' & Hls' & Hall).
  fold np in Hw, Hls', Hls. rewrite Hls in Hls'. injection Hls' as <-.
  destruct (reachable_linked fs np _ Hw) as [Hnpw _].
  assert (Hjson : In name (json_files files)).
  { unfold json_files. apply List.filter_In. split; [exact Hin|].
    apply endswith_app. }
  destruct (Forall2_In_l _ _ _ name Hall Hjson) as (l & Hl & p & Hp & Hc).
  rewrite Hnpw in Hp.
  pose proof (canonicalize_path_exists np name _ Hnp Hrel Hp) as Hex.
  assert (Hpre : startswith name np = false).
  { apply absolute_not_prefix; [exact Hnp|]. now apply plain_spec in Hplain. }
  destruct (reference_forms_collide fs np z cwd_absolute Hpre Hex Hcanon)
    as (Hint & _ & Hpath & _).
  fold name in Hint, Hpath. rewrite Hp in Hpath. injection Hpath as Hkey.
  assert (Hget : NodeCache_getitem fs (PVal (VInt z)) (snd (HRCSim_init fs dir))
                 = (Ok l, snd (HRCSim_init fs dir))).
  { unfold NodeCache_getitem. rewrite Hnpw, Hint, <- Hkey, Hc. reflexivity. }
  destruct (resolved_int_id fs cwd_absolute np z _ _ l Hw Hget) as (n & Hn & Hid).
  exists l, n. auto.
Qed.

(** X10.  With an absolute working directory: after a successful open of
    an absolute export directory, looking up the id [z] of a listed file
    [z.json] whose absolute path exists is a cache hit: it returns one of
    the session's nodes, that node has id [z], and the store is left as it
    is, so no file is read. *)
Theorem get_node_after_open (dir : string) (z : Z) (files : list string) :
  startswith dir "/" = true ->
  is_Ok (fst (HRCSim_init fs dir)) = true ->
  listdir fs (join dir "nodes") = Ok files ->
  In (str_of_Z z ++ ".json") files ->
  path_exists fs (abspath (getcwd fs)
                    (join (join dir "nodes") (str_of_Z z ++ ".json"))) = true ->
  let w := snd (HRCSim_init fs dir) in
  exists l n,
    In l (nodes_of (fst (HRCSim_init fs dir))) /\
    HRCSim_get_node fs (PVal (VInt z)) w = (Ok l, w) /\
    heap w !! l = Some n /\ HRCNode_id n = z.
Proof. exact (resolve_id_after_open dir z files). Qed.

(** X23.  With an absolute working directory: after a successful open of
    an absolute export directory, taking an action whose successor [z] is
    a listed file [z.json] whose absolute path exists reads nothing: it
    returns the session's node with id [z] and leaves the store as it
    is. *)
Theorem take_action_after_open
    (dir : string) (files : list string) (self : HRCNode) (i z : Z) (a : Action) :
  startswith dir "/" = true ->
  is_Ok (fst (HRCSim_init fs dir)) = true ->
  listdir fs (join dir "nodes") = Ok files ->
  0 <= i ->
  HRCNode_actions self !! Z.to_nat i = Some a ->
  Action_next_id a = VInt z ->
  In (str_of_Z z ++ ".json") files ->
  path_exists fs (abspath (getcwd fs)
                    (join (join dir "nodes") (str_of_Z z ++ ".json"))) = true ->
  let w := snd (HRCSim_init fs dir) in
  exists l n,
    HRCNode_take_action fs self (PVal (VInt i)) w = (Ok (PNode l), w) /\
    In l (nodes_of (fst (HRCSim_init fs dir))) /\
    heap w !! l = Some n /\ HRCNode_id n = z.
Proof.
  intros Hdir Hok Hls Hi Ha Hnext Hin Hkey. simpl.
  destruct (resolve_id_after_open dir z files Hdir Hok Hls Hin Hkey)
    as (l & n & Hl & Hget & Hn & Hid).
  exists l, n. split; [|auto].
  unfold HRCNode_take_action, HRCNode_get_actions. simpl. unfold_m.
  rewrite (index_in_range _ _ _ Hi Ha), Hnext.
  unfold HRCSim_get_node in Hget. now rewrite Hget.
Qed.

End Lookup.

(** ** Successors that are not there, and files that do not load *)

(** X24.  A dangling edge: taking an action whose successor [z] has no
    file [z.json] in the nodes directory raises [KeyError] with the path
    that was looked for, and leaves the store as it is. *)
Theorem take_action_dangling
    (fs : filesystem) (self : HRCNode) (i z : Z) (a : Action) (w : world) :
  startswith (getcwd fs) "/" = true ->
  0 <= i ->
  HRCNode_actions self !! Z.to_nat i = Some a ->
  Action_next_id a = VInt z ->
  path_exists fs (abspath (getcwd fs)
                    (join (nodes_path w) (str_of_Z z ++ ".json"))) = false ->
  HRCNode_take_action fs self (PVal (VInt i)) w
  = (Err (KeyError
            (VStr ("No such node "
                   ++ abspath (getcwd fs)
                        (join (nodes_path w) (str_of_Z z ++ ".json"))))), w).
Proof.
  intros Hcwd Hi Ha Hnext Hex.
  unfold HRCNode_take_action, HRCNode_get_actions. simpl. unfold_m.
  rewrite (index_in_range _ _ _ Hi Ha), Hnext.
  unfold NodeCache_getitem, canonicalize. cbn [format_int].
  set (A := abspath (getcwd fs) (join (nodes_path w) (str_of_Z z ++ ".json")))
    in *.
  assert (HA : startswith A "/" = true) by now apply abspath_absolute.
  assert (Hjoin : join (nodes_path w) A = A) by (unfold join; now rewrite HA).
  rewrite Hjoin, Hex, !andb_false_r. reflexivity.
Qed.

Lemma HRCNode_init_opened
    (fs : filesystem) (file : string) (id : Z) (w : world) :
  py_int (strip (basename file) ".json") = Some id ->
  opens file (trace (snd (HRCNode_init fs (Some file) w)))
  = S (opens file (trace w)).
Proof.
  intros Hid.
  assert (Hpr : forall t args, opens file (t ++ [EPrint args]) = opens file t).
  { intros t args. rewrite opens_app. unfold opens at 2. simpl. lia. }
  assert (Hop : forall t, opens file (t ++ [EOpen file]) = S (opens file t)).
  { intros t. rewrite opens_app. unfold opens at 2. simpl.
    rewrite String.eqb_refl. simpl. lia. }
  unfold HRCNode_init. rewrite Hid. unfold_m. simpl.
  destruct (load_json fs file) as [d|e]; simpl; [|apply Hop].
  destruct (try_raised (try_block d)) as [[k| | | | | | |]|]; simpl;
    try apply Hop;
    destruct (parse_actions d); simpl;
    try destruct (parse_hands d); simpl;
    rewrite ?Hpr; apply Hop.
Qed.

(** X25.  A file that does not load is not remembered: when building the
    node raises, the resolution raises, nothing is cached for the path, and
    the file has been opened once more; the next resolution of the same
    reference will open it again. *)
Theorem failed_load_not_cached
    (fs : filesystem) (item : pyobj) (p : string) (id : Z) (w : world) :
  canonicalize fs (nodes_path w) item = Ok (Some p) ->
  cache w !! Some p = None ->
  py_int (strip (basename p) ".json") = Some id ->
  is_Ok (fst (HRCNode_init fs (Some p) w)) = false ->
  let r := fst (NodeCache_getitem fs item w) in
  let w' := snd (NodeCache_getitem fs item w) in
  is_Ok r = false /\
  canonicalize fs (nodes_path w') item = Ok (Some p) /\
  cache w' !! Some p = None /\
  opens p (trace w') = S (opens p (trace w)).
Proof.
  intros Hp Hc Hid Hbad. simpl.
  pose proof (HRCNode_init_opened fs p id w Hid) as Hopen.
  pose proof (HRCNode_init_store fs (Some p) w) as Hst.
  unfold NodeCache_getitem. rewrite Hp, Hc.
  destruct (HRCNode_init fs (Some p) w) as [[n|e] w1]; [discriminate|].
  destruct Hst as (Hnp & Hca & _). simpl in *.
  rewrite Hnp, Hca. auto.
Qed.

(** ** What a loaded node holds *)

Lemma HRCNode_of_json_parts (file : string) (id : Z) (d : value) (n : HRCNode) :
  HRCNode_of_json file id d = Ok n ->
  try_caught (try_block d) = true /\
  parse_actions d = Ok (HRCNode_actions n) /\
  parse_hands d = Ok (HRCNode_hands n) /\
  HRCNode_player n = try_player (try_block d) /\
  HRCNode_street n = try_street (try_block d) /\
  HRCNode_children n = try_children (try_block d) /\
  HRCNode_sequence n = try_sequence (try_block d).
Proof.
  unfold HRCNode_of_json.
  destruct (try_caught (try_block d));
    [|destruct (try_raised (try_block d)); discriminate].
  destruct (parse_actions d); simpl; [|discriminate].
  destruct (parse_hands d); simpl; [|discriminate].
  intros [= <-]. simpl. auto 10.
Qed.

Lemma HRCNode_loaded (fs : filesystem) (file : string) (w : world) (n : HRCNode) :
  fst (HRCNode_init fs (Some file) w) = Ok n ->
  HRCNode_of_json file (HRCNode_id n) (HRCNode_as_json n) = Ok n.
Proof.
  intros Hn. destruct (HRCNode_init fs (Some file) w) as [r w'] eqn:Hinit.
  simpl in Hn. subst r. now apply HRCNode_init_Ok in Hinit.
Qed.

Lemma rmap_Forall2 {A B} (f : A -> result B) (P : A -> B -> Prop) :
  (forall x y, f x = Ok y -> P x y) ->
  forall xs ys, rmap f xs = Ok ys -> Forall2 P xs ys.
Proof.
  intros HP. induction xs as [|x xs IH]; simpl; intros ys Hys.
  - injection Hys as <-. constructor.
  - destruct (f x) as [y|] eqn:Hy; simpl in Hys; [|discriminate].
    destruct (rmap f xs) as [ys'|]; simpl in Hys; [|discriminate].
    injection Hys as <-. constructor; auto.
Qed.

Lemma Action_init_fields (x : value) (a : Action) :
  Action_init x VNone = Ok a -> action_of_json x a.
Proof.
  unfold Action_init, action_of_json.
  destruct (dict_method_get x "player"); simpl; [|discriminate].
  destruct (subscript x (VStr "type")); simpl; [|discriminate].
  destruct (subscript x (VStr "amount")); simpl; [|discriminate].
  destruct (dict_method_get x "node"); simpl; [|discriminate].
  intros [= <-]. auto.
Qed.

(** X11.  The actions of a loaded node are the elements of the payload's
    [actions], one action per element and in the same order, each with
    the [type], [amount], [node] and [player] of its element; so the
    action index addresses the elements of the JSON array. *)
Theorem HRCNode_actions_in_order
    (fs : filesystem) (file : string) (w : world) (n : HRCNode) :
  fst (HRCNode_init fs (Some file) w) = Ok n ->
  exists arr xs,
    subscript (HRCNode_as_json n) (VStr "actions") = Ok arr /\
    iterate arr = Ok xs /\
    Forall2 action_of_json xs (HRCNode_get_actions n).
Proof.
  intros Hn. apply HRCNode_loaded in Hn.
  apply HRCNode_of_json_parts in Hn as (_ & Hacts & _).
  unfold parse_actions in Hacts.
  destruct (subscript (HRCNode_as_json n) (VStr "actions")) as [arr|];
    simpl in Hacts; [|discriminate].
  destruct (iterate arr) as [xs|] eqn:Hxs; simpl in Hacts; [|discriminate].
  exists arr, xs. split; [reflexivity|]. split; [exact Hxs|].
  apply (rmap_Forall2 (fun x => Action_init x VNone)); [|exact Hacts].
  apply Action_init_fields.
Qed.

Lemma dict_get_NoDup (kvs : list (string * value)) (k : string) (v : value) :
  NoDup (map fst kvs) -> In (k, v) kvs -> dict_get kvs k = Some v.
Proof.
  induction kvs as [|[k' v'] kvs IH]; intros Hnd Hin; [destruct Hin|].
  simpl in *. inversion Hnd as [|? ? Hnotin Hnd']; subst.
  destruct Hin as [[= -> ->]|Hin].
  - now rewrite String.eqb_refl.
  - destruct (String.eqb_spec k' k) as [->|_]; [|now apply IH].
    exfalso. apply Hnotin. apply list_elem_of_In.
    change k with (fst (k, v)). now apply in_map.
Qed.

Lemma HandStrategy_init_fields (k : string) (v : value) (s : HandStrategy) :
  HandStrategy_init (VStr k) v = Ok s -> hand_of_json (k, v) (VStr k, s).
Proof.
  unfold HandStrategy_init, hand_of_json. simpl.
  destruct (subscript v (VStr "weight")); simpl; [|discriminate].
  destruct (x <-? subscript v (VStr "played");; iterate x)%res; simpl;
    [|discriminate].
  destruct (x <-? subscript v (VStr "evs");; iterate x)%res; simpl;
    [|discriminate].
  intros [= <-]. simpl. auto 10.
Qed.

Lemma parse_hands_dict (d : value) (kvs : list (string * value))
    (hs : list (value * HandStrategy)) :
  subscript d (VStr "hands") = Ok (VDict kvs) ->
  NoDup (map fst kvs) ->
  parse_hands d = Ok hs ->
  Forall2 hand_of_json kvs hs.
Proof.
  intros Hd Hnd. unfold parse_hands. rewrite Hd. simpl.
  assert (Hsub : forall sub hs',
             (forall kv, In kv sub -> In kv kvs) ->
             rmap (fun h =>
                     hs' <-? Ok (VDict kvs);;
                     x <-? subscript hs' h;;
                     s <-? HandStrategy_init h x;;
                     Ok (h, s))%res
                  (map (fun kv => VStr (fst kv)) sub) = Ok hs' ->
             Forall2 hand_of_json sub hs').
  { induction sub as [|[k v] sub IH]; simpl; intros hs' Hin Hrun.
    - injection Hrun as <-. constructor.
    - rewrite (dict_get_NoDup kvs k v Hnd (Hin _ (or_introl eq_refl))) in Hrun.
      simpl in Hrun.
      destruct (HandStrategy_init (VStr k) v) as [s|] eqn:Hs; simpl in Hrun;
        [|discriminate].
      destruct (rmap _ _) as [rest|] eqn:Hrest; simpl in Hrun; [|discriminate].
      injection Hrun as <-. constructor.
      + now apply HandStrategy_init_fields.
      + apply IH; [|reflexivity]. intros kv Hkv. apply Hin. now right. }
  apply Hsub. auto.
Qed.

(** X12.  When the payload's [hands] is an object with distinct keys, the
    [hands] of the loaded node are its items in order: each key with the
    strategy parsed from its value, which keeps the key as [hand] and the
    value as its own payload. *)
Theorem HRCNode_hands_in_order
    (fs : filesystem) (file : string) (w : world) (n : HRCNode)
    (kvs : list (string * value)) :
  fst (HRCNode_init fs (Some file) w) = Ok n ->
  subscript (HRCNode_as_json n) (VStr "hands") = Ok (VDict kvs) ->
  NoDup (map fst kvs) ->
  Forall2 hand_of_json kvs (HRCNode_get_hands n).
Proof.
  intros Hn Hd Hnd. apply HRCNode_loaded in Hn.
  apply HRCNode_of_json_parts in Hn as (_ & _ & Hhands & _).
  exact (parse_hands_dict _ kvs _ Hd Hnd Hhands).
Qed.

(** X13.  [get_hands_as_json] gives back the payload's [hands] object:
    the same keys with the same values, in the same order. *)
Theorem get_hands_as_json_round_trip
    (fs : filesystem) (file : string) (w : world) (n : HRCNode)
    (kvs : list (string * value)) :
  fst (HRCNode_init fs (Some file) w) = Ok n ->
  subscript (HRCNode_as_json n) (VStr "hands") = Ok (VDict kvs) ->
  NoDup (map fst kvs) ->
  HRCNode_get_hands_as_json n = map (fun kv => (VStr (fst kv), snd kv)) kvs.
Proof.
  intros Hn Hd Hnd. apply HRCNode_loaded in Hn.
  apply HRCNode_of_json_parts in Hn as (_ & _ & Hhands & _).
  pose proof (parse_hands_dict _ kvs _ Hd Hnd Hhands) as Hall.
  unfold HRCNode_get_hands_as_json.
  clear Hd Hnd Hhands.
  induction Hall as [|kv h kvs' hs' (Hk & _ & Hj & _) _ IH]; [reflexivity|].
  simpl. rewrite IH, Hj, Hk. reflexivity.
Qed.

Lemma rmap_all_Ok {A B} (f : A -> result B) (xs : list A) (ys : list B) (x : A) :
  rmap f xs = Ok ys -> In x xs -> is_Ok (f x) = true.
Proof.
  revert ys. induction xs as [|x0 xs IH]; intros ys Hys Hin; [destruct Hin|].
  simpl in Hys. destruct (f x0) as [y|] eqn:Hy; simpl in Hys; [|discriminate].
  destruct (rmap f xs) as [ys'|]; simpl in Hys; [|discriminate].
  destruct Hin as [<-|Hin]; [now rewrite Hy|]. now apply (IH ys').
Qed.

Lemma index_In {A} (l : list A) (i : Z) (x : A) : index l i = Ok x -> In x l.
Proof.
  unfold index. destruct (_ && _); [|discriminate].
  destruct (l !! Z.to_nat _) as [y|] eqn:Hy; [|discriminate].
  intros [= <-]. apply list_elem_of_In. eapply list_elem_of_lookup_2. exact Hy.
Qed.

(** X14.  The [hands] of a payload must be an object: an array or a
    string there lets the node load only when it is empty, and then the
    node has no hands; a non-empty array or string makes the load raise. *)
Theorem HRCNode_hands_shape
    (fs : filesystem) (file : string) (w : world) (n : HRCNode) :
  fst (HRCNode_init fs (Some file) w) = Ok n ->
  exists v,
    subscript (HRCNode_as_json n) (VStr "hands") = Ok v /\
    ((exists kvs, v = VDict kvs) \/
     ((v = VList [] \/ v = VStr "") /\ HRCNode_get_hands n = [])).
Proof.
  intros Hn. apply HRCNode_loaded in Hn.
  apply HRCNode_of_json_parts in Hn as (_ & _ & Hhands & _).
  unfold parse_hands in Hhands.
  destruct (subscript (HRCNode_as_json n) (VStr "hands")) as [v|];
    simpl in Hhands; [|discriminate].
  exists v. split; [reflexivity|]. unfold HRCNode_get_hands.
  destruct v as [| b | z | bits | s | l | kvs]; simpl in Hhands;
    try discriminate; [| |left; eauto].
  - (* a string *)
    right. destruct s as [|c s].
    + simpl in Hhands. injection Hhands as <-. auto.
    + simpl in Hhands. discriminate.
  - (* a list *)
    right. destruct l as [|x l'].
    + simpl in Hhands. injection Hhands as <-. auto.
    + exfalso.
      pose proof (rmap_all_Ok _ _ _ x Hhands (or_introl eq_refl)) as Hx.
      simpl in Hx.
      destruct (as_int x) as [i|]; [|discriminate].
      destruct (index (x :: l') i) as [x'|] eqn:Hi; [|discriminate].
      simpl in Hx.
      assert (Hdict : exists kvs, x' = VDict kvs).
      { unfold HandStrategy_init in Hx.
        destruct x' as [| b | z | bits | s | l | kvs]; try discriminate Hx.
        eauto. }
      destruct Hdict as [kvs ->].
      pose proof (rmap_all_Ok _ _ _ (VDict kvs) Hhands (index_In _ _ _ Hi)) as Hd.
      simpl in Hd. discriminate.
Qed.

(** ** Serializing actions *)

(** X15.  [Action.as_json] does not round-trip: the successor is written
    under [next_id], which [Action.__init__] does not read (it reads
    [node]), and the player is written as [None]; an action parsed back
    from its own [as_json] has the same kind and amount but no successor
    and no player. *)
Theorem Action_as_json_drops_successor (a : Action) :
  Action_init (Action_as_json a) VNone
  = Ok (mkAction VNone (Action_type a) (Action_amount a) VNone).
Proof. reflexivity. Qed.

(** X16.  [PreviousAction.as_json] round-trips: parsing it back gives the
    same prior action. *)
Theorem PreviousAction_as_json_round_trip (a : PreviousAction) :
  PreviousAction_init (PreviousAction_as_json a) = Ok a.
Proof. destruct a. reflexivity. Qed.

(** X17.  An action whose kind is a string other than [R], [F], [C] is
    constructed without complaint, but printing it raises [KeyError] with
    that kind. *)
Theorem Action_str_unknown_kind
    (float_repr : Z -> string) (kvs : list (string * value)) (kind : string)
    (amount : value) :
  dict_get kvs "type" = Some (VStr kind) ->
  dict_get kvs "amount" = Some amount ->
  kind <> "R" -> kind <> "F" -> kind <> "C" ->
  exists a,
    Action_init (VDict kvs) VNone = Ok a /\
    Action_str float_repr a = Err (KeyError (VStr kind)).
Proof.
  intros Ht Ha HR HF HC. unfold Action_init. simpl. rewrite Ht, Ha. simpl.
  destruct (dict_get kvs "player"); destruct (dict_get kvs "node"); simpl;
    (eexists; split; [reflexivity|]);
    unfold Action_str, action_map_getitem, action_map; simpl;
    (destruct (String.eqb_spec "R" kind) as [<-|_]; [contradiction|]);
    (destruct (String.eqb_spec "F" kind) as [<-|_]; [contradiction|]);
    (destruct (String.eqb_spec "C" kind) as [<-|_]; [contradiction|]);
    reflexivity.
Qed.

(** ** Settings *)

(** X18.  The settings are read and checked before the nodes directory is
    looked at: when the settings file cannot be loaded, or lacks a key the
    settings classes read, the open raises having opened the settings file
    only, with an empty cache. *)
Theorem open_checks_settings_first (fs : filesystem) (dir : string) :
  is_Ok (c <-? load_json fs (join dir "settings.json");;
         SolveSettings_init c)%res = false ->
  exists e,
    HRCSim_init fs dir
    = (Err e, mkWorld (join dir "nodes") ∅ []
                      [EOpen (join dir "settings.json")]).
Proof.
  intros Hbad. rewrite HRCSim_init_steps. cbv zeta.
  destruct (load_json fs (join dir "settings.json")) as [c|e]; simpl in Hbad;
    [|eauto].
  destruct (SolveSettings_init c) as [st|e]; [discriminate|eauto].
Qed.

(** X19.  The engine configuration reads the bucket counts of four
    abstractions: with an [abstractions] array of fewer than four elements
    its construction raises. *)
Theorem EngineConfiguration_needs_four (d : value) (l : list value) :
  subscript d (VStr "abstractions") = Ok (VList l) ->
  (length l < 4)%nat ->
  is_Ok (EngineConfiguration_init d) = false.
Proof.
  intros Hd Hlen. unfold EngineConfiguration_init. rewrite Hd. simpl.
  destruct l as [|a [|b [|c [|x l']]]]; simpl in Hlen; try lia;
    unfold index; simpl;
    repeat match goal with
           | |- context [subscript ?x (VStr "buckets")] =>
               destruct (subscript x (VStr "buckets")); simpl
           end;
    reflexivity.
Qed.

(** ** The history of a node *)

(** X20.  A [KeyError] raised while the history is parsed, such as a prior
    action without [amount], is swallowed like a missing field: the node
    is built with [player], [street] and [children] set and [sequence]
    unset, after the error has been printed. *)
Theorem load_with_incomplete_history
    (fs : filesystem) (file : string) (id : Z) (kvs : list (string * value))
    (player street children sequence k : value) (w : world) :
  py_int (strip (basename file) ".json") = Some id ->
  load_json fs file = Ok (VDict kvs) ->
  dict_get kvs "player" = Some player ->
  dict_get kvs "street" = Some street ->
  dict_get kvs "children" = Some children ->
  dict_get kvs "sequence" = Some sequence ->
  (xs <-? iterate sequence;; rmap PreviousAction_init xs)%res
  = Err (KeyError k) ->
  is_Ok (parse_actions (VDict kvs)) = true ->
  is_Ok (parse_hands (VDict kvs)) = true ->
  exists n w',
    HRCNode_init fs (Some file) w = (Ok n, w') /\
    HRCNode_player n = Some player /\
    HRCNode_street n = Some street /\
    HRCNode_children n = Some children /\
    HRCNode_sequence n = None /\
    In (EPrint [PrExn (KeyError k)]) (trace w').
Proof.
  intros Hid Hload Hp Hs Hc Hsq Hhist Hacts Hhands.
  assert (Htry : try_block (VDict kvs)
                 = mkTry (Some player) (Some street) (Some children) None
                         (Some (KeyError k))).
  { unfold try_block. simpl. rewrite Hp, Hs, Hc, Hsq. simpl.
    rewrite Hhist. reflexivity. }
  destruct (parse_actions (VDict kvs)) as [acts|] eqn:Ha; [|discriminate].
  destruct (parse_hands (VDict kvs)) as [hs|] eqn:Hh; [|discriminate].
  unfold HRCNode_init. rewrite Hid. unfold_m. simpl.
  rewrite Hload. simpl. rewrite Htry. simpl. rewrite Ha, Hh. simpl.
  eexists _, _. split; [reflexivity|]. simpl. repeat split.
  rewrite !in_app_iff. simpl. auto 10.
Qed.

(** X21.  The history a loaded node holds, when it holds one, is what
    [ActionSequence] makes of the payload's [sequence]. *)
Theorem ActionSequence_agrees
    (fs : filesystem) (file : string) (w : world) (n : HRCNode)
    (history : list PreviousAction) :
  fst (HRCNode_init fs (Some file) w) = Ok n ->
  HRCNode_sequence n = Some history ->
  exists v,
    subscript (HRCNode_as_json n) (VStr "sequence") = Ok v /\
    ActionSequence_init v = Ok (mkActionSequence v history).
Proof.
  intros Hn Hseq. apply HRCNode_loaded in Hn.
  apply HRCNode_of_json_parts in Hn as (_ & _ & _ & _ & _ & _ & Htry).
  rewrite Hseq in Htry. unfold try_block in Htry.
  destruct (subscript (HRCNode_as_json n) (VStr "player")); [|discriminate].
  destruct (subscript (HRCNode_as_json n) (VStr "street")); [|discriminate].
  destruct (subscript (HRCNode_as_json n) (VStr "children")); [|discriminate].
  destruct (subscript (HRCNode_as_json n) (VStr "sequence")) as [v|];
    simpl in Htry; [|discriminate].
  exists v. split; [reflexivity|]. unfold ActionSequence_init.
  destruct (iterate v) as [xs|]; simpl in *; [|discriminate].
  destruct (rmap PreviousAction_init xs) as [pas|]; simpl in *; [|discriminate].
  now injection Htry as ->.
Qed.

(** ** The keys of the cache *)

Lemma last_component (t : string) :
  exists stem, no_slash stem = true /\
               (t = stem \/ exists dir, t = dir ++ String "/" stem).
Proof.
  induction t as [|c t (stem & Hstem & [->|[dir ->]])].
  - exists "". auto.
  - destruct (Ascii.eqb_spec c "/") as [->|Hc].
    + exists stem. split; [exact Hstem|]. right. exists "". reflexivity.
    + exists (String c stem). split; [|now left].
      simpl. rewrite Hstem. apply Ascii.eqb_neq in Hc. now rewrite Hc.
  - exists stem. split; [exact Hstem|]. right. exists (String c dir).
    reflexivity.
Qed.

Lemma abspath_json_suffix (cwd s : string) :
  startswith cwd "/" = true ->
  endswith s ".json" = true ->
  endswith (abspath cwd s) ".json" = true.
Proof.
  intros Hcwd Hs. apply endswith_inv in Hs as [t ->].
  assert (Hcwd_ne : cwd <> "") by (intros ->; discriminate).
  destruct (last_component t) as (stem & Hstem & Ht).
  pose proof (plain_json_name stem Hstem) as Hplain.
  assert (Hrel : startswith (stem ++ ".json") "/" = false).
  { apply no_slash_not_absolute. now apply plain_spec in Hplain. }
  assert (Hshape : exists dir,
             startswith (dir ++ String "/" (stem ++ ".json")) "/" = true /\
             abspath cwd (t ++ ".json")
             = normpath (dir ++ String "/" (stem ++ ".json"))).
  { destruct Ht as [->|[dir ->]].
    - destruct (abspath_join_shape cwd "" _ Hcwd Hrel) as (dir & Habs & Heq).
      exists dir. split; [exact Habs|]. rewrite <- Heq.
      unfold join. now rewrite Hrel.
    - rewrite string_app_assoc, string_app_cons. unfold abspath.
      destruct (startswith (dir ++ String "/" (stem ++ ".json")) "/") eqn:Habs.
      + exists dir. auto.
      + destruct (join_name cwd _ Habs Hcwd_ne) as (dir' & Hjoin & Habs').
        exists (dir' ++ String "/" dir).
        rewrite string_app_assoc, string_app_cons, <- Hjoin.
        split; [now rewrite Habs'|reflexivity]. }
  destruct Hshape as (dir & Habs & ->).
  destruct (normpath_last_component dir _ Habs Hplain) as [pre ->].
  rewrite <- string_app_assoc. apply endswith_app.
Qed.

Lemma endswith_join (np item : string) :
  endswith item ".json" = true -> endswith (join np item) ".json" = true.
Proof.
  intros H. unfold join. destruct (startswith item "/"); [exact H|].
  apply endswith_inv in H as [t ->].
  destruct (_ || _); rewrite <- ?string_app_assoc; apply endswith_app.
Qed.

(** X22.  Every cache key is canonical: when a reference canonicalizes,
    the path it canonicalizes to is absolute, is its own [abspath], and
    ends in [.json]. *)
Theorem canonical_key_shape
    (fs : filesystem) (np : string) (item : pyobj) (p : string) :
  startswith (getcwd fs) "/" = true ->
  canonicalize fs np item = Ok (Some p) ->
  startswith p "/" = true /\
  abspath (getcwd fs) p = p /\
  endswith p ".json" = true.
Proof.
  intros Hcwd. unfold canonicalize.
  set (item' := match item with
                | PVal v =>
                    match format_int v with
                    | Some s =>
                        PVal (VStr (abspath (getcwd fs) (join np (s ++ ".json"))))
                    | None => item
                    end
                | PNode _ => item
                end).
  destruct item' as [[| | | | s | |]|]; try discriminate.
  assert (Hkey : forall q, endswith q ".json" = true ->
             startswith (abspath (getcwd fs) q) "/" = true /\
             abspath (getcwd fs) (abspath (getcwd fs) q) = abspath (getcwd fs) q /\
             endswith (abspath (getcwd fs) q) ".json" = true).
  { intros q Hq. split; [now apply abspath_absolute|].
    split; [now apply abspath_idempotent|now apply abspath_json_suffix]. }
  destruct (endswith s ".json") eqn:Hjson.
  - destruct (_ && _ && _).
    + intros [= <-]. now apply Hkey.
    + destruct (_ && _); [|discriminate].
      intros [= <-]. apply Hkey. now apply endswith_join.
  - rewrite andb_false_r. simpl. discriminate.
Qed.

(** ** File names that are not numbers *)

Lemma abspath_last_shape (cwd path name : string) :
  startswith cwd "/" = true ->
  startswith name "/" = false ->
  path = name \/ (exists dir, path = dir ++ String "/" name) ->
  exists dir,
    startswith (dir ++ String "/" name) "/" = true /\
    abspath cwd path = normpath (dir ++ String "/" name).
Proof.
  intros Hcwd Hrel Hpath.
  assert (Hcwd_ne : cwd <> "") by (intros ->; discriminate).
  destruct Hpath as [->|[dir ->]].
  - destruct (abspath_join_shape cwd "" _ Hcwd Hrel) as (dir & Habs & Heq).
    exists dir. split; [exact Habs|]. rewrite <- Heq.
    unfold join. now rewrite Hrel.
  - unfold abspath.
    destruct (startswith (dir ++ String "/" name) "/") eqn:Habs.
    + exists dir. auto.
    + destruct (join_name cwd _ Habs Hcwd_ne) as (dir' & Hjoin & Habs').
      exists (dir' ++ String "/" dir).
      rewrite string_app_assoc, string_app_cons, <- Hjoin.
      split; [now rewrite Habs'|reflexivity].
Qed.

Lemma join_last_shape (np path name : string) :
  path = name \/ (exists dir, path = dir ++ String "/" name) ->
  join np path = name \/ (exists dir, join np path = dir ++ String "/" name).
Proof.
  intros Hpath. unfold join.
  destruct (startswith path "/"); [exact Hpath|].
  destruct (String.eqb_spec np "") as [->|Hnp]; simpl.
  - rewrite string_app_nil. exact Hpath.
  - right. destruct (endswith np "/") eqn:Hend.
    + apply endswith_inv in Hend as [t ->].
      destruct Hpath as [->|[dir ->]].
      * exists t. now rewrite string_app_assoc.
      * exists ((t ++ "/") ++ dir). now rewrite !string_app_assoc.
    + destruct Hpath as [->|[dir ->]].
      * exists np. reflexivity.
      * exists (np ++ "/" ++ dir). now rewrite !string_app_assoc.
Qed.

Lemma entry_key_basename (fs : filesystem) (np name : string) (k : option string) :
  startswith (getcwd fs) "/" = true ->
  plain name = true ->
  canonicalize fs np (PVal (VStr (join np name))) = Ok k ->
  exists p, k = Some p /\ basename p = name.
Proof.
  intros Hcwd Hplain.
  assert (Hrel : startswith name "/" = false).
  { apply no_slash_not_absolute. now apply plain_spec in Hplain. }
  pose proof (join_last_shape np name name (or_introl eq_refl)) as H1.
  pose proof (join_last_shape np _ name H1) as H2.
  assert (Hbase : forall path,
             path = name \/ (exists dir, path = dir ++ String "/" name) ->
             basename (abspath (getcwd fs) path) = name).
  { intros path Hpath.
    destruct (abspath_last_shape _ path name Hcwd Hrel Hpath) as (dir & Habs & ->).
    now apply basename_normpath. }
  unfold canonicalize. cbn [format_int].
  destruct (_ && _ && _); [intros [= <-]; eauto|].
  destruct (_ && _); [intros [= <-]; eauto|discriminate].
Qed.

(** X26.  A file in the nodes directory with the [.json] suffix whose name
    (of ASCII characters), stripped, is not a number (such as
    [readme.json]) makes the open raise: no session is produced. *)
Theorem open_rejects_non_numeric_name
    (fs : filesystem) (dir name : string) (files : list string) :
  startswith (getcwd fs) "/" = true ->
  listdir fs (join dir "nodes") = Ok files ->
  In name files ->
  endswith name ".json" = true ->
  no_slash name = true ->
  all_chars is_ascii name = true ->
  py_int (strip name ".json") = None ->
  is_Ok (fst (HRCSim_init fs dir)) = false.
Proof.
  intros Hcwd Hls Hin Hjson Hslash _ Hid.
  assert (Hplain : plain name = true).
  { apply endswith_inv in Hjson as [stem ->].
    rewrite no_slash_app in Hslash. apply andb_true_iff in Hslash as [Hstem _].
    now apply plain_json_name. }
  assert (Hbad : entry_loads fs (join dir "nodes") name = false).
  { unfold entry_loads.
    destruct (canonicalize fs (join dir "nodes")
                (PVal (VStr (join (join dir "nodes") name)))) as [k|] eqn:Hk;
      [|reflexivity].
    destruct (entry_key_basename fs _ name k Hcwd Hplain Hk) as (p & -> & Hbase).
    rewrite HRCNode_init_result, Hbase, Hid. reflexivity. }
  rewrite HRCSim_init_steps. cbv zeta.
  destruct (load_json fs (join dir "settings.json")) as [c|e]; [|reflexivity].
  destruct (SolveSettings_init c) as [st|e]; [|reflexivity].
  rewrite Hls.
  pose proof (load_nodes_aborts fs files name Hin Hjson []
                (mkWorld (join dir "nodes") ∅ []
                         [EOpen (join dir "settings.json")])) as Hloop.
  cbn [nodes_path] in Hloop.
  destruct (load_nodes fs (join dir "nodes") files [] _) as [[nodes|e] w1];
    [|reflexivity].
  simpl in Hloop. exfalso.
  assert (is_Ok (Ok nodes : result (list loc)) = false) as Habs.
  { apply Hloop; [|exact Hbad].
    intros k l Hk. cbn [cache] in Hk. rewrite lookup_empty in Hk. discriminate. }
  discriminate Habs.
Qed.

(** X27.  The settings classes keep what they were built from: [as_json]
    returns the parsed content, and building the settings again from it
    gives the same settings. *)
Theorem SolveSettings_round_trip (settings : value) (s : SolveSettings) :
  SolveSettings_init settings = Ok s ->
  SolveSettings_as_json s = settings /\
  SolveSettings_init (SolveSettings_as_json s) = Ok s.
Proof.
  intros Hs.
  assert (Hj : SolveSettings_as_json s = settings).
  { unfold SolveSettings_init in Hs.
    destruct (_ <-? subscript settings (VStr "handdata");; _)%res;
      simpl in Hs; [|discriminate].
    destruct (_ <-? subscript settings (VStr "treeconfig");; _)%res;
      simpl in Hs; [|discriminate].
    destruct (_ <-? subscript settings (VStr "engine");; _)%res;
      simpl in Hs; [|discriminate].
    destruct (_ <-? subscript settings (VStr "eqmodel");; _)%res;
      simpl in Hs; [|discriminate].
    now injection Hs as <-. }
  split; [exact Hj|]. now rewrite Hj.
Qed.

(** * One node file, one record *)

Section Built.

Variable fs : filesystem.

Lemma store_built_init (np : string) : store_built fs (NodeCache_init np).
Proof.
  intros k l Hk. cbn [cache NodeCache_init] in Hk.
  rewrite lookup_empty in Hk. discriminate.
Qed.

Lemma getitem_built (item : pyobj) (w : world) :
  store_built fs w -> store_built fs (snd (NodeCache_getitem fs item w)).
Proof.
  intros Hinv.
  destruct (NodeCache_getitem fs item w) as [[l|e] w'] eqn:Hget; simpl.
  - apply NodeCache_getitem_Ok in Hget as (k & _ & [[Hhit ->] | Hmiss]);
      [exact Hinv|].
    destruct Hmiss as (Hc & p & n & w1 & -> & Hinit & -> & ->).
    intros k l. cbn [cache heap].
    destruct (decide (Some p = k)) as [<-|Hk];
      [rewrite lookup_insert_eq|rewrite lookup_insert_ne by exact Hk].
    + intros [= <-]. exists p, n. split; [reflexivity|]. split.
      * rewrite lookup_app_r by lia. now rewrite Nat.sub_diag.
      * intros w0. rewrite (HRCNode_init_world fs (Some p) w0 w).
        now rewrite Hinit.
    + intros Hl. destruct (Hinv k l Hl) as (file & n0 & -> & Hn0 & Hrest).
      exists file, n0. split; [reflexivity|]. split; [|exact Hrest].
      rewrite lookup_app_l; [exact Hn0|]. eapply lookup_lt_Some; eauto.
  - apply NodeCache_getitem_Err in Hget as (_ & Hca & Hhe).
    intros k l. rewrite Hca, Hhe. apply Hinv.
Qed.

Lemma reachable_built (np : string) (w : world) :
  reachable fs np w -> store_built fs w.
Proof.
  induction 1 as [|ev w Hw IH|item w Hw IH].
  - apply store_built_init.
  - exact IH.
  - now apply getitem_built.
Qed.

(** A node built from a file carries its path and the number its name
    gives. *)
Lemma HRCNode_init_fst_Ok (file : string) (w : world) (n : HRCNode) :
  fst (HRCNode_init fs (Some file) w) = Ok n ->
  HRCNode_filename n = file /\
  py_int (strip (basename file) ".json") = Some (HRCNode_id n).
Proof.
  intros H. destruct (HRCNode_init fs (Some file) w) as [r w'] eqn:Hinit.
  simpl in H. subst r.
  destruct (HRCNode_init_Ok fs file w w' n Hinit) as (Hf & Hid & _). auto.
Qed.


End Built.



(** ** The further properties at the sample exports *)

Lemma sample_open_ok : is_Ok (fst (HRCSim_init sample_fs "/e")) = true.
Proof. vm_compute. reflexivity. Qed.

Lemma sample_world_reachable : reachable sample_fs "/e/nodes" sample_world.
Proof. exact (proj1 (HRCSim_init_facts sample_fs "/e" sample_open_ok)). Qed.

Lemma reachable_store_linked_witness :
  reachable sample_fs "/e/nodes" sample_world /\
  (forall k l, cache sample_world !! k = Some l ->
     exists file n,
       k = Some file /\ heap sample_world !! l = Some n /\
       HRCNode_filename n = file /\
       py_int (strip (basename file) ".json") = Some (HRCNode_id n)) /\
  (forall k1 k2 l,
     cache sample_world !! k1 = Some l -> cache sample_world !! k2 = Some l ->
     k1 = k2).
Proof.
  split; [exact sample_world_reachable|].
  exact (reachable_store_linked sample_fs "/e/nodes" sample_world
           sample_world_reachable).
Defined.

Lemma HRCSim_init_nodes_witness :
  is_Ok (fst (HRCSim_init sample_fs "/e")) = true /\
  exists files,
    listdir sample_fs (join "/e" "nodes") = Ok files /\
    Forall2 (cached_entry sample_fs (snd (HRCSim_init sample_fs "/e")))
            (json_files files) (nodes_of (fst (HRCSim_init sample_fs "/e"))).
Proof.
  split; [exact sample_open_ok|].
  exact (HRCSim_init_nodes sample_fs "/e" sample_open_ok).
Defined.

Lemma HRCSim_init_opens_once_witness :
  is_Ok (fst (HRCSim_init sample_fs "/e")) = true /\
  "/e/nodes/0.json" <> join "/e" "settings.json" /\
  opens "/e/nodes/0.json" (trace (snd (HRCSim_init sample_fs "/e")))
  = match cache (snd (HRCSim_init sample_fs "/e")) !! Some "/e/nodes/0.json" with
    | Some _ => 1%nat
    | None => 0%nat
    end.
Proof.
  assert (Hne : "/e/nodes/0.json" <> join "/e" "settings.json")
    by (vm_compute; discriminate).
  split; [exact sample_open_ok|]. split; [exact Hne|].
  exact (HRCSim_init_opens_once sample_fs "/e" "/e/nodes/0.json"
           sample_open_ok Hne).
Defined.

Lemma lookup_after_open_witness :
  let files := ["0.json"; "notes.txt"; "1.json"] in
  is_Ok (fst (HRCSim_init sample_fs "/e")) = true /\
  listdir sample_fs (join "/e" "nodes") = Ok files /\
  In "0.json" files /\
  endswith "0.json" ".json" = true /\
  exists l,
    In l (nodes_of (fst (HRCSim_init sample_fs "/e"))) /\
    HRCSim_get_node sample_fs (PVal (VStr (join (join "/e" "nodes") "0.json")))
                    (snd (HRCSim_init sample_fs "/e"))
    = (Ok l, snd (HRCSim_init sample_fs "/e")).
Proof.
  intros files.
  assert (Hls : listdir sample_fs (join "/e" "nodes") = Ok files)
    by (vm_compute; reflexivity).
  assert (Hin : In "0.json" files) by (simpl; auto).
  split; [exact sample_open_ok|]. split; [exact Hls|]. split; [exact Hin|].
  split; [reflexivity|].
  exact (lookup_after_open sample_fs "/e" "0.json" files sample_open_ok Hls Hin
           eq_refl).
Defined.

Lemma get_node_by_id_has_id_witness :
  let w := NodeCache_init "/e/nodes" in
  let w' := snd (HRCSim_get_node sample_fs (PVal (VInt 1)) w) in
  startswith (getcwd sample_fs) "/" = true /\
  reachable sample_fs "/e/nodes" w /\
  HRCSim_get_node sample_fs (PVal (VInt 1)) w = (Ok 0%nat, w') /\
  exists n, heap w' !! 0%nat = Some n /\ HRCNode_id n = 1.
Proof.
  intros w w'.
  assert (Hget : HRCSim_get_node sample_fs (PVal (VInt 1)) w = (Ok 0%nat, w'))
    by (vm_compute; reflexivity).
  split; [reflexivity|]. split; [constructor|]. split; [exact Hget|].
  exact (get_node_by_id_has_id sample_fs eq_refl "/e/nodes" 1 w w' 0%nat
           (reachable_init sample_fs "/e/nodes") Hget).
Defined.

Lemma take_action_reaches_successor_witness :
  let a := mkAction VNone (VStr "R") (VInt 200) (VInt 1) in
  let w := NodeCache_init "/e/nodes" in
  let w' := snd (HRCNode_take_action sample_fs sample_node0 (PVal (VInt 1)) w) in
  startswith (getcwd sample_fs) "/" = true /\
  reachable sample_fs "/e/nodes" w /\
  0 <= 1 /\
  HRCNode_actions sample_node0 !! Z.to_nat 1 = Some a /\
  Action_next_id a = VInt 1 /\
  HRCNode_take_action sample_fs sample_node0 (PVal (VInt 1)) w
  = (Ok (PNode 0%nat), w') /\
  exists l n, PNode 0%nat = PNode l /\ heap w' !! l = Some n /\ HRCNode_id n = 1.
Proof.
  intros a w w'.
  assert (Hrun : HRCNode_take_action sample_fs sample_node0 (PVal (VInt 1)) w
                 = (Ok (PNode 0%nat), w')) by (vm_compute; reflexivity).
  assert (Hi : 0 <= 1) by lia.
  split; [reflexivity|]. split; [constructor|]. split; [exact Hi|].
  split; [reflexivity|]. split; [reflexivity|]. split; [exact Hrun|].
  exact (take_action_reaches_successor sample_fs eq_refl "/e/nodes" sample_node0
           1 1 a w w' (PNode 0%nat) (reachable_init sample_fs "/e/nodes")
           Hi eq_refl eq_refl Hrun).
Defined.

Lemma HRCNode_id_strips_characters_witness :
  fst (HRCNode_init odd_fs (Some "/odd/nodes/7.json.json")
                    (NodeCache_init "/odd/nodes")) = Ok odd_node7 /\
  basename "/odd/nodes/7.json.json" = str_of_Z 7 ++ ".json.json" /\
  all_in ".json" ".json.json" = true /\
  HRCNode_id odd_node7 = 7.
Proof.
  assert (H1 : fst (HRCNode_init odd_fs (Some "/odd/nodes/7.json.json")
                                 (NodeCache_init "/odd/nodes")) = Ok odd_node7)
    by (vm_compute; reflexivity).
  assert (H2 : basename "/odd/nodes/7.json.json" = str_of_Z 7 ++ ".json.json")
    by (vm_compute; reflexivity).
  split; [exact H1|]. split; [exact H2|]. split; [reflexivity|].
  exact (HRCNode_id_strips_characters odd_fs "/odd/nodes/7.json.json"
           ".json.json" 7 (NodeCache_init "/odd/nodes") odd_node7 H1 H2 eq_refl).
Defined.

Lemma HRCNode_str_tells_id_witness :
  let other := mkHRCNode "/odd/nodes/1.json" 1 node0_json None None None None
                         [] [] in
  HRCNode_str sample_node1 = HRCNode_str other /\
  HRCNode_id sample_node1 = HRCNode_id other.
Proof.
  intros other.
  assert (H : HRCNode_str sample_node1 = HRCNode_str other)
    by (vm_compute; reflexivity).
  split; [exact H|].
  exact (HRCNode_str_tells_id sample_node1 other H).
Defined.

Lemma get_node_after_open_witness :
  let files := ["0.json"; "notes.txt"; "1.json"] in
  let w := snd (HRCSim_init sample_fs "/e") in
  startswith (getcwd sample_fs) "/" = true /\
  startswith "/e" "/" = true /\
  is_Ok (fst (HRCSim_init sample_fs "/e")) = true /\
  listdir sample_fs (join "/e" "nodes") = Ok files /\
  In (str_of_Z 1 ++ ".json") files /\
  path_exists sample_fs
    (abspath (getcwd sample_fs) (join (join "/e" "nodes") (str_of_Z 1 ++ ".json")))
  = true /\
  exists l n,
    In l (nodes_of (fst (HRCSim_init sample_fs "/e"))) /\
    HRCSim_get_node sample_fs (PVal (VInt 1)) w = (Ok l, w) /\
    heap w !! l = Some n /\ HRCNode_id n = 1.
Proof.
  intros files w.
  assert (Hls : listdir sample_fs (join "/e" "nodes") = Ok files)
    by (vm_compute; reflexivity).
  assert (Hin : In (str_of_Z 1 ++ ".json") files)
    by (vm_compute; auto).
  split; [reflexivity|]. split; [reflexivity|]. split; [exact sample_open_ok|].
  split; [exact Hls|]. split; [exact Hin|]. split; [reflexivity|].
  exact (get_node_after_open sample_fs eq_refl "/e" 1 files
           eq_refl sample_open_ok Hls Hin eq_refl).
Defined.

Lemma sample_node0_loaded :
  fst (HRCNode_init sample_fs (Some "/e/nodes/0.json") (NodeCache_init "/e/nodes"))
  = Ok sample_node0.
Proof. vm_compute. reflexivity. Qed.

Lemma sample_node1_loaded :
  fst (HRCNode_init sample_fs (Some "/e/nodes/1.json") (NodeCache_init "/e/nodes"))
  = Ok sample_node1.
Proof. vm_compute. reflexivity. Qed.

Lemma HRCNode_actions_in_order_witness :
  fst (HRCNode_init sample_fs (Some "/e/nodes/0.json") (NodeCache_init "/e/nodes"))
  = Ok sample_node0 /\
  exists arr xs,
    subscript (HRCNode_as_json sample_node0) (VStr "actions") = Ok arr /\
    iterate arr = Ok xs /\
    Forall2 action_of_json xs (HRCNode_get_actions sample_node0).
Proof.
  split; [exact sample_node0_loaded|].
  exact (HRCNode_actions_in_order sample_fs "/e/nodes/0.json"
           (NodeCache_init "/e/nodes") sample_node0 sample_node0_loaded).
Defined.

Lemma sample_hands_NoDup :
  NoDup (map fst [("AA", hand_json 2); ("KK", hand_json 2)]).
Proof.
  simpl. constructor.
  - intros H. apply list_elem_of_In in H. simpl in H.
    destruct H as [H|[]]. discriminate H.
  - constructor; [|constructor]. intros H. apply list_elem_of_In in H.
    destruct H.
Qed.

Lemma HRCNode_hands_in_order_witness :
  let kvs := [("AA", hand_json 2); ("KK", hand_json 2)] in
  fst (HRCNode_init sample_fs (Some "/e/nodes/0.json") (NodeCache_init "/e/nodes"))
  = Ok sample_node0 /\
  subscript (HRCNode_as_json sample_node0) (VStr "hands") = Ok (VDict kvs) /\
  NoDup (map fst kvs) /\
  Forall2 hand_of_json kvs (HRCNode_get_hands sample_node0).
Proof.
  intros kvs.
  split; [exact sample_node0_loaded|]. split; [reflexivity|].
  split; [exact sample_hands_NoDup|].
  exact (HRCNode_hands_in_order sample_fs "/e/nodes/0.json"
           (NodeCache_init "/e/nodes") sample_node0 kvs sample_node0_loaded
           eq_refl sample_hands_NoDup).
Defined.

Lemma get_hands_as_json_round_trip_witness :
  let kvs := [("AA", hand_json 2); ("KK", hand_json 2)] in
  fst (HRCNode_init sample_fs (Some "/e/nodes/0.json") (NodeCache_init "/e/nodes"))
  = Ok sample_node0 /\
  subscript (HRCNode_as_json sample_node0) (VStr "hands") = Ok (VDict kvs) /\
  NoDup (map fst kvs) /\
  HRCNode_get_hands_as_json sample_node0
  = map (fun kv => (VStr (fst kv), snd kv)) kvs.
Proof.
  intros kvs.
  split; [exact sample_node0_loaded|]. split; [reflexivity|].
  split; [exact sample_hands_NoDup|].
  exact (get_hands_as_json_round_trip sample_fs "/e/nodes/0.json"
           (NodeCache_init "/e/nodes") sample_node0 kvs sample_node0_loaded
           eq_refl sample_hands_NoDup).
Defined.

Lemma HRCNode_hands_shape_witness :
  fst (HRCNode_init sample_fs (Some "/e/nodes/0.json") (NodeCache_init "/e/nodes"))
  = Ok sample_node0 /\
  exists v,
    subscript (HRCNode_as_json sample_node0) (VStr "hands") = Ok v /\
    ((exists kvs, v = VDict kvs) \/
     ((v = VList [] \/ v = VStr "") /\ HRCNode_get_hands sample_node0 = [])).
Proof.
  split; [exact sample_node0_loaded|].
  exact (HRCNode_hands_shape sample_fs "/e/nodes/0.json"
           (NodeCache_init "/e/nodes") sample_node0 sample_node0_loaded).
Defined.

Lemma Action_str_unknown_kind_witness :
  let kvs := [("type", VStr "X"); ("amount", VInt 50); ("node", VInt 7)] in
  dict_get kvs "type" = Some (VStr "X") /\
  dict_get kvs "amount" = Some (VInt 50) /\
  "X" <> "R" /\ "X" <> "F" /\ "X" <> "C" /\
  exists a,
    Action_init (VDict kvs) VNone = Ok a /\
    Action_str (fun _ => "") a = Err (KeyError (VStr "X")).
Proof.
  intros kvs.
  assert (HR : "X" <> "R") by discriminate.
  assert (HF : "X" <> "F") by discriminate.
  assert (HC : "X" <> "C") by discriminate.
  split; [reflexivity|]. split; [reflexivity|].
  split; [exact HR|]. split; [exact HF|]. split; [exact HC|].
  exact (Action_str_unknown_kind (fun _ => "") kvs "X" (VInt 50)
           eq_refl eq_refl HR HF HC).
Defined.

Lemma open_checks_settings_first_witness :
  is_Ok (c <-? load_json sample_fs (join "/nowhere" "settings.json");;
         SolveSettings_init c)%res = false /\
  exists e,
    HRCSim_init sample_fs "/nowhere"
    = (Err e, mkWorld (join "/nowhere" "nodes") ∅ []
                      [EOpen (join "/nowhere" "settings.json")]).
Proof.
  assert (H : is_Ok (c <-? load_json sample_fs (join "/nowhere" "settings.json");;
                     SolveSettings_init c)%res = false)
    by (vm_compute; reflexivity).
  split; [exact H|].
  exact (open_checks_settings_first sample_fs "/nowhere" H).
Defined.

Lemma EngineConfiguration_needs_four_witness :
  let l := [VDict [("buckets", VInt 169)]; VDict [("buckets", VInt 64)]] in
  let d := VDict [("abstractions", VList l)] in
  subscript d (VStr "abstractions") = Ok (VList l) /\
  (length l < 4)%nat /\
  is_Ok (EngineConfiguration_init d) = false.
Proof.
  intros l d.
  assert (Hlen : (length l < 4)%nat) by (simpl; lia).
  split; [reflexivity|]. split; [exact Hlen|].
  exact (EngineConfiguration_needs_four d l eq_refl Hlen).
Defined.

Lemma load_with_incomplete_history_witness :
  let file := "/odd/nodes/5.json" in
  let w := NodeCache_init "/odd/nodes" in
  let history := VList [VDict [("player", VInt 1); ("type", VStr "R")]] in
  py_int (strip (basename file) ".json") = Some 5 /\
  load_json odd_fs file = Ok (VDict node5_items) /\
  dict_get node5_items "player" = Some (VInt 2) /\
  dict_get node5_items "street" = Some (VInt 0) /\
  dict_get node5_items "children" = Some (VInt 1) /\
  dict_get node5_items "sequence" = Some history /\
  (xs <-? iterate history;; rmap PreviousAction_init xs)%res
  = Err (KeyError (VStr "amount")) /\
  is_Ok (parse_actions (VDict node5_items)) = true /\
  is_Ok (parse_hands (VDict node5_items)) = true /\
  exists n w',
    HRCNode_init odd_fs (Some file) w = (Ok n, w') /\
    HRCNode_player n = Some (VInt 2) /\
    HRCNode_street n = Some (VInt 0) /\
    HRCNode_children n = Some (VInt 1) /\
    HRCNode_sequence n = None /\
    In (EPrint [PrExn (KeyError (VStr "amount"))]) (trace w').
Proof.
  intros file w history.
  assert (H1 : py_int (strip (basename file) ".json") = Some 5)
    by (vm_compute; reflexivity).
  assert (H2 : load_json odd_fs file = Ok (VDict node5_items))
    by (vm_compute; reflexivity).
  assert (H7 : (xs <-? iterate history;; rmap PreviousAction_init xs)%res
               = Err (KeyError (VStr "amount"))) by (vm_compute; reflexivity).
  assert (H8 : is_Ok (parse_actions (VDict node5_items)) = true)
    by (vm_compute; reflexivity).
  assert (H9 : is_Ok (parse_hands (VDict node5_items)) = true)
    by (vm_compute; reflexivity).
  split; [exact H1|]. split; [exact H2|].
  split; [reflexivity|]. split; [reflexivity|]. split; [reflexivity|].
  split; [reflexivity|]. split; [exact H7|]. split; [exact H8|].
  split; [exact H9|].
  exact (load_with_incomplete_history odd_fs file 5 node5_items
           (VInt 2) (VInt 0) (VInt 1) history (VStr "amount") w
           H1 H2 eq_refl eq_refl eq_refl eq_refl H7 H8 H9).
Defined.

Lemma ActionSequence_agrees_witness :
  let history := [mkPreviousAction (VInt 1) (VStr "R") (VInt 200)] in
  fst (HRCNode_init sample_fs (Some "/e/nodes/1.json") (NodeCache_init "/e/nodes"))
  = Ok sample_node1 /\
  HRCNode_sequence sample_node1 = Some history /\
  exists v,
    subscript (HRCNode_as_json sample_node1) (VStr "sequence") = Ok v /\
    ActionSequence_init v = Ok (mkActionSequence v history).
Proof.
  intros history.
  split; [exact sample_node1_loaded|]. split; [reflexivity|].
  exact (ActionSequence_agrees sample_fs "/e/nodes/1.json"
           (NodeCache_init "/e/nodes") sample_node1 history sample_node1_loaded
           eq_refl).
Defined.

Lemma canonical_key_shape_witness :
  startswith (getcwd sample_fs) "/" = true /\
  canonicalize sample_fs "/e/nodes" (PVal (VStr "./1.json"))
  = Ok (Some "/e/nodes/1.json") /\
  startswith "/e/nodes/1.json" "/" = true /\
  abspath (getcwd sample_fs) "/e/nodes/1.json" = "/e/nodes/1.json" /\
  endswith "/e/nodes/1.json" ".json" = true.
Proof.
  assert (H : canonicalize sample_fs "/e/nodes" (PVal (VStr "./1.json"))
              = Ok (Some "/e/nodes/1.json")) by (vm_compute; reflexivity).
  split; [reflexivity|]. split; [exact H|].
  exact (canonical_key_shape sample_fs "/e/nodes" (PVal (VStr "./1.json"))
           "/e/nodes/1.json" eq_refl H).
Defined.

Lemma take_action_after_open_witness :
  let files := ["0.json"; "notes.txt"; "1.json"] in
  let a := mkAction VNone (VStr "R") (VInt 200) (VInt 1) in
  let w := snd (HRCSim_init sample_fs "/e") in
  startswith (getcwd sample_fs) "/" = true /\
  startswith "/e" "/" = true /\
  is_Ok (fst (HRCSim_init sample_fs "/e")) = true /\
  listdir sample_fs (join "/e" "nodes") = Ok files /\
  0 <= 1 /\
  HRCNode_actions sample_node0 !! Z.to_nat 1 = Some a /\
  Action_next_id a = VInt 1 /\
  In (str_of_Z 1 ++ ".json") files /\
  path_exists sample_fs
    (abspath (getcwd sample_fs) (join (join "/e" "nodes") (str_of_Z 1 ++ ".json")))
  = true /\
  exists l n,
    HRCNode_take_action sample_fs sample_node0 (PVal (VInt 1)) w
    = (Ok (PNode l), w) /\
    In l (nodes_of (fst (HRCSim_init sample_fs "/e"))) /\
    heap w !! l = Some n /\ HRCNode_id n = 1.
Proof.
  intros files a w.
  assert (Hls : listdir sample_fs (join "/e" "nodes") = Ok files)
    by (vm_compute; reflexivity).
  assert (Hin : In (str_of_Z 1 ++ ".json") files) by (vm_compute; auto).
  assert (Hi : 0 <= 1) by lia.
  split; [reflexivity|]. split; [reflexivity|]. split; [exact sample_open_ok|].
  split; [exact Hls|]. split; [exact Hi|]. split; [reflexivity|].
  split; [reflexivity|]. split; [exact Hin|]. split; [reflexivity|].
  exact (take_action_after_open sample_fs eq_refl "/e" files
           sample_node0 1 1 a eq_refl sample_open_ok Hls Hi eq_refl eq_refl Hin
           eq_refl).
Defined.

Lemma take_action_dangling_witness :
  let self := mkHRCNode "/e/nodes/0.json" 0 node0_json None None None None
                        [mkAction VNone (VStr "C") (VInt 0) (VInt 999)] [] in
  let a := mkAction VNone (VStr "C") (VInt 0) (VInt 999) in
  startswith (getcwd sample_fs) "/" = true /\
  0 <= 0 /\
  HRCNode_actions self !! Z.to_nat 0 = Some a /\
  Action_next_id a = VInt 999 /\
  path_exists sample_fs
    (abspath (getcwd sample_fs)
       (join (nodes_path sample_world) (str_of_Z 999 ++ ".json"))) = false /\
  HRCNode_take_action sample_fs self (PVal (VInt 0)) sample_world
  = (Err (KeyError
            (VStr ("No such node "
                   ++ abspath (getcwd sample_fs)
                        (join (nodes_path sample_world)
                              (str_of_Z 999 ++ ".json"))))), sample_world).
Proof.
  intros self a.
  assert (Hi : 0 <= 0) by lia.
  assert (Hex : path_exists sample_fs
                  (abspath (getcwd sample_fs)
                     (join (nodes_path sample_world) (str_of_Z 999 ++ ".json")))
                = false) by (vm_compute; reflexivity).
  split; [reflexivity|]. split; [exact Hi|]. split; [reflexivity|].
  split; [reflexivity|]. split; [exact Hex|].
  exact (take_action_dangling sample_fs self 0 999 a sample_world eq_refl Hi
           eq_refl eq_refl Hex).
Defined.

Lemma failed_load_not_cached_witness :
  let w := NodeCache_init "/bad/nodes" in
  let item := PVal (VInt 2) in
  let p := "/bad/nodes/2.json" in
  canonicalize sample_fs (nodes_path w) item = Ok (Some p) /\
  cache w !! Some p = None /\
  py_int (strip (basename p) ".json") = Some 2 /\
  is_Ok (fst (HRCNode_init sample_fs (Some p) w)) = false /\
  is_Ok (fst (NodeCache_getitem sample_fs item w)) = false /\
  canonicalize sample_fs (nodes_path (snd (NodeCache_getitem sample_fs item w)))
               item = Ok (Some p) /\
  cache (snd (NodeCache_getitem sample_fs item w)) !! Some p = None /\
  opens p (trace (snd (NodeCache_getitem sample_fs item w)))
  = S (opens p (trace w)).
Proof.
  intros w item p.
  assert (H1 : canonicalize sample_fs (nodes_path w) item = Ok (Some p))
    by (vm_compute; reflexivity).
  assert (H2 : cache w !! Some p = None) by reflexivity.
  assert (H3 : py_int (strip (basename p) ".json") = Some 2)
    by (vm_compute; reflexivity).
  assert (H4 : is_Ok (fst (HRCNode_init sample_fs (Some p) w)) = false)
    by (vm_compute; reflexivity).
  split; [exact H1|]. split; [exact H2|]. split; [exact H3|]. split; [exact H4|].
  exact (failed_load_not_cached sample_fs item p 2 w H1 H2 H3 H4).
Defined.

Lemma open_rejects_non_numeric_name_witness :
  let files := ["5.json"; "7.json.json"; "readme.json"] in
  startswith (getcwd odd_fs) "/" = true /\
  listdir odd_fs (join "/odd" "nodes") = Ok files /\
  In "readme.json" files /\
  endswith "readme.json" ".json" = true /\
  no_slash "readme.json" = true /\
  all_chars is_ascii "readme.json" = true /\
  py_int (strip "readme.json" ".json") = None /\
  is_Ok (fst (HRCSim_init odd_fs "/odd")) = false.
Proof.
  intros files.
  assert (Hls : listdir odd_fs (join "/odd" "nodes") = Ok files)
    by (vm_compute; reflexivity).
  assert (Hin : In "readme.json" files) by (simpl; auto).
  assert (Hid : py_int (strip "readme.json" ".json") = None)
    by (vm_compute; reflexivity).
  split; [reflexivity|]. split; [exact Hls|]. split; [exact Hin|].
  split; [reflexivity|]. split; [reflexivity|]. split; [reflexivity|].
  split; [exact Hid|].
  exact (open_rejects_non_numeric_name odd_fs "/odd" "readme.json" files
           eq_refl Hls Hin eq_refl eq_refl eq_refl Hid).
Defined.

Lemma SolveSettings_round_trip_witness :
  let s := match SolveSettings_init settings_json with
           | Ok s => Some s
           | Err _ => None
           end in
  exists s0,
    s = Some s0 /\
    SolveSettings_init settings_json = Ok s0 /\
    SolveSettings_as_json s0 = settings_json /\
    SolveSettings_init (SolveSettings_as_json s0) = Ok s0.
Proof.
  intros s.
  destruct (SolveSettings_init settings_json) as [s0|e] eqn:Hs;
    [|vm_compute in Hs; discriminate Hs].
  exists s0. split; [reflexivity|]. split; [reflexivity|].
  exact (SolveSettings_round_trip settings_json s0 Hs).
Defined.
